(** * muse-db: the recommendation selection engine

    A shallow embedding of the picker service ([pickMovie] and its helpers),
    the query layer ([src/db/queries.ts]), the configuration
    ([src/config.ts]) and the [/pick], [/candidates] and [/movies/search]
    route handlers, followed by the properties of the engine.

    Conventions of the embedding.
    - JavaScript integers (ids, counts, minutes, years) are [Z].
    - [vote_average] is a [DECIMAL(3,1)] column: an exact rational, [Q].
    - Numbers that come out of [Math.log10] or [Math.random] (weights, the
      sampling cursor) are real numbers, [R]: the idealisation of an IEEE
      double.  The properties below rest only on what doubles share with the
      reals: signs, exact zeros, the order of two weights, and membership.
      The constants of the configuration are exact rationals.
    - A table is the list of its rows.  SQL leaves the order of the rows of
      a [SELECT] without [ORDER BY] open; the model returns them in table
      order, and no property below depends on that order: lists of such rows
      are compared up to a rearrangement.
    - Every [await pool.query(...)] may reject.  The world carries the list
      of outcomes of the coming queries ([faults]), and the code runs in a
      state-and-exception monad [M] over that world.
    - [Math.random()] reads the next value of a stream held by the world. *)

From Stdlib Require Import ZArith QArith Qround Qreals Reals Lra Lia.
From Stdlib Require Import List String Ascii Bool Permutation Sorted.
Import ListNotations.

Local Close Scope Q_scope.
Local Open Scope Z_scope.
Local Open Scope string_scope.
Local Open Scope list_scope.

(* ================================================================== *)
(** * JavaScript built-ins used by the engine *)
(* ================================================================== *)

Module JS.

(** [Math.log10]. *)
Definition log10 (x : R) : R := (ln x / ln 10)%R.

(** [x <= y] on numbers, as a boolean. *)
Definition Rleb (x y : R) : bool := if Rle_dec x y then true else false.

(** [Math.ceil] on an exact rational. *)
Definition ceil (q : Q) : Z := Qceiling q.

(** Truthiness of a string: only the empty string is falsy. *)
Definition truthy_string (s : string) : bool :=
  match s with
  | EmptyString => false
  | String _ _ => true
  end.

(** Truthiness of an integer number: only [0] is falsy. *)
Definition truthy_number (n : Z) : bool := negb (n =? 0)%Z.

(** [String.prototype.toLowerCase], on the ASCII letters. *)
Definition lower_ascii (c : ascii) : ascii :=
  let n := nat_of_ascii c in
  if ((65 <=? n) && (n <=? 90))%nat then ascii_of_nat (n + 32) else c.

Fixpoint toLowerCase (s : string) : string :=
  match s with
  | EmptyString => EmptyString
  | String c rest => String (lower_ascii c) (toLowerCase rest)
  end.

(** [String.prototype.trim], on the ASCII white space. *)
Definition is_space (c : ascii) : bool :=
  let n := nat_of_ascii c in
  ((9 <=? n) && (n <=? 13) || (n =? 32))%nat.

Fixpoint trimStart (s : string) : string :=
  match s with
  | EmptyString => EmptyString
  | String c rest => if is_space c then trimStart rest else s
  end.

Fixpoint trimEnd (s : string) : string :=
  match s with
  | EmptyString => EmptyString
  | String c rest =>
      match trimEnd rest with
      | EmptyString => if is_space c then EmptyString else String c EmptyString
      | kept => String c kept
      end
  end.

Definition trim (s : string) : string := trimEnd (trimStart s).

(** [Math.min] of two finite numbers, each given by its exact value (every
    finite double is a rational). *)
Definition Math_min (x y : Q) : Q := if Qle_bool x y then x else y.

(** [ToIntegerOrInfinity] of a finite number: the fraction is dropped,
    towards zero.  [slice] applies it to its arguments. *)
Definition toInteger (q : Q) : Z :=
  if Qle_bool 0 q then Qfloor q else Qceiling q.

(** [Array.prototype.slice(start, end)]: negative indices count from the
    end of the array, and both are clamped to the array. *)
Definition clamp_index (len k : Z) : Z :=
  if (k <? 0)%Z then Z.max (len + k) 0 else Z.min k len.

Definition slice {A : Type} (l : list A) (start stop : Z) : list A :=
  let len := Z.of_nat (List.length l) in
  let from := clamp_index len start in
  let final := clamp_index len stop in
  firstn (Z.to_nat (Z.max (final - from) 0)) (skipn (Z.to_nat from) l).

(** [Array.prototype.sort(compareFn)] with a consistent comparator is a
    stable sort.  [before_eq a b] says that [compareFn(a, b) <= 0], that is,
    [a] may stay in front of [b]. *)
Section Sort.
Context {A : Type} (before_eq : A -> A -> bool).

Fixpoint insert (x : A) (l : list A) : list A :=
  match l with
  | [] => [x]
  | y :: rest =>
      if before_eq x y then x :: y :: rest else y :: insert x rest
  end.

Fixpoint sort (l : list A) : list A :=
  match l with
  | [] => []
  | x :: rest => insert x (sort rest)
  end.

(** Every element may stay in front of all the elements behind it. *)
Definition in_order (l : list A) : Prop :=
  StronglySorted (fun a b => before_eq a b = true) l.
End Sort.

(** [[...new Set(xs)]]: the distinct elements in order of first
    appearance. *)
Fixpoint uniq_acc (seen : list Z) (xs : list Z) : list Z :=
  match xs with
  | [] => []
  | x :: rest =>
      if existsb (Z.eqb x) seen then uniq_acc seen rest
      else x :: uniq_acc (x :: seen) rest
  end.

Definition uniq (xs : list Z) : list Z := uniq_acc [] xs.

(** [candidates[candidates.length - 1]]. *)
Definition last_elem {A : Type} (l : list A) : option A :=
  nth_error l (List.length l - 1).

End JS.

(* ================================================================== *)
(** * Domain types ([types/index.ts]) *)
(* ================================================================== *)

Module Movie.
Record t : Type := mk {
  id : Z;
  title : string;
  year : Z;
  runtime : Z;
  synopsis : string;
  posterUrl : string;
  voteAverage : Q;
  genres : list string
}.
End Movie.

Module MovieRow.
Record t : Type := mk {
  id : Z;
  tmdb_id : Z;
  title : string;
  original_title : string;
  year : Z;
  runtime : option Z;
  synopsis : option string;
  poster_path : option string;
  vote_average : Q;
  vote_count : Z;
  original_language : string;
  adult : bool;
  created_at : Z
}.

Definition eq_dec (a b : t) : {a = b} + {a <> b}.
Proof.
  repeat decide equality.
Defined.
End MovieRow.

Module Genre.
Record t : Type := mk { id : Z; name : string }.
End Genre.

Inductive Era : Type :=
| Era_1980_1989
| Era_1990_1999
| Era_2000_2009
| Era_2010_2019
| Era_2020_now.

Module PickFilters.
Record t : Type := mk {
  genreIds : option (list Z);
  era : option Era;
  origin : option (list string);
  minDuration : option Z;
  maxDuration : option Z
}.

(** The object [{}]. *)
Definition empty : t := mk None None None None None.

Definition with_genreIds (g : option (list Z)) (f : t) : t :=
  mk g (era f) (origin f) (minDuration f) (maxDuration f).

Definition with_origin (o : option (list string)) (f : t) : t :=
  mk (genreIds f) (era f) o (minDuration f) (maxDuration f).
End PickFilters.

Module PickRequest.
Record t : Type := mk { sessionId : string; filters : PickFilters.t }.
End PickRequest.

Module PickResponse.
Record t : Type := mk { movie : option Movie.t; message : option string }.
End PickResponse.

Module WeightedCandidate.
Record t : Type := mk {
  movie : MovieRow.t;
  weight : R;
  genres : list string
}.
End WeightedCandidate.

(* ================================================================== *)
(** * Configuration ([config.ts]) *)
(* ================================================================== *)

Module Config.
Record selection_t : Type := mk_selection {
  minVoteCount : Z;
  minVoteAverage : Q;
  minRuntime : Z;
  recentPicksLimit : nat;
  firstPickTopPercentile : Q
}.

Definition selection : selection_t :=
  {| minVoteCount := 500;
     minVoteAverage := 55 # 10;
     minRuntime := 60;
     recentPicksLimit := 20;
     firstPickTopPercentile := 3 # 10 |}.

Definition tmdbImageBaseUrl : string := "https://image.tmdb.org/t/p/w500".
End Config.

(* ================================================================== *)
(** * The store and the world *)
(* ================================================================== *)

(** A row of [user_picks] (migration 004).  [filters] is the JSONB snapshot
    of the filters passed to [recordPick]. *)
Module UserPick.
Record t : Type := mk {
  id : Z;
  session_id : string;
  movie_id : Z;
  filters : PickFilters.t;
  created_at : Z
}.
End UserPick.

(** A row of [movie_genres] (migration 003). *)
Module MovieGenre.
Record t : Type := mk { movie_id : Z; genre_id : Z }.
End MovieGenre.

Module DB.
Record t : Type := mk {
  movies : list MovieRow.t;
  genres : list Genre.t;
  movie_genres : list MovieGenre.t;
  user_picks : list UserPick.t
}.

(** [id SERIAL PRIMARY KEY] on [movies]. *)
Definition movies_pk (d : t) : Prop := NoDup (map MovieRow.id (movies d)).
End DB.

Module World.
Record t : Type := mk {
  db : DB.t;
  (** outcome of the coming queries: [true] means the query rejects;
      when none is left, the queries complete *)
  faults : list bool;
  (** [NOW()] *)
  clock : Z;
  (** the values [Math.random()] returns, and how many were drawn *)
  random_source : nat -> R;
  random_drawn : nat
}.

Definition random_ok (w : t) : Prop :=
  forall i, (0 <= random_source w i < 1)%R.
End World.

(** Completion of an asynchronous computation: a value, or a rejection. *)
Inductive Completion (A : Type) : Type :=
| Normal (a : A)
| Throw (e : string).
Arguments Normal {A} a.
Arguments Throw {A} e.

Definition M (A : Type) : Type := World.t -> Completion A * World.t.

Definition ret {A : Type} (a : A) : M A := fun w => (Normal a, w).

Definition bind {A B : Type} (m : M A) (k : A -> M B) : M B :=
  fun w =>
    match m w with
    | (Normal a, w') => k a w'
    | (Throw e, w') => (Throw e, w')
    end.

(** [try { body } catch (error) { handler }]. *)
Definition try_catch {A : Type} (body : M A) (handler : string -> M A) : M A :=
  fun w =>
    match body w with
    | (Normal a, w') => (Normal a, w')
    | (Throw e, w') => handler e w'
    end.

Declare Scope monad_scope.
Delimit Scope monad_scope with monad.
Notation "x <- m ;; k" := (bind m (fun x => k))
  (at level 61, m at next level, right associativity) : monad_scope.
Notation "m ;;; k" := (bind m (fun _ => k))
  (at level 61, right associativity) : monad_scope.
Local Open Scope monad_scope.

(** The world after one call of [Math.random()]. *)
Definition after_random (w : World.t) : World.t :=
  World.mk (World.db w) (World.faults w) (World.clock w)
           (World.random_source w) (S (World.random_drawn w)).

(** [Math.random()]. *)
Definition Math_random : M R :=
  fun w => (Normal (World.random_source w (World.random_drawn w)), after_random w).

(** [await pool.query(...)]: the statement [run] is executed against the
    store at time [NOW()], unless the store rejects this query. *)
Definition pool_query {A : Type} (run : Z -> DB.t -> A * DB.t) : M A :=
  fun w =>
    let exec (rest : list bool) :=
      let (a, d) := run (World.clock w) (World.db w) in
      (Normal a,
       World.mk d rest (World.clock w)
                (World.random_source w) (World.random_drawn w)) in
    match World.faults w with
    | [] => exec []
    | false :: rest => exec rest
    | true :: rest =>
        (Throw "query failed",
         World.mk (World.db w) rest (World.clock w)
                  (World.random_source w) (World.random_drawn w))
    end.

(** A [SELECT]: the store is left as it is. *)
Definition select {A : Type} (q : DB.t -> A) : Z -> DB.t -> A * DB.t :=
  fun _ d => (q d, d).

(* ================================================================== *)
(** * The query layer ([db/queries.ts]) *)
(* ================================================================== *)

Module Queries.

(** Era to year range mapping. *)
Definition eraToYearRange (era : Era) : Z * option Z :=
  match era with
  | Era_1980_1989 => (1980, Some 1989)
  | Era_1990_1999 => (1990, Some 1999)
  | Era_2000_2009 => (2000, Some 2009)
  | Era_2010_2019 => (2010, Some 2019)
  | Era_2020_now => (2020, None)
  end%Z.

(** The clauses [getCandidateMovies] pushes on [conditions], each with its
    parameters in place of the [$n] placeholders. *)
Inductive Condition : Type :=
| AdultIsFalse                       (* m.adult = false *)
| RuntimeIsNotNull                   (* m.runtime IS NOT NULL *)
| RuntimeGe (n : Z)                  (* m.runtime >= n *)
| RuntimeLe (n : Z)                  (* m.runtime <= n *)
| VoteCountGe (n : Z)                (* m.vote_count >= n *)
| VoteAverageGe (q : Q)              (* m.vote_average >= q *)
| YearBetween (first last : Z)       (* m.year >= first AND m.year <= last *)
| YearGe (first : Z)                 (* m.year >= first *)
| LanguageAny (codes : list string)  (* m.original_language = ANY(codes) *)
| IdNotAll (ids : list Z)            (* m.id != ALL(ids) *)
| GenreAny (ids : list Z).           (* mg.genre_id = ANY(ids) *)

(** [SELECT DISTINCT m.* FROM movies m <genreJoin>
     WHERE <conditions joined by AND> LIMIT <limit>]. *)
Record CandidateQuery : Type := mkQuery {
  genreJoin : bool;
  conditions : list Condition;
  limit : nat
}.

Definition push_if {A : Type} (b : bool) (xs : list A) (l : list A) : list A :=
  if b then l ++ xs else l.

Definition nonempty {A : Type} (o : option (list A)) : bool :=
  match o with
  | Some (_ :: _) => true
  | _ => false
  end.

Definition get_list {A : Type} (o : option (list A)) : list A :=
  match o with
  | Some l => l
  | None => []
  end.

(** The query text and parameters built by [getCandidateMovies]. *)
Definition candidateQuery (filters : PickFilters.t) (excludeMovieIds : list Z)
  : CandidateQuery :=
  let conditions :=
    [ AdultIsFalse;
      RuntimeIsNotNull;
      RuntimeGe (Config.minRuntime Config.selection);
      VoteCountGe (Config.minVoteCount Config.selection);
      VoteAverageGe (Config.minVoteAverage Config.selection) ] in
  (* Era filter *)
  let conditions :=
    match PickFilters.era filters with
    | Some era =>
        match eraToYearRange era with
        | (first, Some last) => conditions ++ [YearBetween first last]
        | (first, None) => conditions ++ [YearGe first]
        end
    | None => conditions
    end in
  (* Min duration filter *)
  let conditions :=
    match PickFilters.minDuration filters with
    | Some n => push_if (JS.truthy_number n) [RuntimeGe n] conditions
    | None => conditions
    end in
  (* Max duration filter *)
  let conditions :=
    match PickFilters.maxDuration filters with
    | Some n => push_if (JS.truthy_number n) [RuntimeLe n] conditions
    | None => conditions
    end in
  (* Origin (language) filter *)
  let conditions :=
    push_if (nonempty (PickFilters.origin filters))
      [LanguageAny (map JS.toLowerCase (get_list (PickFilters.origin filters)))]
      conditions in
  (* Exclude recently picked movies *)
  let conditions :=
    push_if (negb (Nat.eqb (List.length excludeMovieIds) 0))
      [IdNotAll excludeMovieIds] conditions in
  (* Genre filter (if specified) *)
  let genreJoin := nonempty (PickFilters.genreIds filters) in
  let conditions :=
    push_if genreJoin [GenreAny (get_list (PickFilters.genreIds filters))]
      conditions in
  mkQuery genreJoin conditions 1000.

(** A row of the [FROM] clause: a movie, joined with a [movie_genres] row
    when the query has the join. *)
Definition FromRow : Type := (MovieRow.t * option MovieGenre.t)%type.

(** SQL comparison of a nullable column: [NULL] never satisfies it. *)
Definition nullable (o : option Z) (p : Z -> bool) : bool :=
  match o with
  | Some v => p v
  | None => false
  end.

Definition holds (c : Condition) (r : FromRow) : bool :=
  let m := fst r in
  match c with
  | AdultIsFalse => negb (MovieRow.adult m)
  | RuntimeIsNotNull =>
      match MovieRow.runtime m with Some _ => true | None => false end
  | RuntimeGe n => nullable (MovieRow.runtime m) (fun v => n <=? v)%Z
  | RuntimeLe n => nullable (MovieRow.runtime m) (fun v => v <=? n)%Z
  | VoteCountGe n => (n <=? MovieRow.vote_count m)%Z
  | VoteAverageGe q => Qle_bool q (MovieRow.vote_average m)
  | YearBetween first last =>
      (first <=? MovieRow.year m)%Z && (MovieRow.year m <=? last)%Z
  | YearGe first => (first <=? MovieRow.year m)%Z
  | LanguageAny codes =>
      existsb (String.eqb (MovieRow.original_language m)) codes
  | IdNotAll ids => negb (existsb (Z.eqb (MovieRow.id m)) ids)
  | GenreAny ids =>
      match snd r with
      | Some mg => existsb (Z.eqb (MovieGenre.genre_id mg)) ids
      | None => false
      end
  end.

(** [FROM movies m] or
    [FROM movies m INNER JOIN movie_genres mg ON m.id = mg.movie_id]. *)
Definition from_rows (join : bool) (d : DB.t) : list FromRow :=
  if join then
    flat_map
      (fun m =>
         map (fun mg => (m, Some mg))
             (filter (fun mg => (MovieRow.id m =? MovieGenre.movie_id mg)%Z)
                     (DB.movie_genres d)))
      (DB.movies d)
  else map (fun m => (m, None)) (DB.movies d).

Definition run_candidateQuery (q : CandidateQuery) (d : DB.t)
  : list MovieRow.t :=
  let matching :=
    filter (fun r => forallb (fun c => holds c r) (conditions q))
           (from_rows (genreJoin q) d) in
  firstn (limit q) (nodup MovieRow.eq_dec (map fst matching)).

(** Fetch candidate movies based on filters. *)
Definition getCandidateMovies (filters : PickFilters.t)
           (excludeMovieIds : list Z) : M (list MovieRow.t) :=
  pool_query (select (run_candidateQuery (candidateQuery filters excludeMovieIds))).

(** [SELECT g.name FROM genres g
     INNER JOIN movie_genres mg ON g.id = mg.genre_id
     WHERE mg.movie_id = $1]. *)
Definition run_movieGenresQuery (movieId : Z) (d : DB.t) : list string :=
  flat_map
    (fun g =>
       map (fun _ => Genre.name g)
           (filter
              (fun mg =>
                 (Genre.id g =? MovieGenre.genre_id mg)%Z
                 && (MovieGenre.movie_id mg =? movieId)%Z)
              (DB.movie_genres d)))
    (DB.genres d).

(** Get genres for a specific movie. *)
Definition getMovieGenres (movieId : Z) : M (list string) :=
  pool_query (select (run_movieGenresQuery movieId)).

(** [Map<number, string[]>], in insertion order. *)
Definition GenreMap : Type := list (Z * list string).

Fixpoint Map_get (m : GenreMap) (k : Z) : option (list string) :=
  match m with
  | [] => None
  | (k', v) :: rest => if (k' =? k)%Z then Some v else Map_get rest k
  end.

Fixpoint Map_set (m : GenreMap) (k : Z) (v : list string) : GenreMap :=
  match m with
  | [] => [(k, v)]
  | (k', v') :: rest =>
      if (k' =? k)%Z then (k', v) :: rest else (k', v') :: Map_set rest k v
  end.

(** [map.get(k) || []]. *)
Definition Map_get_or_empty (m : GenreMap) (k : Z) : list string :=
  match Map_get m k with
  | Some v => v
  | None => []
  end.

(** [SELECT mg.movie_id, g.name FROM genres g
     INNER JOIN movie_genres mg ON g.id = mg.genre_id
     WHERE mg.movie_id = ANY($1)]. *)
Definition run_moviesGenresQuery (movieIds : list Z) (d : DB.t)
  : list (Z * string) :=
  flat_map
    (fun g =>
       map (fun mg => (MovieGenre.movie_id mg, Genre.name g))
           (filter
              (fun mg =>
                 (Genre.id g =? MovieGenre.genre_id mg)%Z
                 && existsb (Z.eqb (MovieGenre.movie_id mg)) movieIds)
              (DB.movie_genres d)))
    (DB.genres d).

(** Get genres for multiple movies at once. *)
Definition getMoviesGenres (movieIds : list Z) : M GenreMap :=
  if Nat.eqb (List.length movieIds) 0 then ret []
  else
    rows <- pool_query (select (run_moviesGenresQuery movieIds)) ;;
    ret (fold_left
           (fun genreMap row =>
              let genres := Map_get_or_empty genreMap (fst row) in
              Map_set genreMap (fst row) (genres ++ [snd row]))
           rows []).

(** [SELECT movie_id FROM user_picks WHERE session_id = $1
     ORDER BY created_at DESC LIMIT $2]. *)
Definition run_recentPicksQuery (sessionId : string) (n : nat) (d : DB.t)
  : list Z :=
  let mine :=
    filter (fun p => String.eqb (UserPick.session_id p) sessionId)
           (DB.user_picks d) in
  let newest_first :=
    JS.sort (fun a b => (UserPick.created_at b <=? UserPick.created_at a)%Z)
            mine in
  map UserPick.movie_id (firstn n newest_first).

(** Get recent picks for a session. *)
Definition getRecentPickMovieIds (sessionId : string) : M (list Z) :=
  pool_query
    (select (run_recentPicksQuery sessionId
               (Config.recentPicksLimit Config.selection))).

(** [SELECT COUNT( * ) as count FROM user_picks WHERE session_id = $1]. *)
Definition run_pickCountQuery (sessionId : string) (d : DB.t) : nat :=
  List.length
    (filter (fun p => String.eqb (UserPick.session_id p) sessionId)
            (DB.user_picks d)).

(** Check if this is the first pick for a session. *)
Definition isFirstPickForSession (sessionId : string) : M bool :=
  count <- pool_query (select (run_pickCountQuery sessionId)) ;;
  ret (Nat.eqb count 0).

(** [INSERT INTO user_picks (session_id, movie_id, filters, created_at)
     VALUES ($1, $2, $3, NOW())]; [id] is the next value of the sequence. *)
Definition run_insertPick (sessionId : string) (movieId : Z)
           (filters : PickFilters.t) (now : Z) (d : DB.t) : unit * DB.t :=
  let row :=
    UserPick.mk (Z.of_nat (List.length (DB.user_picks d)) + 1)
                sessionId movieId filters now in
  (tt, DB.mk (DB.movies d) (DB.genres d) (DB.movie_genres d)
             (DB.user_picks d ++ [row])).

(** Record a pick. *)
Definition recordPick (sessionId : string) (movieId : Z)
           (filters : PickFilters.t) : M unit :=
  pool_query (run_insertPick sessionId movieId filters).

End Queries.

(* ================================================================== *)
(** * The picker service ([services/picker.ts]) *)
(* ================================================================== *)

Module Picker.

(** Calculate weight for a movie based on rating and popularity. *)
Definition calculateWeight (movie : MovieRow.t) : R :=
  let ratingScore := (Q2R (MovieRow.vote_average movie) / 10)%R in
  let popularityScore := JS.log10 (IZR (MovieRow.vote_count movie + 1)) in
  (ratingScore * popularityScore)%R.

(** The [for ... of] loop of [weightedRandomSelect]: [None] when the loop
    runs to its end without returning. *)
Fixpoint walk (random : R) (candidates : list WeightedCandidate.t)
  : option WeightedCandidate.t :=
  match candidates with
  | [] => None
  | candidate :: rest =>
      let random := (random - WeightedCandidate.weight candidate)%R in
      if Rle_dec random 0 then Some candidate else walk random rest
  end.

Definition totalWeight (candidates : list WeightedCandidate.t) : R :=
  fold_left (fun sum c => (sum + WeightedCandidate.weight c)%R) candidates 0%R.

(** Weighted random selection from candidates. *)
Definition weightedRandomSelect (candidates : list WeightedCandidate.t)
  : M (option WeightedCandidate.t) :=
  if Nat.eqb (List.length candidates) 0 then ret None
  else
    r <- Math_random ;;
    let random := (r * totalWeight candidates)%R in
    match walk random candidates with
    | Some candidate => ret (Some candidate)
    | None =>
        (* Fallback to last candidate (shouldn't happen) *)
        ret (JS.last_elem candidates)
    end.

(** Convert database row to API response. *)
Definition toMovie (row : MovieRow.t) (genres : list string) : Movie.t :=
  {| Movie.id := MovieRow.id row;
     Movie.title := MovieRow.title row;
     Movie.year := MovieRow.year row;
     Movie.runtime :=
       match MovieRow.runtime row with
       | Some n => if JS.truthy_number n then n else 0%Z
       | None => 0%Z
       end;
     Movie.synopsis :=
       match MovieRow.synopsis row with
       | Some s => if JS.truthy_string s then s else ""
       | None => ""
       end;
     Movie.posterUrl :=
       match MovieRow.poster_path row with
       | Some p =>
           if JS.truthy_string p then Config.tmdbImageBaseUrl ++ p else ""
       | None => ""
       end;
     Movie.voteAverage := MovieRow.vote_average row;
     Movie.genres := genres |}.

(** The comparator [(a, b) => b.weight - a.weight] of step 5: [a] stays in
    front of [b] when [b.weight - a.weight <= 0]. *)
Definition heavier_first (a b : WeightedCandidate.t) : bool :=
  JS.Rleb (WeightedCandidate.weight b) (WeightedCandidate.weight a).

(** Step 5 of [pickMovie]: on a first pick with more than 10 candidates,
    sort by weight descending and keep only the top percentile.
    [Math.ceil(length * 0.3)] is computed on exact rationals: the double
    product [length * 0.3] rounds to the integer [3 * length / 10] when that
    is one, and is otherwise at least 0.1 away from any integer, so the
    ceiling of the double is the ceiling of the exact product. *)
Definition applyFirstPickBias (isFirstPick : bool)
           (weightedCandidates : list WeightedCandidate.t)
  : list WeightedCandidate.t :=
  if isFirstPick && (10 <? List.length weightedCandidates)%nat then
    (* Sort by weight descending *)
    let sorted := JS.sort heavier_first weightedCandidates in
    (* Keep only top percentile *)
    let topCount :=
      JS.ceil (inject_Z (Z.of_nat (List.length sorted))
               * Config.firstPickTopPercentile Config.selection) in
    JS.slice sorted 0 topCount
  else weightedCandidates.

(** Main pick function. *)
Definition pickMovie (sessionId : string) (filters : PickFilters.t)
  : M (option Movie.t) :=
  (* Step 1: Get recently picked movie IDs to exclude *)
  recentPickIds <- Queries.getRecentPickMovieIds sessionId ;;
  (* Step 2: Fetch candidate movies *)
  candidates <- Queries.getCandidateMovies filters recentPickIds ;;
  if Nat.eqb (List.length candidates) 0 then ret None
  else
    (* Step 3: Get genres for all candidates *)
    let movieIds := map MovieRow.id candidates in
    genresMap <- Queries.getMoviesGenres movieIds ;;
    (* Step 4: Calculate weights *)
    let weightedCandidates :=
      map (fun movie =>
             {| WeightedCandidate.movie := movie;
                WeightedCandidate.weight := calculateWeight movie;
                WeightedCandidate.genres :=
                  Queries.Map_get_or_empty genresMap (MovieRow.id movie) |})
          candidates in
    (* Step 5: Apply first-pick bias *)
    isFirstPick <- Queries.isFirstPickForSession sessionId ;;
    let weightedCandidates := applyFirstPickBias isFirstPick weightedCandidates in
    (* Step 6: Select using weighted random *)
    selected <- weightedRandomSelect weightedCandidates ;;
    match selected with
    | None => ret None
    | Some selected =>
        (* Step 7: Record the pick *)
        Queries.recordPick sessionId
          (MovieRow.id (WeightedCandidate.movie selected)) filters ;;;
        (* Step 8: Return the movie *)
        ret (Some (toMovie (WeightedCandidate.movie selected)
                           (WeightedCandidate.genres selected)))
    end.

End Picker.

(* ================================================================== *)
(** * The route handlers *)
(* ================================================================== *)

(** [Array.prototype.sort(compareFn)] when [compareFn] has effects: an
    insertion sort that asks [compareFn] for every comparison it makes.
    Which comparisons an engine makes is implementation-defined; whatever
    the answers are, the outcome is a rearrangement of the array. *)
Section SortM.
Context {A : Type} (compareFn : A -> A -> M R).

Fixpoint insertM (x : A) (l : list A) : M (list A) :=
  match l with
  | [] => ret [x]
  | y :: rest =>
      v <- compareFn x y ;;
      if Rle_dec v 0 then ret (x :: y :: rest)
      else
        rest' <- insertM x rest ;;
        ret (y :: rest')
  end.

Fixpoint sortM (l : list A) : M (list A) :=
  match l with
  | [] => ret []
  | x :: rest =>
      sorted <- sortM rest ;;
      insertM x sorted
  end.
End SortM.

Module PickRoute.

Inductive Reply : Type :=
| Ok200 (body : PickResponse.t)
| Error (status : Z) (error : string).

Definition noMatchMessage : string :=
  "No movies match your criteria. Try broader filters.".

(** [duration !== undefined && duration < 60]. *)
Definition below_60 (duration : option Z) : bool :=
  match duration with
  | Some n => (n <? 60)%Z
  | None => false
  end.

(** Validate session ID (accepts Firebase UIDs or UUIDs). *)
Definition invalid_sessionId (sessionId : string) : bool :=
  negb (JS.truthy_string sessionId)
  || (String.length sessionId <? 1)%nat
  || (255 <? String.length sessionId)%nat.

(** The handler of [POST /pick].  [genreIds] is a list by its type, so the
    [Array.isArray] check never fires. *)
Definition handler (body : PickRequest.t) : M Reply :=
  let sessionId := PickRequest.sessionId body in
  let filters := PickRequest.filters body in
  if invalid_sessionId sessionId then
    ret (Error 400 "Invalid session ID format.")
  else if below_60 (PickFilters.minDuration filters) then
    ret (Error 400 "minDuration must be at least 60 minutes.")
  else if below_60 (PickFilters.maxDuration filters) then
    ret (Error 400 "maxDuration must be at least 60 minutes.")
  else
    try_catch
      (movie <- Picker.pickMovie sessionId filters ;;
       match movie with
       | None => ret (Ok200 (PickResponse.mk None (Some noMatchMessage)))
       | Some m => ret (Ok200 (PickResponse.mk (Some m) None))
       end)
      (fun _ => ret (Error 500 "Failed to pick a movie. Please try again.")).

End PickRoute.

Module CandidatesRoute.

(** [limit] is any finite number of the JSON body, not checked by the
    handler: it is kept as its exact value. *)
Record CandidatesRequest : Type := mkRequest {
  filters : PickFilters.t;
  limit : option Q;
  sessionId : option string;
  excludeMovieIds : option (list Z)
}.

Inductive Reply : Type :=
| Ok200 (movies : list Movie.t)
| Error (status : Z) (error : string).

Definition toMovie (row : MovieRow.t) (genres : list string) : Movie.t :=
  {| Movie.id := MovieRow.id row;
     Movie.title := MovieRow.title row;
     Movie.year := MovieRow.year row;
     Movie.runtime :=
       match MovieRow.runtime row with
       | Some n => if JS.truthy_number n then n else 0%Z
       | None => 0%Z
       end;
     Movie.synopsis :=
       match MovieRow.synopsis row with
       | Some s => if JS.truthy_string s then s else ""
       | None => ""
       end;
     Movie.posterUrl :=
       match MovieRow.poster_path row with
       | Some p =>
           if JS.truthy_string p then Config.tmdbImageBaseUrl ++ p else ""
       | None => ""
       end;
     Movie.voteAverage := MovieRow.vote_average row;
     Movie.genres := genres |}.

(** [candidates.sort(() => Math.random() - 0.5)]. *)
Definition shuffle (candidates : list MovieRow.t) : M (list MovieRow.t) :=
  sortM (fun _ _ => r <- Math_random ;; ret (r - 0.5)%R) candidates.

(** The first statements of the handler.  The exclusion list of the call:
    the recent picks of the session, if a session is given, merged with the
    client's own exclusions. *)
Definition exclusions (body : CandidatesRequest) : M (list Z) :=
  recentIds <-
    match sessionId body with
    | Some s =>
        if JS.truthy_string s then Queries.getRecentPickMovieIds s else ret []
    | None => ret []
    end ;;
  let clientExcludeIds :=
    match excludeMovieIds body with
    | Some ids => ids
    | None => []
    end in
  ret (JS.uniq (recentIds ++ clientExcludeIds)).

(** [limit = 30] in the destructuring of the request body. *)
Definition requestedLimit (body : CandidatesRequest) : Q :=
  match limit body with
  | Some n => n
  | None => inject_Z 30
  end.

(** The handler of [POST /candidates]. *)
Definition handler (body : CandidatesRequest) : M Reply :=
  let limit := requestedLimit body in
  try_catch
    (excludeIds <- exclusions body ;;
     candidates <- Queries.getCandidateMovies (filters body) excludeIds ;;
     if Nat.eqb (List.length candidates) 0 then ret (Ok200 [])
     else
       shuffled <- shuffle candidates ;;
       let selected :=
         JS.slice shuffled 0
                  (JS.toInteger
                     (JS.Math_min limit
                        (inject_Z (Z.of_nat (List.length shuffled))))) in
       let movieIds := map MovieRow.id selected in
       genresMap <- Queries.getMoviesGenres movieIds ;;
       let movies :=
         map (fun movie =>
                toMovie movie
                        (Queries.Map_get_or_empty genresMap (MovieRow.id movie)))
             selected in
       ret (Ok200 movies))
    (fun _ => ret (Error 500 "Failed to fetch candidates.")).

End CandidatesRoute.

Module SearchRoute.

Definition toMovie (row : MovieRow.t) (genres : list string) : Movie.t :=
  {| Movie.id := MovieRow.id row;
     Movie.title := MovieRow.title row;
     Movie.year := MovieRow.year row;
     Movie.runtime :=
       match MovieRow.runtime row with
       | Some n => if JS.truthy_number n then n else 0%Z
       | None => 0%Z
       end;
     Movie.synopsis :=
       match MovieRow.synopsis row with
       | Some s => if JS.truthy_string s then s else ""
       | None => ""
       end;
     Movie.posterUrl :=
       match MovieRow.poster_path row with
       | Some p =>
           if JS.truthy_string p then Config.tmdbImageBaseUrl ++ p else ""
       | None => ""
       end;
     Movie.voteAverage := MovieRow.vote_average row;
     Movie.genres := genres |}.

Inductive Reply : Type :=
| Ok200 (movie : option Movie.t)
| Error (status : Z) (error : string).

Section Handler.
(** [searchMovieByTitle] is imported from the query layer, which does not
    define it: the handler is given for any such query. *)
Variable searchMovieByTitle : string -> M (option MovieRow.t).

(** [!title || title.trim().length === 0]. *)
Definition missing_title (title : option string) : bool :=
  match title with
  | Some t =>
      negb (JS.truthy_string t) || Nat.eqb (String.length (JS.trim t)) 0
  | None => true
  end.

(** The handler of [GET /movies/search]. *)
Definition handler (title : option string) : M Reply :=
  if missing_title title then
    ret (Error 400 "title query parameter is required")
  else
    let title := match title with Some t => t | None => "" end in
    try_catch
      (row <- searchMovieByTitle (JS.trim title) ;;
       match row with
       | None => ret (Ok200 None)
       | Some row =>
           genres <- Queries.getMovieGenres (MovieRow.id row) ;;
           ret (Ok200 (Some (toMovie row genres)))
       end)
      (fun _ => ret (Error 500 "Failed to search for movie.")).
End Handler.

End SearchRoute.

(* ================================================================== *)
(** * The genre listing and the health check *)
(* ================================================================== *)

Module GenreListing.

Record GenresResponse : Type := mkResponse { genres : list Genre.t }.

(** The module variable [genresCache] of [services/movies.ts]. *)
Definition Cache : Type := option (list Genre.t).

(** A call that reads or writes [genresCache]: its completion, the cache
    after the call, the world after the call. *)
Definition Cached (A : Type) : Type :=
  Cache -> World.t -> (Completion A * Cache) * World.t.

Section Collation.
(** [ORDER BY name] follows the collation of the database, which the
    repository does not fix: [name_le] is that order. *)
Variable name_le : string -> string -> bool.

(** [SELECT id, name FROM genres ORDER BY name]. *)
Definition run_allGenresQuery (d : DB.t) : list Genre.t :=
  JS.sort (fun a b => name_le (Genre.name a) (Genre.name b)) (DB.genres d).

(** Fetch all genres ([db/queries.ts]). *)
Definition getAllGenres : M (list Genre.t) :=
  pool_query (select run_allGenresQuery).

(** [getGenres] of [services/movies.ts].  An array is truthy even when it is
    empty, so any cached list is returned.  When [getAllGenres] rejects, the
    assignment to [genresCache] is not reached. *)
Definition getGenres : Cached (list Genre.t) :=
  fun genresCache w =>
    match genresCache with
    | Some cached => ((Normal cached, genresCache), w)
    | None =>
        match getAllGenres w with
        | (Normal fetched, w') => ((Normal fetched, Some fetched), w')
        | (Throw e, w') => ((Throw e, genresCache), w')
        end
    end.

(** Clear cache (useful for testing). *)
Definition clearGenresCache (genresCache : Cache) : Cache := None.

(** The handler of [GET /genres]: no [try], a rejection is passed on. *)
Definition handler : Cached GenresResponse :=
  fun genresCache w =>
    match getGenres genresCache w with
    | ((Normal listed, cache'), w') =>
        ((Normal (mkResponse listed), cache'), w')
    | ((Throw e, cache'), w') => ((Throw e, cache'), w')
    end.
End Collation.

End GenreListing.

Module Health.

(** Health check - verify database connection ([db/queries.ts]). *)
Definition healthCheck : M bool :=
  try_catch
    (pool_query (select (fun _ => tt)) ;;; ret true)
    (fun _ => ret false).

Record HealthResponse : Type := mkResponse {
  status : string;
  timestamp : string
}.

Inductive Reply : Type :=
| Send (code : Z) (body : HealthResponse).

Section Clock.
(** [new Date().toISOString()] at a reading of the clock. *)
Variable toISOString : Z -> string.

(** The handler of [GET /health]. *)
Definition handler : M Reply :=
  dbHealthy <- healthCheck ;;
  fun w =>
    if negb dbHealthy then
      (Normal (Send 503 (mkResponse "error" (toISOString (World.clock w)))), w)
    else
      (Normal (Send 200 (mkResponse "ok" (toISOString (World.clock w)))), w).
End Clock.

End Health.

(* ================================================================== *)
(** * Vocabulary of the properties *)
(* ================================================================== *)

(** The fixed quality floors: not adult, a runtime of at least 60 minutes,
    at least 500 votes, an average of at least 5.5. *)
Definition quality_floor (m : MovieRow.t) : Prop :=
  MovieRow.adult m = false
  /\ (exists minutes, MovieRow.runtime m = Some minutes /\ 60 <= minutes)
  /\ 500 <= MovieRow.vote_count m
  /\ (55 # 10 <= MovieRow.vote_average m)%Q.

(** A movie row satisfies the predicate of a candidate query: some row of
    the [FROM] clause that carries it passes every condition. *)
Definition satisfies (q : Queries.CandidateQuery) (d : DB.t) (m : MovieRow.t)
  : Prop :=
  exists mg,
    In (m, mg) (Queries.from_rows (Queries.genreJoin q) d)
    /\ forallb (fun c => Queries.holds c (m, mg)) (Queries.conditions q) = true.

(** A computation that leaves the store and the clock as they are, whether
    it completes or rejects. *)
Definition leaves_store {A : Type} (m : M A) : Prop :=
  forall w, World.db (snd (m w)) = World.db w
            /\ World.clock (snd (m w)) = World.clock w.

(** How a row converter renders the nullable columns: a null runtime as 0,
    a null synopsis as the empty string, a null or empty poster path as the
    empty URL, and any other poster path behind the image base. *)
Definition renders_defaults (toMovie : MovieRow.t -> list string -> Movie.t)
  : Prop :=
  forall row genres,
    (MovieRow.runtime row = None -> Movie.runtime (toMovie row genres) = 0)
    /\ (MovieRow.synopsis row = None ->
        Movie.synopsis (toMovie row genres) = "")
    /\ (MovieRow.poster_path row = None \/ MovieRow.poster_path row = Some "" ->
        Movie.posterUrl (toMovie row genres) = "")
    /\ (forall p,
          MovieRow.poster_path row = Some p -> p <> "" ->
          Movie.posterUrl (toMovie row genres)
          = (Config.tmdbImageBaseUrl ++ p)%string).

(** The rows of [user_picks] of a session. *)
Definition picks_of (sessionId : string) (d : DB.t) : list UserPick.t :=
  filter (fun p => String.eqb (UserPick.session_id p) sessionId)
         (DB.user_picks d).

(** A coming query of the world is set to reject. *)
Definition fault_pending (w : World.t) : Prop := In true (World.faults w).

(** A computation that rejects only when a pending fault makes one of its
    queries reject, and that adds no fault to the world. *)
Definition rejects_by_fault_only {A : Type} (m : M A) : Prop :=
  forall w r w',
    m w = (r, w') ->
    (fault_pending w' -> fault_pending w)
    /\ (forall e, r = Throw e -> fault_pending w).

(** A year lies in the range of an era. *)
Definition in_era (era : Era) (year : Z) : Prop :=
  fst (Queries.eraToYearRange era) <= year
  /\ match snd (Queries.eraToYearRange era) with
     | Some last => year <= last
     | None => True
     end.

(** The weighted candidate step 4 of [pickMovie] makes of a row. *)
Definition weigh (genresMap : Queries.GenreMap) (movie : MovieRow.t)
  : WeightedCandidate.t :=
  {| WeightedCandidate.movie := movie;
     WeightedCandidate.weight := Picker.calculateWeight movie;
     WeightedCandidate.genres :=
       Queries.Map_get_or_empty genresMap (MovieRow.id movie) |}.


(** The conditions of a candidate query, by the statement of
    [getCandidateMovies] that pushes them. *)
Definition floor_conditions : list Queries.Condition :=
  [ Queries.AdultIsFalse; Queries.RuntimeIsNotNull;
    Queries.RuntimeGe (Config.minRuntime Config.selection);
    Queries.VoteCountGe (Config.minVoteCount Config.selection);
    Queries.VoteAverageGe (Config.minVoteAverage Config.selection) ].

Definition era_conditions (filters : PickFilters.t) : list Queries.Condition :=
  match PickFilters.era filters with
  | Some era =>
      match Queries.eraToYearRange era with
      | (first, Some last) => [Queries.YearBetween first last]
      | (first, None) => [Queries.YearGe first]
      end
  | None => []
  end.

Definition min_conditions (filters : PickFilters.t) : list Queries.Condition :=
  match PickFilters.minDuration filters with
  | Some n => if JS.truthy_number n then [Queries.RuntimeGe n] else []
  | None => []
  end.

Definition max_conditions (filters : PickFilters.t) : list Queries.Condition :=
  match PickFilters.maxDuration filters with
  | Some n => if JS.truthy_number n then [Queries.RuntimeLe n] else []
  | None => []
  end.

Definition origin_conditions (filters : PickFilters.t)
  : list Queries.Condition :=
  if Queries.nonempty (PickFilters.origin filters) then
    [Queries.LanguageAny
       (map JS.toLowerCase (Queries.get_list (PickFilters.origin filters)))]
  else [].

Definition exclusion_conditions (excludeIds : list Z)
  : list Queries.Condition :=
  match excludeIds with
  | [] => []
  | _ :: _ => [Queries.IdNotAll excludeIds]
  end.

Definition genre_conditions (filters : PickFilters.t)
  : list Queries.Condition :=
  if Queries.nonempty (PickFilters.genreIds filters) then
    [Queries.GenreAny (Queries.get_list (PickFilters.genreIds filters))]
  else [].

(** What the filters and the exclusion list ask of a movie of the store. *)
Definition matches (filters : PickFilters.t) (excludeIds : list Z)
           (d : DB.t) (m : MovieRow.t) : Prop :=
  quality_floor m
  /\ (forall era,
        PickFilters.era filters = Some era -> in_era era (MovieRow.year m))
  /\ (forall n,
        PickFilters.minDuration filters = Some n -> n <> 0 ->
        exists minutes, MovieRow.runtime m = Some minutes /\ n <= minutes)
  /\ (forall n,
        PickFilters.maxDuration filters = Some n -> n <> 0 ->
        exists minutes, MovieRow.runtime m = Some minutes /\ minutes <= n)
  /\ (forall codes,
        PickFilters.origin filters = Some codes -> codes <> [] ->
        In (MovieRow.original_language m) (map JS.toLowerCase codes))
  /\ ~ In (MovieRow.id m) excludeIds
  /\ (forall ids,
        PickFilters.genreIds filters = Some ids -> ids <> [] ->
        exists mg,
          In mg (DB.movie_genres d)
          /\ MovieGenre.movie_id mg = MovieRow.id m
          /\ In (MovieGenre.genre_id mg) ids).

(** The store is the same but for [user_picks]. *)
Definition same_catalog (d d' : DB.t) : Prop :=
  DB.movies d' = DB.movies d
  /\ DB.genres d' = DB.genres d
  /\ DB.movie_genres d' = DB.movie_genres d.

(* ================================================================== *)
(** * Sample data *)
(* ================================================================== *)

Module Sample.

Definition row (id : Z) (year : Z) (runtime : option Z) (average : Q)
           (votes : Z) (language : string) : MovieRow.t :=
  {| MovieRow.id := id;
     MovieRow.tmdb_id := 1000 + id;
     MovieRow.title := "Title";
     MovieRow.original_title := "Title";
     MovieRow.year := year;
     MovieRow.runtime := runtime;
     MovieRow.synopsis := Some "A synopsis.";
     MovieRow.poster_path := Some "/poster.jpg";
     MovieRow.vote_average := average;
     MovieRow.vote_count := votes;
     MovieRow.original_language := language;
     MovieRow.adult := false;
     MovieRow.created_at := 0 |}.

(** Two comedies of the 2010s that pass the quality floors. *)
Definition comedy2015 : MovieRow.t := row 1 2015 (Some 120) (80 # 10) 1000 "en".
Definition comedy2016 : MovieRow.t := row 2 2016 (Some 95) (70 # 10) 2000 "fr".

(** Rows below a floor: no runtime, few votes, a low average. *)
Definition noRuntime : MovieRow.t := row 3 2015 None (80 # 10) 1000 "en".
Definition fewVotes : MovieRow.t := row 4 2015 (Some 100) (80 # 10) 0 "en".
Definition unrated : MovieRow.t := row 5 2015 (Some 100) 0 1000 "en".

(** A row whose poster path is the empty string. *)
Definition emptyPoster : MovieRow.t :=
  {| MovieRow.id := 6;
     MovieRow.tmdb_id := 1006;
     MovieRow.title := "Title";
     MovieRow.original_title := "Title";
     MovieRow.year := 2015;
     MovieRow.runtime := None;
     MovieRow.synopsis := None;
     MovieRow.poster_path := Some "";
     MovieRow.vote_average := 80 # 10;
     MovieRow.vote_count := 1000;
     MovieRow.original_language := "en";
     MovieRow.adult := false;
     MovieRow.created_at := 0 |}.

Definition candidate (m : MovieRow.t) (weight : R) : WeightedCandidate.t :=
  {| WeightedCandidate.movie := m;
     WeightedCandidate.weight := weight;
     WeightedCandidate.genres := [] |}.

(** Two candidates of weight zero. *)
Definition zeroFirst : WeightedCandidate.t := candidate comedy2015 0.
Definition zeroSecond : WeightedCandidate.t := candidate comedy2016 0.

Definition comedy : Genre.t := Genre.mk 35 "Comedy".

(** A store with the two comedies and the rows below a floor; the session
    ["s1"] was shown the first comedy. *)
Definition store : DB.t :=
  {| DB.movies := [comedy2015; comedy2016; noRuntime; fewVotes; unrated];
     DB.genres := [comedy];
     DB.movie_genres := [MovieGenre.mk 1 35; MovieGenre.mk 2 35];
     DB.user_picks := [UserPick.mk 1 "s1" 1 PickFilters.empty 10] |}.

Definition world (d : DB.t) : World.t :=
  {| World.db := d;
     World.faults := [];
     World.clock := 20;
     World.random_source := fun _ => 0%R;
     World.random_drawn := 0 |}.

Definition comedies2010s : PickFilters.t :=
  PickFilters.mk (Some [35%Z]) (Some Era_2010_2019) None None None.

Definition eighties : PickFilters.t :=
  PickFilters.mk None (Some Era_1980_1989) None None None.

(** What [pickMovie] returns to the session ["s1"] asking for a comedy of
    the 2010s: the one comedy it was not shown yet. *)
Definition picked : Movie.t := Picker.toMovie comedy2016 ["Comedy"].

(** The world after that call: one more row in [user_picks], one random
    number drawn. *)
Definition afterPick : World.t :=
  {| World.db :=
       {| DB.movies := DB.movies store;
          DB.genres := DB.genres store;
          DB.movie_genres := DB.movie_genres store;
          DB.user_picks :=
            DB.user_picks store ++ [UserPick.mk 2 "s1" 2 comedies2010s 20] |};
     World.faults := [];
     World.clock := 20;
     World.random_source := fun _ => 0%R;
     World.random_drawn := 1 |}.

(** Browse requests on the whole catalog: at most one movie, a negative
    limit, and the limit 1.5. *)
Definition browseOne : CandidatesRoute.CandidatesRequest :=
  CandidatesRoute.mkRequest PickFilters.empty (Some (inject_Z 1)) None None.

Definition browseNegative : CandidatesRoute.CandidatesRequest :=
  CandidatesRoute.mkRequest PickFilters.empty (Some (inject_Z (-1))) None None.

Definition browseOneAndHalf : CandidatesRoute.CandidatesRequest :=
  CandidatesRoute.mkRequest PickFilters.empty (Some (3 # 2)%Q) None None.

(** Two candidates of weights 1 and 3, and a world whose random source
    always gives one half. *)
Definition light : WeightedCandidate.t := candidate comedy2015 1.
Definition heavy : WeightedCandidate.t := candidate comedy2016 3.

Definition halves (d : DB.t) : World.t :=
  {| World.db := d;
     World.faults := [];
     World.clock := 20;
     World.random_source := fun _ => (1 / 2)%R;
     World.random_drawn := 0 |}.

(** A store of eleven films above the floors, all rated alike, and no pick
    yet. *)
Definition elevenFilms : DB.t :=
  {| DB.movies :=
       map (fun id => row id 2015 (Some 100) (80 # 10) 1000 "en")
           [1; 2; 3; 4; 5; 6; 7; 8; 9; 10; 11];
     DB.genres := [comedy];
     DB.movie_genres := [];
     DB.user_picks := [] |}.

(** Filters asking for French films, in upper case. *)
Definition french : PickFilters.t :=
  PickFilters.mk None None (Some ["FR"]) None None.

End Sample.

(* ================================================================== *)
(** * The embedding at work *)
(* ================================================================== *)

Example slice_negative_end : JS.slice [1; 2; 3] 0 (-1) = [1; 2].
Proof. reflexivity. Qed.

Example slice_beyond_end : JS.slice [1; 2; 3] 0 5 = [1; 2; 3].
Proof. reflexivity. Qed.

Example ceil_100 :
  JS.ceil (inject_Z 100 * Config.firstPickTopPercentile Config.selection) = 30.
Proof. reflexivity. Qed.

Example ceil_11 :
  JS.ceil (inject_Z 11 * Config.firstPickTopPercentile Config.selection) = 4.
Proof. reflexivity. Qed.

Example uniq_keeps_first : JS.uniq [1; 2; 1; 3; 2] = [1; 2; 3].
Proof. reflexivity. Qed.

Example toLowerCase_code : JS.toLowerCase "EN" = "en".
Proof. reflexivity. Qed.

Example trim_title : JS.trim "  The  Thing " = "The  Thing".
Proof. reflexivity. Qed.

Example sort_newest_first :
  JS.sort (fun a b => (b <=? a)%Z) [3; 1; 2] = [3; 2; 1].
Proof. reflexivity. Qed.

Example recent_picks_of_s1 :
  Queries.run_recentPicksQuery "s1" 20 Sample.store = [1].
Proof. reflexivity. Qed.

(** The comedies of the 2010s, less the one the session has seen. *)
Example candidates_of_s1 :
  Queries.run_candidateQuery
    (Queries.candidateQuery Sample.comedies2010s [1]) Sample.store
  = [Sample.comedy2016].
Proof. reflexivity. Qed.

(** Without filters: the two rows above the quality floors. *)
Example candidates_unfiltered :
  Queries.run_candidateQuery
    (Queries.candidateQuery PickFilters.empty []) Sample.store
  = [Sample.comedy2015; Sample.comedy2016].
Proof. reflexivity. Qed.

Example conditions_of_comedies2010s :
  Queries.conditions (Queries.candidateQuery Sample.comedies2010s [1])
  = [ Queries.AdultIsFalse; Queries.RuntimeIsNotNull; Queries.RuntimeGe 60;
      Queries.VoteCountGe 500; Queries.VoteAverageGe (55 # 10)%Q;
      Queries.YearBetween 2010 2019; Queries.IdNotAll [1];
      Queries.GenreAny [35] ].
Proof. reflexivity. Qed.

Example genres_of_candidates :
  fst (Queries.getMoviesGenres [1; 2] (Sample.world Sample.store))
  = Normal [(1, ["Comedy"]); (2, ["Comedy"])].
Proof. reflexivity. Qed.

(** A store that rejects the first query: the route answers 500 and nothing
    is written. *)
Example pick_on_failing_store :
  PickRoute.handler (PickRequest.mk "s1" Sample.comedies2010s)
    (World.mk Sample.store [true] 20 (fun _ => 0%R) 0)
  = (Normal (PickRoute.Error 500 "Failed to pick a movie. Please try again."),
     World.mk Sample.store [] 20 (fun _ => 0%R) 0).
Proof. reflexivity. Qed.

Example pick_rejects_short_duration :
  fst (PickRoute.handler
         (PickRequest.mk "s1" (PickFilters.mk None None None (Some 45) None))
         (Sample.world Sample.store))
  = Normal (PickRoute.Error 400 "minDuration must be at least 60 minutes.").
Proof. reflexivity. Qed.

(* ================================================================== *)
(** * Properties of the weight function *)
(* ================================================================== *)

Lemma ln_10_pos : (0 < ln 10)%R.
Proof.
  rewrite <- ln_1. apply ln_increasing; lra.
Qed.

Lemma log10_1 : JS.log10 1 = 0%R.
Proof.
  unfold JS.log10. rewrite ln_1. unfold Rdiv. apply Rmult_0_l.
Qed.

Lemma log10_pos (x : R) : (1 < x)%R -> (0 < JS.log10 x)%R.
Proof.
  intros Hx. unfold JS.log10.
  apply Rdiv_lt_0_compat; [ | apply ln_10_pos ].
  rewrite <- ln_1. apply ln_increasing; lra.
Qed.

Lemma Q2R_pos (q : Q) : (0 < q)%Q -> (0 < Q2R q)%R.
Proof.
  intros H. apply Qlt_Rlt in H. replace (Q2R 0) with 0%R in H; [ exact H | ].
  unfold Q2R; simpl; lra.
Qed.

Lemma Q2R_zero (q : Q) : (q == 0)%Q -> Q2R q = 0%R.
Proof.
  intros H. apply Qeq_eqR in H. rewrite H. unfold Q2R; simpl; lra.
Qed.

Lemma calculateWeight_no_votes (m : MovieRow.t) :
  MovieRow.vote_count m = 0%Z -> Picker.calculateWeight m = 0%R.
Proof.
  intros H. unfold Picker.calculateWeight. rewrite H. simpl (0 + 1)%Z.
  rewrite log10_1. apply Rmult_0_r.
Qed.

Lemma calculateWeight_pos (m : MovieRow.t) :
  (0 < MovieRow.vote_count m)%Z -> (0 < MovieRow.vote_average m)%Q ->
  (0 < Picker.calculateWeight m)%R.
Proof.
  intros Hc Ha. unfold Picker.calculateWeight.
  apply Rmult_lt_0_compat.
  - apply Rdiv_lt_0_compat; [ apply Q2R_pos; exact Ha | lra ].
  - apply log10_pos. apply (IZR_lt 1). lia.
Qed.

(** C2, as stated, fails on a movie nobody has voted for: its vote count is
    0 and its average 5 is positive, yet [log10 (0 + 1) = 0] makes its weight
    zero. *)
Lemma calculateWeight_zero_despite_positive_average :
  (0 <= MovieRow.vote_count (Sample.row 9 2015 (Some 100%Z) (5 # 1) 0 "en"))%Z
  /\ (0 < MovieRow.vote_average (Sample.row 9 2015 (Some 100%Z) (5 # 1) 0 "en"))%Q
  /\ ~ (0 < Picker.calculateWeight
              (Sample.row 9 2015 (Some 100%Z) (5 # 1) 0 "en"))%R
  /\ Picker.calculateWeight (Sample.row 9 2015 (Some 100%Z) (5 # 1) 0 "en") = 0%R
  /\ ~ (MovieRow.vote_average (Sample.row 9 2015 (Some 100%Z) (5 # 1) 0 "en") == 0)%Q.
Proof.
  assert (H : Picker.calculateWeight
                (Sample.row 9 2015 (Some 100%Z) (5 # 1) 0 "en") = 0%R)
    by (apply calculateWeight_no_votes; reflexivity).
  repeat split.
  - simpl. lia.
  - rewrite H. lra.
  - exact H.
  - simpl. intros E. discriminate E.
Qed.

(** C2 (amended): for a movie with a non-negative vote count and a
    non-negative average, the weight
    [(voteAverage / 10) * log10 (voteCount + 1)] is strictly positive when
    the vote count is at least 1 and the average is positive, and it is 0 if
    and only if the average is 0 or the vote count is 0. *)
Theorem calculateWeight_sign (m : MovieRow.t) :
  (0 <= MovieRow.vote_count m)%Z ->
  (0 <= MovieRow.vote_average m)%Q ->
  ((1 <= MovieRow.vote_count m)%Z -> (0 < MovieRow.vote_average m)%Q ->
   (0 < Picker.calculateWeight m)%R)
  /\ (Picker.calculateWeight m = 0%R <->
      (MovieRow.vote_average m == 0)%Q \/ MovieRow.vote_count m = 0%Z).
Proof.
  intros Hc Ha. split.
  - intros Hc1 Ha1. apply calculateWeight_pos; [ lia | exact Ha1 ].
  - split.
    + intros Hw.
      destruct (Z.eq_dec (MovieRow.vote_count m) 0) as [Hz | Hnz];
        [ right; exact Hz | left ].
      destruct (Qlt_le_dec 0 (MovieRow.vote_average m)) as [Hpos | Hle].
      * assert (0 < Picker.calculateWeight m)%R
          by (apply calculateWeight_pos; [ lia | exact Hpos ]).
        lra.
      * apply Qle_antisym; assumption.
    + intros [Hz | Hz].
      * unfold Picker.calculateWeight. rewrite (Q2R_zero _ Hz).
        unfold Rdiv. rewrite Rmult_0_l. apply Rmult_0_l.
      * apply calculateWeight_no_votes; exact Hz.
Qed.

Lemma calculateWeight_sign_witness :
  (0 < Picker.calculateWeight Sample.comedy2015)%R.
Proof.
  apply (calculateWeight_sign Sample.comedy2015); simpl; try lia;
    unfold Qle, Qlt; simpl; lia.
Defined.

(* ================================================================== *)
(** * Properties of the weighted sampler *)
(* ================================================================== *)

Lemma fold_weight_zero (cs : list WeightedCandidate.t) (acc : R) :
  Forall (fun c => WeightedCandidate.weight c = 0%R) cs ->
  fold_left (fun sum c => (sum + WeightedCandidate.weight c)%R) cs acc = acc.
Proof.
  intros H. revert acc. induction H as [ | c cs Hc _ IH ]; intros acc.
  - reflexivity.
  - simpl. rewrite Hc, Rplus_0_r. apply IH.
Qed.

Lemma totalWeight_zero (cs : list WeightedCandidate.t) :
  Forall (fun c => WeightedCandidate.weight c = 0%R) cs ->
  Picker.totalWeight cs = 0%R.
Proof.
  apply fold_weight_zero.
Qed.

Lemma walk_In (cs : list WeightedCandidate.t) :
  forall random c, Picker.walk random cs = Some c -> In c cs.
Proof.
  induction cs as [ | x cs IH ]; intros random c; simpl.
  - discriminate.
  - destruct (Rle_dec (random - WeightedCandidate.weight x) 0).
    + intros E. injection E as E. left. exact E.
    + intros E. right. eapply IH. exact E.
Qed.

Lemma last_elem_In {A : Type} (l : list A) (x : A) :
  JS.last_elem l = Some x -> In x l.
Proof.
  unfold JS.last_elem. apply nth_error_In.
Qed.

Lemma last_elem_nonempty {A : Type} (l : list A) :
  l <> [] -> exists x, JS.last_elem l = Some x.
Proof.
  intros Hne. unfold JS.last_elem.
  destruct (nth_error l (List.length l - 1)) as [ x | ] eqn:E.
  - exists x. reflexivity.
  - apply nth_error_None in E. destruct l; [ congruence | simpl in E; lia ].
Qed.

(** One call of the sampler on a non-empty list. *)
Lemma weightedRandomSelect_cons
      (x : WeightedCandidate.t) (cs : list WeightedCandidate.t) (w : World.t) :
  Picker.weightedRandomSelect (x :: cs) w
  = (Normal
       (match Picker.walk
                (World.random_source w (World.random_drawn w)
                 * Picker.totalWeight (x :: cs))%R (x :: cs)
        with
        | Some c => Some c
        | None => JS.last_elem (x :: cs)
        end),
     after_random w).
Proof.
  unfold Picker.weightedRandomSelect, bind, Math_random.
  change (Nat.eqb (List.length (x :: cs)) 0) with false. cbv iota beta.
  destruct (Picker.walk _ (x :: cs)); reflexivity.
Qed.

(** What a call of the sampler does, whatever the weights: on the empty list
    it returns [null] and draws nothing; otherwise it draws one random number
    and returns a member of the list.  It never rejects and it leaves the
    store alone. *)
Lemma weightedRandomSelect_spec (cs : list WeightedCandidate.t) (w : World.t) :
  (cs = [] /\ Picker.weightedRandomSelect cs w = (Normal None, w))
  \/ (exists c, In c cs
               /\ Picker.weightedRandomSelect cs w
                  = (Normal (Some c), after_random w)).
Proof.
  destruct cs as [ | x cs ].
  - left. split; reflexivity.
  - right. rewrite weightedRandomSelect_cons.
    destruct (Picker.walk _ (x :: cs)) as [ c | ] eqn:E.
    + exists c. split; [ eapply walk_In; exact E | reflexivity ].
    + destruct (last_elem_nonempty (x :: cs)) as [ c Hc ]; [ discriminate | ].
      exists c. split; [ apply last_elem_In; exact Hc | ].
      rewrite Hc. reflexivity.
Qed.

(** With only zero weights, the total is 0, the cursor starts at 0 whatever
    [Math.random()] returned, and the loop stops at the first candidate. *)
Lemma weightedRandomSelect_zero_first
      (c : WeightedCandidate.t) (rest : list WeightedCandidate.t) (w : World.t) :
  Forall (fun x => WeightedCandidate.weight x = 0%R) (c :: rest) ->
  Picker.weightedRandomSelect (c :: rest) w = (Normal (Some c), after_random w).
Proof.
  intros Hz. rewrite weightedRandomSelect_cons.
  rewrite (totalWeight_zero _ Hz). rewrite Rmult_0_r.
  simpl Picker.walk. inversion Hz as [ | ? ? Hc _ ]; subst. rewrite Hc.
  destruct (Rle_dec (0 - 0) 0) as [ _ | Hn ]; [ reflexivity | ].
  exfalso. apply Hn. lra.
Qed.

(** C1, as stated, fails: on two candidates of weight zero the second one is
    never returned, whatever the random source gives, so the choice is not
    uniform. *)
Lemma weightedRandomSelect_zero_not_uniform :
  In Sample.zeroSecond [Sample.zeroFirst; Sample.zeroSecond]
  /\ Forall (fun x => WeightedCandidate.weight x = 0%R)
            [Sample.zeroFirst; Sample.zeroSecond]
  /\ ~ (exists w : World.t,
          fst (Picker.weightedRandomSelect
                 [Sample.zeroFirst; Sample.zeroSecond] w)
          = Normal (Some Sample.zeroSecond)).
Proof.
  assert (Hz : Forall (fun x => WeightedCandidate.weight x = 0%R)
                      [Sample.zeroFirst; Sample.zeroSecond])
    by (repeat constructor).
  split; [ right; left; reflexivity | ]. split; [ exact Hz | ].
  intros [ w Hw ]. rewrite (weightedRandomSelect_zero_first _ _ w Hz) in Hw.
  simpl in Hw. discriminate Hw.
Qed.

(** C1 (amended): for every non-empty candidate list whose weights are all
    zero, the weighted sampler returns the first member of the list, whatever
    the random draw; the call completes normally (no division, no rejection),
    and its result is not empty. *)
Theorem weightedRandomSelect_all_zero
        (c : WeightedCandidate.t) (rest : list WeightedCandidate.t)
        (w : World.t) :
  Forall (fun x => WeightedCandidate.weight x = 0%R) (c :: rest) ->
  fst (Picker.weightedRandomSelect (c :: rest) w) = Normal (Some c)
  /\ In c (c :: rest).
Proof.
  intros Hz. rewrite (weightedRandomSelect_zero_first c rest w Hz).
  split; [ reflexivity | left; reflexivity ].
Qed.

Lemma weightedRandomSelect_all_zero_witness :
  fst (Picker.weightedRandomSelect [Sample.zeroFirst; Sample.zeroSecond]
         (Sample.world Sample.store))
  = Normal (Some Sample.zeroFirst)
  /\ In Sample.zeroFirst [Sample.zeroFirst; Sample.zeroSecond].
Proof.
  apply (weightedRandomSelect_all_zero Sample.zeroFirst [Sample.zeroSecond]).
  repeat constructor.
Defined.

(* ================================================================== *)
(** * Properties of sorting and slicing *)
(* ================================================================== *)

Section SortFacts.
Context {A : Type} (before_eq : A -> A -> bool).

Lemma insert_Permutation (x : A) (l : list A) :
  Permutation (JS.insert before_eq x l) (x :: l).
Proof.
  induction l as [ | y l IH ]; simpl.
  - apply Permutation_refl.
  - destruct (before_eq x y).
    + apply Permutation_refl.
    + apply perm_trans with (y :: x :: l).
      * apply perm_skip. exact IH.
      * apply perm_swap.
Qed.

Lemma sort_Permutation (l : list A) : Permutation (JS.sort before_eq l) l.
Proof.
  induction l as [ | x l IH ]; simpl.
  - apply perm_nil.
  - apply perm_trans with (x :: JS.sort before_eq l).
    + apply insert_Permutation.
    + apply perm_skip. exact IH.
Qed.

Lemma sort_length (l : list A) :
  List.length (JS.sort before_eq l) = List.length l.
Proof.
  apply Permutation_length. apply sort_Permutation.
Qed.

Hypothesis before_eq_total :
  forall a b, before_eq a b = true \/ before_eq b a = true.
Hypothesis before_eq_trans :
  forall a b c,
    before_eq a b = true -> before_eq b c = true -> before_eq a c = true.

Lemma insert_in_order (x : A) (l : list A) :
  JS.in_order before_eq l -> JS.in_order before_eq (JS.insert before_eq x l).
Proof.
  unfold JS.in_order. intros H. induction H as [ | y l Hl IH Hy ]; simpl.
  - constructor; constructor.
  - destruct (before_eq x y) eqn:E.
    + constructor.
      * constructor; assumption.
      * constructor; [ exact E | ].
        eapply Forall_impl; [ | exact Hy ].
        intros b Hb. eapply before_eq_trans; eassumption.
    + constructor; [ exact IH | ].
      assert (Hyx : before_eq y x = true)
        by (destruct (before_eq_total x y); congruence).
      apply Forall_forall. intros b Hb.
      apply (Permutation_in _ (insert_Permutation x l)) in Hb.
      destruct Hb as [ <- | Hb ]; [ exact Hyx | ].
      rewrite Forall_forall in Hy. apply Hy. exact Hb.
Qed.

Lemma sort_in_order (l : list A) :
  JS.in_order before_eq (JS.sort before_eq l).
Proof.
  induction l as [ | x l IH ]; simpl.
  - constructor.
  - apply insert_in_order. exact IH.
Qed.

Lemma in_order_app (l1 l2 : list A) :
  JS.in_order before_eq (l1 ++ l2) ->
  forall a b, In a l1 -> In b l2 -> before_eq a b = true.
Proof.
  unfold JS.in_order. induction l1 as [ | x l1 IH ]; simpl; intros H a b Ha Hb.
  - contradiction.
  - inversion H as [ | ? ? Hs Hx ]; subst.
    destruct Ha as [ <- | Ha ].
    + rewrite Forall_forall in Hx. apply Hx. apply in_or_app. right. exact Hb.
    + apply IH; assumption.
Qed.

End SortFacts.

Lemma firstn_In {A : Type} (n : nat) (l : list A) (x : A) :
  In x (firstn n l) -> In x l.
Proof.
  intros H. rewrite <- (firstn_skipn n l). apply in_or_app. left. exact H.
Qed.

(** [slice(0, k)] with [0 <= k] keeps the first [min k length] elements. *)
Lemma slice_0 {A : Type} (l : list A) (k : Z) :
  0 <= k ->
  JS.slice l 0 k = firstn (Z.to_nat (Z.min k (Z.of_nat (List.length l)))) l.
Proof.
  intros Hk. unfold JS.slice, JS.clamp_index.
  change (0 <? 0)%Z with false. cbv iota.
  destruct (k <? 0)%Z eqn:E; [ apply Z.ltb_lt in E; lia | ].
  rewrite (Z.min_l 0) by lia. change (Z.to_nat 0) with 0%nat.
  simpl skipn. f_equal. lia.
Qed.

Lemma slice_nil {A : Type} (start stop : Z) : JS.slice (@nil A) start stop = [].
Proof.
  unfold JS.slice. rewrite skipn_nil. apply firstn_nil.
Qed.

(** [Math.ceil(n * 0.3)] in integer arithmetic. *)
Lemma topCount_eq (n : nat) :
  JS.ceil (inject_Z (Z.of_nat n) * Config.firstPickTopPercentile Config.selection)
  = (3 * Z.of_nat n + 9) / 10.
Proof.
  unfold JS.ceil, Qceiling, Qfloor, Config.selection, inject_Z, Qmult, Qopp.
  simpl Config.firstPickTopPercentile. cbn [Qnum Qden].
  change (Z.pos (1 * 10)) with 10.
  generalize (Z.of_nat n). intros z.
  pose proof (Z.div_mod (- (z * 3)) 10) as H1.
  pose proof (Z.mod_pos_bound (- (z * 3)) 10) as H2.
  pose proof (Z.div_mod (3 * z + 9) 10) as H3.
  pose proof (Z.mod_pos_bound (3 * z + 9) 10) as H4.
  lia.
Qed.

Lemma topCount_bounds (n : nat) :
  let k := JS.ceil (inject_Z (Z.of_nat n)
                    * Config.firstPickTopPercentile Config.selection) in
  0 <= k <= Z.of_nat n.
Proof.
  intros k. subst k. rewrite topCount_eq.
  pose proof (Z.div_mod (3 * Z.of_nat n + 9) 10) as H1.
  pose proof (Z.mod_pos_bound (3 * Z.of_nat n + 9) 10) as H2.
  lia.
Qed.

(* ================================================================== *)
(** * Properties of the first-pick bias stage *)
(* ================================================================== *)

Lemma heavier_first_true (a b : WeightedCandidate.t) :
  Picker.heavier_first a b = true <->
  (WeightedCandidate.weight b <= WeightedCandidate.weight a)%R.
Proof.
  unfold Picker.heavier_first, JS.Rleb.
  destruct (Rle_dec (WeightedCandidate.weight b) (WeightedCandidate.weight a));
    split; intros H; try reflexivity; try assumption;
    [ discriminate | contradiction ].
Qed.

Lemma heavier_first_total (a b : WeightedCandidate.t) :
  Picker.heavier_first a b = true \/ Picker.heavier_first b a = true.
Proof.
  rewrite !heavier_first_true.
  destruct (Rle_dec (WeightedCandidate.weight b) (WeightedCandidate.weight a));
    [ left; assumption | right; lra ].
Qed.

Lemma heavier_first_trans (a b c : WeightedCandidate.t) :
  Picker.heavier_first a b = true -> Picker.heavier_first b c = true ->
  Picker.heavier_first a c = true.
Proof.
  rewrite !heavier_first_true. lra.
Qed.

(** The stage on a first pick with more than 10 candidates: the head of the
    sorted list, [ceil (n * P)] long. *)
Lemma applyFirstPickBias_firstn (wcs : list WeightedCandidate.t) :
  (10 < List.length wcs)%nat ->
  Picker.applyFirstPickBias true wcs
  = firstn (Z.to_nat (JS.ceil (inject_Z (Z.of_nat (List.length wcs))
                               * Config.firstPickTopPercentile Config.selection)))
           (JS.sort Picker.heavier_first wcs).
Proof.
  intros Hn. unfold Picker.applyFirstPickBias.
  apply Nat.ltb_lt in Hn. rewrite Hn. cbv iota beta. simpl andb. cbv iota.
  rewrite slice_0 by (apply topCount_bounds).
  rewrite sort_length.
  pose proof (topCount_bounds (List.length wcs)) as Hb. cbv zeta in Hb.
  rewrite Z.min_l by lia. reflexivity.
Qed.

(** The stage leaves the list as it is on a later pick, and on a first pick
    with at most 10 candidates. *)
Lemma applyFirstPickBias_noop (isFirstPick : bool)
      (wcs : list WeightedCandidate.t) :
  isFirstPick = false \/ (List.length wcs <= 10)%nat ->
  Picker.applyFirstPickBias isFirstPick wcs = wcs.
Proof.
  intros [ -> | Hn ]; unfold Picker.applyFirstPickBias.
  - reflexivity.
  - apply Nat.ltb_ge in Hn. rewrite Hn, andb_false_r. reflexivity.
Qed.

(** Whatever the stage keeps was in its input. *)
Lemma applyFirstPickBias_In (isFirstPick : bool)
      (wcs : list WeightedCandidate.t) (c : WeightedCandidate.t) :
  In c (Picker.applyFirstPickBias isFirstPick wcs) -> In c wcs.
Proof.
  destruct isFirstPick;
    [ | rewrite applyFirstPickBias_noop by (left; reflexivity); tauto ].
  destruct (Nat.le_gt_cases (List.length wcs) 10) as [ Hle | Hgt ].
  - rewrite applyFirstPickBias_noop by (right; exact Hle). tauto.
  - rewrite applyFirstPickBias_firstn by exact Hgt. intros H.
    apply (Permutation_in _ (sort_Permutation Picker.heavier_first wcs)).
    eapply firstn_In. exact H.
Qed.

(** C7: on a first pick with more than 10 candidates the bias stage keeps
    exactly [ceil (n * P)] of the [n] candidates ([P] the configured
    percentile 0.3; exactly 30 for [n = 100]), the kept and the discarded
    candidates together are the input, and every kept candidate weighs at
    least as much as every discarded one. *)
Theorem applyFirstPickBias_keeps_top (wcs : list WeightedCandidate.t) :
  (10 < List.length wcs)%nat ->
  exists discarded : list WeightedCandidate.t,
    Permutation (Picker.applyFirstPickBias true wcs ++ discarded) wcs
    /\ Z.of_nat (List.length (Picker.applyFirstPickBias true wcs))
       = JS.ceil (inject_Z (Z.of_nat (List.length wcs))
                  * Config.firstPickTopPercentile Config.selection)
    /\ (List.length wcs = 100%nat ->
        List.length (Picker.applyFirstPickBias true wcs) = 30%nat)
    /\ (forall kept d,
          In kept (Picker.applyFirstPickBias true wcs) -> In d discarded ->
          (WeightedCandidate.weight d <= WeightedCandidate.weight kept)%R).
Proof.
  intros Hn. rewrite (applyFirstPickBias_firstn wcs Hn).
  pose proof (topCount_bounds (List.length wcs)) as Hb. cbv zeta in Hb.
  set (k := Z.to_nat (JS.ceil (inject_Z (Z.of_nat (List.length wcs))
                               * Config.firstPickTopPercentile Config.selection))).
  assert (Hlen : List.length (firstn k (JS.sort Picker.heavier_first wcs)) = k).
  { rewrite length_firstn, sort_length. subst k. lia. }
  exists (skipn k (JS.sort Picker.heavier_first wcs)).
  split; [ | split; [ | split ] ].
  - rewrite firstn_skipn. apply sort_Permutation.
  - rewrite Hlen. subst k. lia.
  - intros H100. rewrite Hlen. subst k. rewrite H100. reflexivity.
  - intros kept d Hk Hd. apply heavier_first_true.
    apply (in_order_app Picker.heavier_first
             (firstn k (JS.sort Picker.heavier_first wcs))
             (skipn k (JS.sort Picker.heavier_first wcs))); try assumption.
    rewrite firstn_skipn.
    apply sort_in_order;
      [ apply heavier_first_total | apply heavier_first_trans ].
Qed.

Lemma applyFirstPickBias_keeps_top_witness :
  List.length (Picker.applyFirstPickBias true (repeat Sample.zeroFirst 100))
  = 30%nat.
Proof.
  destruct (applyFirstPickBias_keeps_top (repeat Sample.zeroFirst 100))
    as (discarded & _ & _ & H100 & _).
  - rewrite repeat_length. lia.
  - apply H100. apply repeat_length.
Defined.

(* ================================================================== *)
(** * Properties of the store access *)
(* ================================================================== *)

(** A query that completes was run against the store of the world, and only
    moved the fault list on. *)
Lemma pool_query_Normal {A : Type} (run : Z -> DB.t -> A * DB.t)
      (w w' : World.t) (a : A) :
  pool_query run w = (Normal a, w') ->
  run (World.clock w) (World.db w) = (a, World.db w')
  /\ World.clock w' = World.clock w
  /\ World.random_source w' = World.random_source w
  /\ World.random_drawn w' = World.random_drawn w.
Proof.
  unfold pool_query.
  destruct (World.faults w) as [ | [ | ] rest ];
    destruct (run (World.clock w) (World.db w)) as [ a0 d0 ];
    intros E; inversion E; subst; simpl; auto.
Qed.

(** A query that rejects leaves the store as it was. *)
Lemma pool_query_Throw {A : Type} (run : Z -> DB.t -> A * DB.t)
      (w w' : World.t) (e : string) :
  pool_query run w = (Throw e, w') -> World.db w' = World.db w.
Proof.
  unfold pool_query.
  destruct (World.faults w) as [ | [ | ] rest ];
    destruct (run (World.clock w) (World.db w)) as [ a0 d0 ];
    intros E; inversion E; subst; reflexivity.
Qed.

Lemma pool_query_select {A : Type} (q : DB.t -> A) (w w' : World.t) (a : A) :
  pool_query (select q) w = (Normal a, w') ->
  a = q (World.db w) /\ World.db w' = World.db w.
Proof.
  intros E. apply pool_query_Normal in E. destruct E as [ E _ ].
  unfold select in E. inversion E. split; reflexivity.
Qed.

(** A [SELECT] never changes the store, whether it completes or rejects. *)
Lemma pool_query_select_db {A : Type} (q : DB.t -> A) (w : World.t) :
  World.db (snd (pool_query (select q) w)) = World.db w.
Proof.
  destruct (pool_query (select q) w) as [ [ a | e ] w' ] eqn:E; simpl.
  - apply pool_query_select in E. apply E.
  - apply pool_query_Throw in E. exact E.
Qed.

(* ================================================================== *)
(** * Properties of the candidate fetch *)
(* ================================================================== *)

Lemma from_rows_movies (join : bool) (d : DB.t) (m : MovieRow.t)
      (mg : option MovieGenre.t) :
  In (m, mg) (Queries.from_rows join d) -> In m (DB.movies d).
Proof.
  unfold Queries.from_rows. destruct join.
  - rewrite in_flat_map. intros (m0 & Hm0 & Hin).
    apply in_map_iff in Hin. destruct Hin as (g & E & _).
    inversion E; subst. exact Hm0.
  - rewrite in_map_iff. intros (m0 & E & Hm0). inversion E; subst. exact Hm0.
Qed.

(** Every row the query returns satisfies its predicate. *)
Lemma run_candidateQuery_satisfies (q : Queries.CandidateQuery) (d : DB.t)
      (m : MovieRow.t) :
  In m (Queries.run_candidateQuery q d) -> satisfies q d m.
Proof.
  unfold Queries.run_candidateQuery. intros H.
  apply firstn_In in H. apply nodup_In in H.
  apply in_map_iff in H. destruct H as ([ m0 mg ] & E & H).
  simpl in E. subst m0. apply filter_In in H. destruct H as [ Hin Hc ].
  exists mg. split; assumption.
Qed.

(** The rows the query returns are pairwise different. *)
Lemma run_candidateQuery_NoDup (q : Queries.CandidateQuery) (d : DB.t) :
  NoDup (Queries.run_candidateQuery q d).
Proof.
  unfold Queries.run_candidateQuery.
  set (l := nodup MovieRow.eq_dec _).
  assert (Hl : NoDup l) by apply NoDup_nodup.
  rewrite <- (firstn_skipn (Queries.limit q) l) in Hl.
  apply NoDup_app_remove_r in Hl. exact Hl.
Qed.

(** The query never returns more rows than its [LIMIT]. *)
Lemma run_candidateQuery_limit (q : Queries.CandidateQuery) (d : DB.t) :
  (List.length (Queries.run_candidateQuery q d) <= Queries.limit q)%nat.
Proof.
  unfold Queries.run_candidateQuery. apply firstn_le_length.
Qed.

Lemma push_if_In {A : Type} (b : bool) (xs l : list A) (x : A) :
  In x l -> In x (Queries.push_if b xs l).
Proof.
  unfold Queries.push_if. destruct b; [ | tauto ].
  intros H. apply in_or_app. left. exact H.
Qed.

(** The five floor conditions open every candidate query. *)
Lemma candidateQuery_floors (filters : PickFilters.t) (excludeIds : list Z)
      (c : Queries.Condition) :
  In c [ Queries.AdultIsFalse; Queries.RuntimeIsNotNull;
         Queries.RuntimeGe 60; Queries.VoteCountGe 500;
         Queries.VoteAverageGe (55 # 10)%Q ] ->
  In c (Queries.conditions (Queries.candidateQuery filters excludeIds)).
Proof.
  intros H. unfold Queries.candidateQuery. cbn [Queries.conditions].
  repeat apply push_if_In.
  destruct (PickFilters.maxDuration filters);
    destruct (PickFilters.minDuration filters);
    repeat apply push_if_In;
    (destruct (PickFilters.era filters) as [ era | ];
     [ destruct (Queries.eraToYearRange era) as [ first [ last | ] ];
       apply in_or_app; left; exact H
     | exact H ]).
Qed.

(** A non-empty exclusion list is in the conditions of the query. *)
Lemma candidateQuery_exclusion (filters : PickFilters.t) (excludeIds : list Z) :
  excludeIds <> [] ->
  In (Queries.IdNotAll excludeIds)
     (Queries.conditions (Queries.candidateQuery filters excludeIds)).
Proof.
  intros Hne. unfold Queries.candidateQuery. cbn [Queries.conditions].
  apply push_if_In.
  destruct excludeIds as [ | x rest ]; [ congruence | ].
  unfold Queries.push_if at 1. simpl negb. cbv iota.
  apply in_or_app. right. left. reflexivity.
Qed.

Lemma existsb_Zeqb_In (x : Z) (l : list Z) :
  existsb (Z.eqb x) l = true <-> In x l.
Proof.
  rewrite existsb_exists. split.
  - intros (y & Hy & E). apply Z.eqb_eq in E. subst. exact Hy.
  - intros H. exists x. split; [ exact H | apply Z.eqb_refl ].
Qed.

(** No row the query returns has its id in the exclusion list. *)
Lemma run_candidateQuery_excludes (filters : PickFilters.t)
      (excludeIds : list Z) (d : DB.t) (m : MovieRow.t) :
  In m (Queries.run_candidateQuery
          (Queries.candidateQuery filters excludeIds) d) ->
  ~ In (MovieRow.id m) excludeIds.
Proof.
  intros H Hin. apply run_candidateQuery_satisfies in H.
  destruct H as (mg & _ & Hc). rewrite forallb_forall in Hc.
  assert (Hne : excludeIds <> []) by (destruct excludeIds; [ tauto | discriminate ]).
  specialize (Hc _ (candidateQuery_exclusion filters excludeIds Hne)).
  simpl in Hc. apply negb_true_iff in Hc.
  apply existsb_Zeqb_In in Hin. congruence.
Qed.

(** Every row the query returns satisfies the quality floors. *)
Lemma run_candidateQuery_quality_floor (filters : PickFilters.t)
      (excludeIds : list Z) (d : DB.t) (m : MovieRow.t) :
  In m (Queries.run_candidateQuery
          (Queries.candidateQuery filters excludeIds) d) ->
  quality_floor m.
Proof.
  intros H. apply run_candidateQuery_satisfies in H.
  destruct H as (mg & _ & Hc). rewrite forallb_forall in Hc.
  pose proof (candidateQuery_floors filters excludeIds) as Hf.
  assert (H1 := Hc _ (Hf Queries.AdultIsFalse ltac:(simpl; tauto))).
  assert (H3 := Hc _ (Hf (Queries.RuntimeGe 60) ltac:(simpl; tauto))).
  assert (H4 := Hc _ (Hf (Queries.VoteCountGe 500) ltac:(simpl; tauto))).
  assert (H5 := Hc _ (Hf (Queries.VoteAverageGe (55 # 10)%Q) ltac:(simpl; tauto))).
  simpl in H1, H3, H4, H5. unfold quality_floor.
  split; [ apply negb_true_iff; exact H1 | ].
  split.
  - unfold Queries.nullable in H3.
    destruct (MovieRow.runtime m) as [ minutes | ]; [ | discriminate ].
    exists minutes. split; [ reflexivity | apply Z.leb_le; exact H3 ].
  - split; [ apply Z.leb_le; exact H4 | apply Qle_bool_iff; exact H5 ].
Qed.

(** C4: for every filter specification and every exclusion list, every movie
    the candidate fetch returns satisfies the fixed quality floors: not adult,
    runtime present and at least 60, at least 500 votes, an average of at
    least 5.5 (the values of [config.selection]). *)
Theorem getCandidateMovies_quality_floors
        (filters : PickFilters.t) (excludeIds : list Z)
        (w w' : World.t) (rows : list MovieRow.t) :
  Queries.getCandidateMovies filters excludeIds w = (Normal rows, w') ->
  Forall quality_floor rows
  /\ Config.minRuntime Config.selection = 60
  /\ Config.minVoteCount Config.selection = 500
  /\ Config.minVoteAverage Config.selection = (55 # 10)%Q.
Proof.
  intros E. unfold Queries.getCandidateMovies in E.
  apply pool_query_select in E. destruct E as [ -> _ ].
  split; [ | repeat split ].
  apply Forall_forall. intros m Hm.
  eapply run_candidateQuery_quality_floor. exact Hm.
Qed.

Lemma getCandidateMovies_quality_floors_witness :
  Forall quality_floor [Sample.comedy2015; Sample.comedy2016].
Proof.
  apply (getCandidateMovies_quality_floors
           PickFilters.empty [] (Sample.world Sample.store)
           (Sample.world Sample.store)).
  reflexivity.
Defined.

(** C9: an empty [genreIds] array, or an empty [origin] array, adds no
    constraint: the candidate fetch builds the same query, and so returns the
    same result, as when the field is absent. *)
Theorem candidateQuery_empty_arrays
        (filters : PickFilters.t) (excludeIds : list Z) :
  Queries.candidateQuery (PickFilters.with_genreIds (Some []) filters) excludeIds
  = Queries.candidateQuery (PickFilters.with_genreIds None filters) excludeIds
  /\ Queries.candidateQuery (PickFilters.with_origin (Some []) filters) excludeIds
     = Queries.candidateQuery (PickFilters.with_origin None filters) excludeIds
  /\ Queries.getCandidateMovies
       (PickFilters.with_genreIds (Some []) filters) excludeIds
     = Queries.getCandidateMovies
         (PickFilters.with_genreIds None filters) excludeIds
  /\ Queries.getCandidateMovies
       (PickFilters.with_origin (Some []) filters) excludeIds
     = Queries.getCandidateMovies
         (PickFilters.with_origin None filters) excludeIds.
Proof.
  assert (Hg : Queries.candidateQuery
                 (PickFilters.with_genreIds (Some []) filters) excludeIds
               = Queries.candidateQuery
                   (PickFilters.with_genreIds None filters) excludeIds)
    by reflexivity.
  assert (Ho : Queries.candidateQuery
                 (PickFilters.with_origin (Some []) filters) excludeIds
               = Queries.candidateQuery
                   (PickFilters.with_origin None filters) excludeIds)
    by reflexivity.
  unfold Queries.getCandidateMovies. rewrite Hg, Ho.
  repeat split.
Qed.

(* ================================================================== *)
(** * Computations that leave the store alone *)
(* ================================================================== *)

Lemma leaves_store_ret {A : Type} (a : A) : leaves_store (ret a).
Proof.
  intros w. split; reflexivity.
Qed.

Lemma leaves_store_bind {A B : Type} (m : M A) (k : A -> M B) :
  leaves_store m -> (forall a, leaves_store (k a)) -> leaves_store (bind m k).
Proof.
  intros Hm Hk w. unfold bind. specialize (Hm w).
  destruct (m w) as [ [ a | e ] w1 ]; simpl in Hm.
  - destruct (Hk a w1) as [ H1 H2 ]. destruct Hm as [ H3 H4 ].
    split; congruence.
  - exact Hm.
Qed.

Lemma leaves_store_select {A : Type} (q : DB.t -> A) :
  leaves_store (pool_query (select q)).
Proof.
  intros w. unfold pool_query, select.
  destruct (World.faults w) as [ | [ | ] rest ]; split; reflexivity.
Qed.

Lemma leaves_store_random : leaves_store Math_random.
Proof.
  intros w. split; reflexivity.
Qed.

Lemma leaves_store_getRecentPickMovieIds (sessionId : string) :
  leaves_store (Queries.getRecentPickMovieIds sessionId).
Proof.
  apply leaves_store_select.
Qed.

Lemma leaves_store_getCandidateMovies (filters : PickFilters.t)
      (excludeIds : list Z) :
  leaves_store (Queries.getCandidateMovies filters excludeIds).
Proof.
  apply leaves_store_select.
Qed.

Lemma leaves_store_getMoviesGenres (movieIds : list Z) :
  leaves_store (Queries.getMoviesGenres movieIds).
Proof.
  unfold Queries.getMoviesGenres.
  destruct (Nat.eqb (List.length movieIds) 0).
  - apply leaves_store_ret.
  - apply leaves_store_bind; [ apply leaves_store_select | ].
    intros rows. apply leaves_store_ret.
Qed.

Lemma leaves_store_isFirstPickForSession (sessionId : string) :
  leaves_store (Queries.isFirstPickForSession sessionId).
Proof.
  apply leaves_store_bind; [ apply leaves_store_select | ].
  intros n. apply leaves_store_ret.
Qed.

Lemma leaves_store_weightedRandomSelect (cs : list WeightedCandidate.t) :
  leaves_store (Picker.weightedRandomSelect cs).
Proof.
  intros w.
  destruct (weightedRandomSelect_spec cs w) as [ [ _ E ] | (c & _ & E) ];
    rewrite E; split; reflexivity.
Qed.

(** Reading the outcome of a run of such a computation. *)
Lemma leaves_store_run {A : Type} (m : M A) (w w' : World.t)
      (r : Completion A) :
  leaves_store m -> m w = (r, w') ->
  World.db w' = World.db w /\ World.clock w' = World.clock w.
Proof.
  intros H E. specialize (H w). rewrite E in H. exact H.
Qed.

(** [recordPick] appends one row, or rejects and writes nothing. *)
Lemma recordPick_run (sessionId : string) (movieId : Z)
      (filters : PickFilters.t) (w : World.t) :
  match Queries.recordPick sessionId movieId filters w with
  | (Normal _, w') =>
      World.db w'
      = DB.mk (DB.movies (World.db w)) (DB.genres (World.db w))
              (DB.movie_genres (World.db w))
              (DB.user_picks (World.db w)
               ++ [ UserPick.mk
                      (Z.of_nat (List.length (DB.user_picks (World.db w))) + 1)
                      sessionId movieId filters (World.clock w) ])
  | (Throw _, w') => World.db w' = World.db w
  end.
Proof.
  unfold Queries.recordPick, pool_query, Queries.run_insertPick.
  destruct (World.faults w) as [ | [ | ] rest ]; reflexivity.
Qed.

(* ================================================================== *)
(** * Properties of the pick orchestrator *)
(* ================================================================== *)

(** The candidates of step 4 carry the rows of step 2. *)
Lemma weighted_movie_In (genresMap : Queries.GenreMap)
      (candidates : list MovieRow.t) (isFirstPick : bool)
      (c : WeightedCandidate.t) :
  In c (Picker.applyFirstPickBias isFirstPick
          (map (fun movie =>
                  {| WeightedCandidate.movie := movie;
                     WeightedCandidate.weight := Picker.calculateWeight movie;
                     WeightedCandidate.genres :=
                       Queries.Map_get_or_empty genresMap (MovieRow.id movie) |})
               candidates)) ->
  In (WeightedCandidate.movie c) candidates.
Proof.
  intros H. apply applyFirstPickBias_In in H.
  apply in_map_iff in H. destruct H as (m & <- & Hm). exact Hm.
Qed.

(** One run of [pickMovie], by its outcome.  A movie is returned after the
    two fetches completed, a sample was drawn while the store was still as at
    the start, and one row was appended to [user_picks]; on every other
    outcome the store is as it was. *)
Lemma pickMovie_run (sessionId : string) (filters : PickFilters.t)
      (w : World.t) :
  match Picker.pickMovie sessionId filters w with
  | (Normal (Some mv), w') =>
      exists ids w1 candidates w2 weighted w4 selected,
        Queries.getRecentPickMovieIds sessionId w = (Normal ids, w1)
        /\ Queries.getCandidateMovies filters ids w1 = (Normal candidates, w2)
        /\ Picker.weightedRandomSelect weighted w4
           = (Normal (Some selected), after_random w4)
        /\ World.db w4 = World.db w
        /\ In (WeightedCandidate.movie selected) candidates
        /\ mv = Picker.toMovie (WeightedCandidate.movie selected)
                               (WeightedCandidate.genres selected)
        /\ World.db w'
           = DB.mk (DB.movies (World.db w)) (DB.genres (World.db w))
                   (DB.movie_genres (World.db w))
                   (DB.user_picks (World.db w)
                    ++ [ UserPick.mk
                           (Z.of_nat (List.length (DB.user_picks (World.db w))) + 1)
                           sessionId
                           (MovieRow.id (WeightedCandidate.movie selected))
                           filters (World.clock w) ])
  | (_, w') => World.db w' = World.db w
  end.
Proof.
  unfold Picker.pickMovie, bind.
  destruct (Queries.getRecentPickMovieIds sessionId w)
    as [ [ ids | e ] w1 ] eqn:E1;
    pose proof (leaves_store_run _ _ _ _
                  (leaves_store_getRecentPickMovieIds sessionId) E1)
    as [ D1 C1 ];
    [ | exact D1 ].
  destruct (Queries.getCandidateMovies filters ids w1)
    as [ [ candidates | e ] w2 ] eqn:E2;
    pose proof (leaves_store_run _ _ _ _
                  (leaves_store_getCandidateMovies filters ids) E2)
    as [ D2 C2 ];
    [ | congruence ].
  destruct (Nat.eqb (List.length candidates) 0); [ simpl; congruence | ].
  destruct (Queries.getMoviesGenres (map MovieRow.id candidates) w2)
    as [ [ genresMap | e ] w3 ] eqn:E3;
    pose proof (leaves_store_run _ _ _ _
                  (leaves_store_getMoviesGenres _) E3)
    as [ D3 C3 ];
    [ | congruence ].
  destruct (Queries.isFirstPickForSession sessionId w3)
    as [ [ isFirstPick | e ] w4 ] eqn:E4;
    pose proof (leaves_store_run _ _ _ _
                  (leaves_store_isFirstPickForSession sessionId) E4)
    as [ D4 C4 ];
    [ | congruence ].
  match goal with
  | |- context [ Picker.weightedRandomSelect ?cs w4 ] =>
      destruct (weightedRandomSelect_spec cs w4)
        as [ [ _ E5 ] | (selected & Hin & E5) ]; rewrite E5
  end.
  - simpl. congruence.
  - pose proof (recordPick_run sessionId
                  (MovieRow.id (WeightedCandidate.movie selected)) filters
                  (after_random w4)) as H6.
    destruct (Queries.recordPick sessionId
                (MovieRow.id (WeightedCandidate.movie selected)) filters
                (after_random w4)) as [ [ [] | e ] w6 ].
    + simpl ret. cbv iota beta.
      eexists ids, w1, candidates, w2, _, w4, selected.
      split; [ reflexivity | ]. split; [ exact E2 | ].
      split; [ exact E5 | ]. split; [ congruence | ].
      split; [ eapply weighted_movie_In; exact Hin | ].
      split; [ reflexivity | ].
      rewrite H6. simpl World.db. simpl World.clock.
      replace (World.db w4) with (World.db w) by congruence.
      replace (World.clock w4) with (World.clock w) by congruence.
      reflexivity.
    + simpl in H6. congruence.
Qed.

(** The resolved movie has the id of its row. *)
Lemma toMovie_id (row : MovieRow.t) (genres : list string) :
  Movie.id (Picker.toMovie row genres) = MovieRow.id row.
Proof.
  reflexivity.
Qed.

(** A run of the sample store: the session ["s1"], already shown the first
    comedy, asks for a comedy of the 2010s and gets the second one. *)
Lemma sample_pick :
  Picker.pickMovie "s1" Sample.comedies2010s (Sample.world Sample.store)
  = (Normal (Some Sample.picked), Sample.afterPick).
Proof.
  cbv -[Rle_dec Rmult Rplus Rminus IZR Q2R JS.log10 Picker.calculateWeight Rdiv].
  destruct (Rle_dec _ _); reflexivity.
Qed.

(** C3: the movie a single-pick call returns has an id that is not in the
    exclusion list of the session, the most recent picks fetched at the start
    of the call. *)
Theorem pickMovie_avoids_recent
        (sessionId : string) (filters : PickFilters.t)
        (w w' : World.t) (mv : Movie.t) :
  Picker.pickMovie sessionId filters w = (Normal (Some mv), w') ->
  exists ids w1,
    Queries.getRecentPickMovieIds sessionId w = (Normal ids, w1)
    /\ ids = Queries.run_recentPicksQuery sessionId
               (Config.recentPicksLimit Config.selection) (World.db w)
    /\ ~ In (Movie.id mv) ids.
Proof.
  intros E. pose proof (pickMovie_run sessionId filters w) as H.
  rewrite E in H.
  destruct H as (ids & w1 & candidates & w2 & weighted & w4 & selected
                 & E1 & E2 & _ & _ & Hin & -> & _).
  exists ids, w1. split; [ exact E1 | ].
  unfold Queries.getRecentPickMovieIds in E1.
  apply pool_query_select in E1. destruct E1 as [ Hids _ ].
  split; [ exact Hids | ].
  unfold Queries.getCandidateMovies in E2.
  apply pool_query_select in E2. destruct E2 as [ -> _ ].
  rewrite toMovie_id. eapply run_candidateQuery_excludes. exact Hin.
Qed.

Lemma pickMovie_avoids_recent_witness :
  exists ids w1,
    Queries.getRecentPickMovieIds "s1" (Sample.world Sample.store)
    = (Normal ids, w1)
    /\ ids = Queries.run_recentPicksQuery "s1"
               (Config.recentPicksLimit Config.selection)
               (World.db (Sample.world Sample.store))
    /\ ~ In (Movie.id Sample.picked) ids.
Proof.
  apply (pickMovie_avoids_recent "s1" Sample.comedies2010s
           (Sample.world Sample.store) Sample.afterPick Sample.picked).
  apply sample_pick.
Defined.

(** The steps of a call of [pickMovie] that returns a movie, each run from
    the world its predecessor left: the two fetches, the genres of the
    candidates, the first-pick test, the sample drawn from the weighted and
    biased candidates, and last the write of the pick, run from the world
    the sample left. *)
Lemma pickMovie_trace (sessionId : string) (filters : PickFilters.t)
      (w w' : World.t) (mv : Movie.t) :
  Picker.pickMovie sessionId filters w = (Normal (Some mv), w') ->
  exists ids w1 candidates w2 genresMap w3 isFirstPick w4 selected,
    Queries.getRecentPickMovieIds sessionId w = (Normal ids, w1)
    /\ Queries.getCandidateMovies filters ids w1 = (Normal candidates, w2)
    /\ Queries.getMoviesGenres (map MovieRow.id candidates) w2
       = (Normal genresMap, w3)
    /\ Queries.isFirstPickForSession sessionId w3 = (Normal isFirstPick, w4)
    /\ Picker.weightedRandomSelect
         (Picker.applyFirstPickBias isFirstPick
            (map (weigh genresMap) candidates)) w4
       = (Normal (Some selected), after_random w4)
    /\ Queries.recordPick sessionId
         (MovieRow.id (WeightedCandidate.movie selected)) filters
         (after_random w4)
       = (Normal tt, w')
    /\ mv = Picker.toMovie (WeightedCandidate.movie selected)
                           (WeightedCandidate.genres selected).
Proof.
  intros E. unfold Picker.pickMovie, bind in E.
  destruct (Queries.getRecentPickMovieIds sessionId w)
    as [ [ ids | e ] w1 ] eqn:E1; [ | discriminate ].
  destruct (Queries.getCandidateMovies filters ids w1)
    as [ [ candidates | e ] w2 ] eqn:E2; [ | discriminate ].
  destruct (Nat.eqb (List.length candidates) 0); [ discriminate | ].
  destruct (Queries.getMoviesGenres (map MovieRow.id candidates) w2)
    as [ [ genresMap | e ] w3 ] eqn:E3; [ | discriminate ].
  destruct (Queries.isFirstPickForSession sessionId w3)
    as [ [ isFirstPick | e ] w4 ] eqn:E4; [ | discriminate ].
  fold (weigh genresMap) in E.
  destruct (weightedRandomSelect_spec
              (Picker.applyFirstPickBias isFirstPick
                 (map (weigh genresMap) candidates)) w4)
    as [ [ _ E5 ] | (selected & _ & E5) ]; rewrite E5 in E;
    [ discriminate | ].
  destruct (Queries.recordPick sessionId
              (MovieRow.id (WeightedCandidate.movie selected)) filters
              (after_random w4)) as [ [ [] | e ] w6 ] eqn:E6;
    [ | discriminate ].
  unfold ret in E. inversion E; subst.
  exists ids, w1, candidates, w2, genresMap, w3, isFirstPick, w4, selected.
  repeat (split; [ assumption || reflexivity | ]). reflexivity.
Qed.

(** C5: a single-pick call that returns a movie has appended exactly one row
    to [user_picks], with the id of the returned movie, the session id and
    the filters passed in, and the catalog is untouched.  The row is written
    by the [recordPick] of this call, which runs from the world left by the
    sample of this call: the sampler, run on the weighted and biased
    candidates of this call, returned the candidate whose id is recorded, and
    until that write the store was as at the start.  A call with any other
    outcome has written nothing. *)
Theorem pickMovie_records_once
        (sessionId : string) (filters : PickFilters.t) (w : World.t) :
  (forall mv w',
      Picker.pickMovie sessionId filters w = (Normal (Some mv), w') ->
      exists record,
        DB.user_picks (World.db w') = DB.user_picks (World.db w) ++ [record]
        /\ UserPick.movie_id record = Movie.id mv
        /\ UserPick.session_id record = sessionId
        /\ UserPick.filters record = filters
        /\ same_catalog (World.db w) (World.db w')
        /\ exists ids w1 candidates w2 genresMap w3 isFirstPick w4 selected,
             Queries.getRecentPickMovieIds sessionId w = (Normal ids, w1)
             /\ Queries.getCandidateMovies filters ids w1
                = (Normal candidates, w2)
             /\ Queries.getMoviesGenres (map MovieRow.id candidates) w2
                = (Normal genresMap, w3)
             /\ Queries.isFirstPickForSession sessionId w3
                = (Normal isFirstPick, w4)
             /\ Picker.weightedRandomSelect
                  (Picker.applyFirstPickBias isFirstPick
                     (map (weigh genresMap) candidates)) w4
                = (Normal (Some selected), after_random w4)
             /\ Queries.recordPick sessionId
                  (MovieRow.id (WeightedCandidate.movie selected)) filters
                  (after_random w4)
                = (Normal tt, w')
             /\ World.db (after_random w4) = World.db w
             /\ UserPick.movie_id record
                = MovieRow.id (WeightedCandidate.movie selected)
             /\ mv = Picker.toMovie (WeightedCandidate.movie selected)
                                    (WeightedCandidate.genres selected))
  /\ (forall r w',
         Picker.pickMovie sessionId filters w = (r, w') ->
         (forall mv, r <> Normal (Some mv)) ->
         World.db w' = World.db w).
Proof.
  pose proof (pickMovie_run sessionId filters w) as H. split.
  - intros mv w' E.
    destruct (pickMovie_trace sessionId filters w w' mv E)
      as (ids & w1 & candidates & w2 & genresMap & w3 & isFirstPick & w4
          & selected & E1 & E2 & E3 & E4 & E5 & E6 & Emv).
    destruct (leaves_store_run _ _ _ _
                (leaves_store_getRecentPickMovieIds _) E1) as [ D1 C1 ].
    destruct (leaves_store_run _ _ _ _
                (leaves_store_getCandidateMovies _ _) E2) as [ D2 C2 ].
    destruct (leaves_store_run _ _ _ _
                (leaves_store_getMoviesGenres _) E3) as [ D3 C3 ].
    destruct (leaves_store_run _ _ _ _
                (leaves_store_isFirstPickForSession _) E4) as [ D4 C4 ].
    assert (D5 : World.db (after_random w4) = World.db w)
      by (simpl; congruence).
    pose proof (recordPick_run sessionId
                  (MovieRow.id (WeightedCandidate.movie selected)) filters
                  (after_random w4)) as H6.
    rewrite E6 in H6. rewrite D5 in H6.
    eexists. rewrite H6. simpl DB.user_picks.
    split; [ reflexivity | ]. subst mv. simpl.
    repeat (split; [ reflexivity | ]).
    split; [ repeat split | ].
    exists ids, w1, candidates, w2, genresMap, w3, isFirstPick, w4, selected.
    repeat (split; [ assumption | ]).
    split; reflexivity.
  - intros r w' E Hr. rewrite E in H.
    destruct r as [ [ mv | ] | e ]; [ | exact H | exact H ].
    exfalso. apply (Hr mv). reflexivity.
Qed.

Lemma pickMovie_records_once_witness :
  exists record,
    DB.user_picks (World.db Sample.afterPick)
    = DB.user_picks (World.db (Sample.world Sample.store)) ++ [record]
    /\ UserPick.movie_id record = Movie.id Sample.picked
    /\ UserPick.session_id record = "s1"
    /\ UserPick.filters record = Sample.comedies2010s.
Proof.
  destruct (pickMovie_records_once "s1" Sample.comedies2010s
              (Sample.world Sample.store)) as [ H _ ].
  destruct (H Sample.picked Sample.afterPick sample_pick)
    as (record & H1 & H2 & H3 & H4 & _).
  exists record. repeat split; assumption.
Defined.

(** The handler of [POST /pick] always answers: it never rejects. *)
Lemma pick_handler_answers (body : PickRequest.t) (w : World.t) :
  exists reply w', PickRoute.handler body w = (Normal reply, w').
Proof.
  unfold PickRoute.handler.
  destruct (PickRoute.invalid_sessionId _); [ eexists _, _; reflexivity | ].
  destruct (PickRoute.below_60 _); [ eexists _, _; reflexivity | ].
  destruct (PickRoute.below_60 _); [ eexists _, _; reflexivity | ].
  unfold try_catch, bind.
  destruct (Picker.pickMovie _ _ w) as [ [ [ mv | ] | e ] w' ];
    eexists _, _; reflexivity.
Qed.

(** C6: when the candidate fetch of a single-pick call returns the empty
    list, [pickMovie] completes with [null] and the store is as it was, no
    row is written; the route answers a request that passed its validation
    with a null movie and a message that is not empty, with status 200 and
    not as a failure. *)
Theorem pickMovie_no_match
        (body : PickRequest.t) (w w1 w2 : World.t) (ids : list Z) :
  Queries.getRecentPickMovieIds (PickRequest.sessionId body) w
  = (Normal ids, w1) ->
  Queries.getCandidateMovies (PickRequest.filters body) ids w1
  = (Normal [], w2) ->
  Picker.pickMovie (PickRequest.sessionId body) (PickRequest.filters body) w
  = (Normal None, w2)
  /\ World.db w2 = World.db w
  /\ (PickRoute.invalid_sessionId (PickRequest.sessionId body) = false ->
      PickRoute.below_60 (PickFilters.minDuration (PickRequest.filters body))
      = false ->
      PickRoute.below_60 (PickFilters.maxDuration (PickRequest.filters body))
      = false ->
      PickRoute.handler body w
      = (Normal (PickRoute.Ok200
                   (PickResponse.mk None (Some PickRoute.noMatchMessage))),
         w2))
  /\ PickRoute.noMatchMessage <> "".
Proof.
  intros E1 E2.
  assert (Ep : Picker.pickMovie (PickRequest.sessionId body)
                                (PickRequest.filters body) w
               = (Normal None, w2)).
  { unfold Picker.pickMovie, bind. rewrite E1, E2. reflexivity. }
  split; [ exact Ep | ].
  split.
  - destruct (leaves_store_run _ _ _ _
                (leaves_store_getRecentPickMovieIds _) E1) as [ D1 _ ].
    destruct (leaves_store_run _ _ _ _
                (leaves_store_getCandidateMovies _ _) E2) as [ D2 _ ].
    congruence.
  - split; [ | discriminate ].
    intros V1 V2 V3. unfold PickRoute.handler. rewrite V1, V2, V3.
    unfold try_catch, bind. rewrite Ep. reflexivity.
Qed.

Lemma pickMovie_no_match_witness :
  PickRoute.handler (PickRequest.mk "s1" Sample.eighties)
                    (Sample.world Sample.store)
  = (Normal (PickRoute.Ok200
               (PickResponse.mk None (Some PickRoute.noMatchMessage))),
     Sample.world Sample.store).
Proof.
  apply (pickMovie_no_match (PickRequest.mk "s1" Sample.eighties)
           (Sample.world Sample.store) (Sample.world Sample.store)
           (Sample.world Sample.store) [1]);
    reflexivity.
Defined.

(* ================================================================== *)
(** * Properties of the batch browse *)
(* ================================================================== *)

Section SortMFacts.
Context {A : Type} (compareFn : A -> A -> M R).

(** The comparator always answers and leaves the store alone. *)
Hypothesis compareFn_answers :
  forall a b w, exists v w',
    compareFn a b w = (Normal v, w')
    /\ World.db w' = World.db w /\ World.clock w' = World.clock w.

Lemma insertM_run (x : A) (l : list A) :
  forall w, exists l' w',
    insertM compareFn x l w = (Normal l', w')
    /\ Permutation l' (x :: l)
    /\ World.db w' = World.db w /\ World.clock w' = World.clock w.
Proof.
  induction l as [ | y l IH ]; intros w; simpl.
  - exists [x], w. repeat split. apply Permutation_refl.
  - unfold bind.
    destruct (compareFn_answers x y w) as (v & w1 & E & D & C). rewrite E.
    destruct (Rle_dec v 0).
    + exists (x :: y :: l), w1. repeat split; try assumption.
      apply Permutation_refl.
    + destruct (IH w1) as (l' & w2 & E2 & P & D2 & C2). rewrite E2.
      exists (y :: l'), w2. repeat split; try congruence.
      apply perm_trans with (y :: x :: l);
        [ apply perm_skip; exact P | apply perm_swap ].
Qed.

Lemma sortM_run (l : list A) :
  forall w, exists l' w',
    sortM compareFn l w = (Normal l', w')
    /\ Permutation l' l
    /\ World.db w' = World.db w /\ World.clock w' = World.clock w.
Proof.
  induction l as [ | x l IH ]; intros w; simpl.
  - exists [], w. repeat split. apply perm_nil.
  - unfold bind. destruct (IH w) as (l1 & w1 & E1 & P1 & D1 & C1). rewrite E1.
    destruct (insertM_run x l1 w1) as (l2 & w2 & E2 & P2 & D2 & C2).
    exists l2, w2. repeat split; try congruence.
    apply perm_trans with (x :: l1);
      [ exact P2 | apply perm_skip; exact P1 ].
Qed.

End SortMFacts.

(** The shuffle always completes, with a rearrangement of the candidates. *)
Lemma shuffle_run (candidates : list MovieRow.t) (w : World.t) :
  exists shuffled w',
    CandidatesRoute.shuffle candidates w = (Normal shuffled, w')
    /\ Permutation shuffled candidates
    /\ World.db w' = World.db w /\ World.clock w' = World.clock w.
Proof.
  unfold CandidatesRoute.shuffle. apply sortM_run.
  intros a b w0. eexists _, _. unfold bind, Math_random, ret.
  repeat split.
Qed.

Lemma leaves_store_exclusions (body : CandidatesRoute.CandidatesRequest) :
  leaves_store (CandidatesRoute.exclusions body).
Proof.
  unfold CandidatesRoute.exclusions.
  apply leaves_store_bind; [ | intros ids; apply leaves_store_ret ].
  destruct (CandidatesRoute.sessionId body) as [ s | ];
    [ destruct (JS.truthy_string s) | ];
    try apply leaves_store_ret.
  apply leaves_store_getRecentPickMovieIds.
Qed.

(** One run of the handler of [POST /candidates], by its outcome. *)
Lemma candidates_handler_run (body : CandidatesRoute.CandidatesRequest)
      (w : World.t) :
  match CandidatesRoute.handler body w with
  | (Normal (CandidatesRoute.Ok200 movies), w') =>
      exists excludeIds w1 candidates w2 shuffled genresMap,
        CandidatesRoute.exclusions body w = (Normal excludeIds, w1)
        /\ Queries.getCandidateMovies
             (CandidatesRoute.filters body) excludeIds w1
           = (Normal candidates, w2)
        /\ Permutation shuffled candidates
        /\ movies
           = map (fun movie =>
                    CandidatesRoute.toMovie movie
                      (Queries.Map_get_or_empty genresMap (MovieRow.id movie)))
                 (JS.slice shuffled 0
                    (JS.toInteger
                       (JS.Math_min (CandidatesRoute.requestedLimit body)
                          (inject_Z (Z.of_nat (List.length shuffled))))))
        /\ World.db w' = World.db w
  | (_, w') => World.db w' = World.db w
  end.
Proof.
  unfold CandidatesRoute.handler, try_catch, bind.
  destruct (CandidatesRoute.exclusions body w)
    as [ [ excludeIds | e ] w1 ] eqn:E1;
    pose proof (leaves_store_run _ _ _ _ (leaves_store_exclusions body) E1)
    as [ D1 C1 ];
    [ | exact D1 ].
  destruct (Queries.getCandidateMovies (CandidatesRoute.filters body)
              excludeIds w1) as [ [ candidates | e ] w2 ] eqn:E2;
    pose proof (leaves_store_run _ _ _ _
                  (leaves_store_getCandidateMovies _ _) E2) as [ D2 C2 ];
    [ | simpl; congruence ].
  destruct candidates as [ | c candidates ].
  - simpl. exists excludeIds, w1, [], w2, [], [].
    rewrite slice_nil.
    repeat split; try assumption; try congruence. apply perm_nil.
  - change (Nat.eqb (List.length (c :: candidates)) 0) with false. cbv iota.
    destruct (shuffle_run (c :: candidates) w2)
      as (shuffled & w3 & E3 & P3 & D3 & C3).
    rewrite E3.
    match goal with
    | |- context [ Queries.getMoviesGenres ?ids w3 ] =>
        destruct (Queries.getMoviesGenres ids w3)
          as [ [ genresMap | e ] w4 ] eqn:E4;
        pose proof (leaves_store_run _ _ _ _
                      (leaves_store_getMoviesGenres ids) E4) as [ D4 C4 ]
    end.
    + simpl. exists excludeIds, w1, (c :: candidates), w2, shuffled, genresMap.
      repeat split; try assumption; congruence.
    + simpl. congruence.
Qed.

Lemma NoDup_map_injective {A B : Type} (f : A -> B) (base : list A) :
  NoDup (map f base) ->
  forall x y, In x base -> In y base -> f x = f y -> x = y.
Proof.
  induction base as [ | a base IH ]; simpl; intros Hnd x y Hx Hy E.
  - contradiction.
  - inversion Hnd as [ | ? ? Hna Hnd' ]; subst.
    destruct Hx as [ <- | Hx ]; destruct Hy as [ <- | Hy ].
    + reflexivity.
    + exfalso. apply Hna. rewrite E. apply in_map. exact Hy.
    + exfalso. apply Hna. rewrite <- E. apply in_map. exact Hx.
    + apply IH; assumption.
Qed.

Lemma NoDup_map_sub {A B : Type} (f : A -> B) (base l : list A) :
  NoDup (map f base) -> NoDup l -> incl l base -> NoDup (map f l).
Proof.
  intros Hbase Hl Hincl. induction Hl as [ | x l Hx Hl IH ]; simpl.
  - constructor.
  - constructor.
    + intros Hin. apply in_map_iff in Hin. destruct Hin as (y & E & Hy).
      assert (y = x).
      { apply (NoDup_map_injective f base Hbase).
        - apply Hincl. right. exact Hy.
        - apply Hincl. left. reflexivity.
        - exact E. }
      subst y. contradiction.
    + apply IH. intros z Hz. apply Hincl. right. exact Hz.
Qed.

Lemma NoDup_firstn {A : Type} (n : nat) (l : list A) :
  NoDup l -> NoDup (firstn n l).
Proof.
  intros H. rewrite <- (firstn_skipn n l) in H.
  apply NoDup_app_remove_r in H. exact H.
Qed.

(** Two runs of the sample store: browsing the whole catalog, which has two
    candidates, with limit 1 and with limit -1.  Both return one movie. *)
Lemma sample_browse_one :
  exists movies w',
    CandidatesRoute.handler Sample.browseOne (Sample.world Sample.store)
    = (Normal (CandidatesRoute.Ok200 movies), w')
    /\ List.length movies = 1%nat.
Proof.
  cbv -[Rle_dec Rmult Rplus Rminus IZR Q2R Rdiv Rinv].
  destruct (Rle_dec _ _); eexists _, _; split; reflexivity.
Qed.

Lemma sample_browse_negative :
  exists movies w',
    CandidatesRoute.handler Sample.browseNegative (Sample.world Sample.store)
    = (Normal (CandidatesRoute.Ok200 movies), w')
    /\ List.length movies = 1%nat.
Proof.
  cbv -[Rle_dec Rmult Rplus Rminus IZR Q2R Rdiv Rinv].
  destruct (Rle_dec _ _); eexists _, _; split; reflexivity.
Qed.

(** The limit 1.5 on the pool of two: [slice(0, 1.5)] keeps one movie. *)
Lemma sample_browse_one_and_half :
  exists movies w',
    CandidatesRoute.handler Sample.browseOneAndHalf (Sample.world Sample.store)
    = (Normal (CandidatesRoute.Ok200 movies), w')
    /\ List.length movies = 1%nat.
Proof.
  cbv -[Rle_dec Rmult Rplus Rminus IZR Q2R Rdiv Rinv].
  destruct (Rle_dec _ _); eexists _, _; split; reflexivity.
Qed.

(** C8, as stated, fails on a negative limit: [slice(0, -1)] drops only the
    last element.  With limit -1 and a pool of 2 candidates the call returns 1
    movie, which is not [min (-1) 2]. *)
Lemma candidates_negative_limit :
  CandidatesRoute.requestedLimit Sample.browseNegative = inject_Z (-1)
  /\ fst (Queries.getCandidateMovies
            (CandidatesRoute.filters Sample.browseNegative) []
            (Sample.world Sample.store))
     = Normal [Sample.comedy2015; Sample.comedy2016]
  /\ exists movies w',
       CandidatesRoute.handler Sample.browseNegative (Sample.world Sample.store)
       = (Normal (CandidatesRoute.Ok200 movies), w')
       /\ List.length movies = 1%nat
       /\ ~ (inject_Z (Z.of_nat (List.length movies))
             == JS.Math_min
                  (CandidatesRoute.requestedLimit Sample.browseNegative)
                  (inject_Z 2))%Q.
Proof.
  split; [ reflexivity | ]. split; [ reflexivity | ].
  destruct sample_browse_negative as (movies & w' & E & Hlen).
  exists movies, w'. split; [ exact E | ]. split; [ exact Hlen | ].
  rewrite Hlen. intros H. vm_compute in H. discriminate H.
Qed.

(** The end index of the slice of the handler, for a limit that is not
    negative: the whole part of the limit, or the length if that is less. *)
Lemma toInteger_min_length (limit : Q) (n : Z) :
  (0 <= limit)%Q -> 0 <= n ->
  JS.toInteger (JS.Math_min limit (inject_Z n)) = Z.min (Qfloor limit) n.
Proof.
  intros Hl Hn. unfold JS.Math_min, JS.toInteger.
  destruct (Qle_bool limit (inject_Z n)) eqn:E.
  - apply Qle_bool_iff in E.
    apply Qle_bool_iff in Hl. rewrite Hl.
    apply Qfloor_resp_le in E. rewrite Qfloor_Z in E. lia.
  - assert (Hlt : (inject_Z n <= limit)%Q).
    { apply Qlt_le_weak. apply Qnot_le_lt. intros H.
      apply Qle_bool_iff in H. congruence. }
    assert (H0 : Qle_bool 0 (inject_Z n) = true).
    { apply Qle_bool_iff. change (inject_Z 0 <= inject_Z n)%Q.
      rewrite <- Zle_Qle. exact Hn. }
    rewrite H0. rewrite Qfloor_Z.
    apply Qfloor_resp_le in Hlt. rewrite Qfloor_Z in Hlt. lia.
Qed.

(** C8 (amended): for every batch browse call whose limit [L] (30 when the
    request gives none) is not negative, on a store whose movie ids are
    unique, a call that answers with movies fetched a pool of [n] candidates
    and returns exactly [min (floor L) n] movies, that is [min L n] when [L]
    is an integer, with pairwise different ids, each the resolved form of a
    candidate that satisfies the predicate of the candidate query; it writes
    no pick record: the store is as it was. *)
Theorem candidates_handler_batch
        (body : CandidatesRoute.CandidatesRequest) (w w' : World.t)
        (movies : list Movie.t) :
  (0 <= CandidatesRoute.requestedLimit body)%Q ->
  DB.movies_pk (World.db w) ->
  CandidatesRoute.handler body w = (Normal (CandidatesRoute.Ok200 movies), w') ->
  exists excludeIds w1 candidates w2,
    CandidatesRoute.exclusions body w = (Normal excludeIds, w1)
    /\ Queries.getCandidateMovies (CandidatesRoute.filters body) excludeIds w1
       = (Normal candidates, w2)
    /\ Z.of_nat (List.length movies)
       = Z.min (Qfloor (CandidatesRoute.requestedLimit body))
               (Z.of_nat (List.length candidates))
    /\ (forall L : Z,
          (CandidatesRoute.requestedLimit body == inject_Z L)%Q ->
          Z.of_nat (List.length movies)
          = Z.min L (Z.of_nat (List.length candidates)))
    /\ NoDup (map Movie.id movies)
    /\ (forall mv, In mv movies ->
          exists row genres,
            In row candidates
            /\ mv = CandidatesRoute.toMovie row genres
            /\ satisfies
                 (Queries.candidateQuery (CandidatesRoute.filters body) excludeIds)
                 (World.db w) row)
    /\ World.db w' = World.db w.
Proof.
  intros HL Hpk E. pose proof (candidates_handler_run body w) as H.
  rewrite E in H.
  destruct H as (excludeIds & w1 & candidates & w2 & shuffled & genresMap
                 & E1 & E2 & P & -> & D).
  exists excludeIds, w1, candidates, w2.
  split; [ exact E1 | ]. split; [ exact E2 | ].
  destruct (leaves_store_run _ _ _ _ (leaves_store_exclusions body) E1)
    as [ D1 _ ].
  unfold Queries.getCandidateMovies in E2.
  apply pool_query_select in E2. destruct E2 as [ Hc _ ].
  rewrite D1 in Hc.
  rewrite toInteger_min_length by (try exact HL; lia).
  assert (Hfloor : 0 <= Qfloor (CandidatesRoute.requestedLimit body)).
  { apply Qfloor_resp_le in HL. exact HL. }
  rewrite slice_0 by lia.
  set (k := Z.to_nat _).
  assert (Hsub : incl (firstn k shuffled) candidates).
  { intros x Hx. apply firstn_In in Hx.
    eapply Permutation_in; [ exact P | exact Hx ]. }
  assert (Hlen : Z.of_nat (List.length (firstn k shuffled))
                 = Z.min (Qfloor (CandidatesRoute.requestedLimit body))
                         (Z.of_nat (List.length candidates))).
  { rewrite length_firstn. subst k. rewrite (Permutation_length P). lia. }
  split; [ rewrite length_map; exact Hlen | ].
  split; [ | split; [ | split; [ | exact D ] ] ].
  - intros L HLeq. rewrite length_map, Hlen.
    rewrite (Qfloor_comp _ _ HLeq), Qfloor_Z. reflexivity.
  - rewrite map_map. simpl.
    apply (NoDup_map_sub MovieRow.id (DB.movies (World.db w))).
    + exact Hpk.
    + apply NoDup_firstn.
      apply (Permutation_NoDup (Permutation_sym P)).
      rewrite Hc. apply run_candidateQuery_NoDup.
    + intros x Hx. apply Hsub in Hx. rewrite Hc in Hx.
      apply run_candidateQuery_satisfies in Hx.
      destruct Hx as (mg & Hin & _).
      eapply from_rows_movies. exact Hin.
  - intros mv Hmv. apply in_map_iff in Hmv.
    destruct Hmv as (row & <- & Hrow). apply Hsub in Hrow.
    exists row, (Queries.Map_get_or_empty genresMap (MovieRow.id row)).
    split; [ exact Hrow | ]. split; [ reflexivity | ].
    rewrite Hc in Hrow. apply run_candidateQuery_satisfies. exact Hrow.
Qed.

Lemma sample_store_pk : DB.movies_pk (World.db (Sample.world Sample.store)).
Proof.
  unfold DB.movies_pk. simpl.
  repeat (constructor; [ simpl; intuition discriminate | ]). constructor.
Qed.

Lemma candidates_handler_batch_witness :
  exists movies w',
    CandidatesRoute.handler Sample.browseOne (Sample.world Sample.store)
    = (Normal (CandidatesRoute.Ok200 movies), w')
    /\ List.length movies = 1%nat
    /\ NoDup (map Movie.id movies)
    /\ World.db w' = World.db (Sample.world Sample.store).
Proof.
  destruct sample_browse_one as (movies & w' & E & Hlen).
  exists movies, w'. split; [ exact E | ]. split; [ exact Hlen | ].
  destruct (candidates_handler_batch Sample.browseOne
              (Sample.world Sample.store) w' movies)
    as (excludeIds & w1 & candidates & w2 & _ & _ & _ & _ & Hnd & _ & D).
  - vm_compute. discriminate.
  - apply sample_store_pk.
  - exact E.
  - split; assumption.
Defined.

(* ================================================================== *)
(** * Properties of the resolved movie *)
(* ================================================================== *)

(** The three route modules carry the same converter. *)
Lemma toMovie_same (row : MovieRow.t) (genres : list string) :
  CandidatesRoute.toMovie row genres = Picker.toMovie row genres
  /\ SearchRoute.toMovie row genres = Picker.toMovie row genres.
Proof.
  split; reflexivity.
Qed.

Lemma picker_toMovie_renders : renders_defaults Picker.toMovie.
Proof.
  intros row genres. unfold Picker.toMovie. simpl.
  split; [ intros ->; reflexivity | ].
  split; [ intros ->; reflexivity | ].
  split.
  - intros [ -> | -> ]; reflexivity.
  - intros p -> Hp. destruct p as [ | c p ]; [ congruence | reflexivity ].
Qed.

(** C10, as stated, fails on a poster path that is the empty string: it is
    not null, yet the URL is empty and not the image base. *)
Lemma toMovie_empty_poster_path :
  MovieRow.poster_path Sample.emptyPoster = Some ""
  /\ Movie.posterUrl (Picker.toMovie Sample.emptyPoster []) = ""
  /\ Movie.posterUrl (Picker.toMovie Sample.emptyPoster [])
     <> (Config.tmdbImageBaseUrl ++ "")%string.
Proof.
  repeat split. discriminate.
Qed.

(** C10 (amended): in every resolved movie returned by the single pick, the
    batch browse and the search, a null runtime is rendered as 0, a null
    synopsis as the empty string, and a null or empty poster path as an empty
    [posterUrl]; otherwise [posterUrl] is the configured image base followed
    by the stored path.  The movie of a single pick, the movies of a batch
    browse and the movie of a search are made by their module's [toMovie]. *)
Theorem toMovie_renders_defaults :
  renders_defaults Picker.toMovie
  /\ renders_defaults CandidatesRoute.toMovie
  /\ renders_defaults SearchRoute.toMovie
  /\ (forall sessionId filters w mv w',
         Picker.pickMovie sessionId filters w = (Normal (Some mv), w') ->
         exists row genres, mv = Picker.toMovie row genres)
  /\ (forall body w movies w' mv,
         CandidatesRoute.handler body w
         = (Normal (CandidatesRoute.Ok200 movies), w') ->
         In mv movies ->
         exists row genres, mv = CandidatesRoute.toMovie row genres)
  /\ (forall searchMovieByTitle title w mv w',
         SearchRoute.handler searchMovieByTitle title w
         = (Normal (SearchRoute.Ok200 (Some mv)), w') ->
         exists row genres, mv = SearchRoute.toMovie row genres).
Proof.
  split; [ exact picker_toMovie_renders | ].
  split; [ exact picker_toMovie_renders | ].
  split; [ exact picker_toMovie_renders | ].
  split; [ | split ].
  - intros sessionId filters w mv w' E.
    pose proof (pickMovie_run sessionId filters w) as H. rewrite E in H.
    destruct H as (_ & _ & _ & _ & _ & _ & selected & _ & _ & _ & _ & _ & -> & _).
    eexists _, _. reflexivity.
  - intros body w movies w' mv E Hmv.
    pose proof (candidates_handler_run body w) as H. rewrite E in H.
    destruct H as (_ & _ & _ & _ & shuffled & genresMap & _ & _ & _ & -> & _).
    apply in_map_iff in Hmv. destruct Hmv as (row & <- & _).
    eexists _, _. reflexivity.
  - intros searchMovieByTitle title w mv w'.
    unfold SearchRoute.handler.
    destruct (SearchRoute.missing_title title); [ discriminate | ].
    unfold try_catch, bind.
    destruct (searchMovieByTitle _ w) as [ [ [ row | ] | e ] w1 ];
      try discriminate.
    destruct (Queries.getMovieGenres (MovieRow.id row) w1)
      as [ [ genres | e ] w2 ]; try discriminate.
    intros E. inversion E. eexists _, _. reflexivity.
Qed.

Lemma toMovie_renders_defaults_witness :
  Movie.posterUrl (Picker.toMovie Sample.comedy2015 [])
  = (Config.tmdbImageBaseUrl ++ "/poster.jpg")%string
  /\ Movie.runtime (SearchRoute.toMovie Sample.noRuntime []) = 0
  /\ Movie.posterUrl (CandidatesRoute.toMovie Sample.emptyPoster []) = "".
Proof.
  destruct toMovie_renders_defaults as (Hp & Hc & Hs & _).
  split; [ | split ].
  - apply (Hp Sample.comedy2015 []); [ reflexivity | discriminate ].
  - apply (Hs Sample.noRuntime []). reflexivity.
  - apply (Hc Sample.emptyPoster []). right. reflexivity.
Defined.

(* ================================================================== *)
(** * More on the weighted sampler *)
(* ================================================================== *)

(** X1: the sampler returns [null] exactly on the empty list: on any other list
    it draws one random number and returns a member, whatever the weights and
    the number drawn. *)
Theorem weightedRandomSelect_null_only_on_empty
        (cs : list WeightedCandidate.t) (w : World.t) :
  (cs = [] -> Picker.weightedRandomSelect cs w = (Normal None, w))
  /\ (cs <> [] ->
      exists c, In c cs
                /\ Picker.weightedRandomSelect cs w
                   = (Normal (Some c), after_random w)).
Proof.
  destruct (weightedRandomSelect_spec cs w) as [ [ -> E ] | (c & Hin & E) ].
  - split; [ intros _; exact E | congruence ].
  - split.
    + intros ->. contradiction.
    + intros _. exists c. split; assumption.
Qed.

Lemma weightedRandomSelect_null_only_on_empty_witness :
  exists c, In c [Sample.light; Sample.heavy]
            /\ Picker.weightedRandomSelect [Sample.light; Sample.heavy]
                 (Sample.halves Sample.store)
               = (Normal (Some c), after_random (Sample.halves Sample.store)).
Proof.
  apply (weightedRandomSelect_null_only_on_empty
           [Sample.light; Sample.heavy] (Sample.halves Sample.store)).
  discriminate.
Defined.

(* ================================================================== *)
(** * More on the first-pick bias stage *)
(* ================================================================== *)

(** On a pool that is not empty the stage keeps at least one candidate. *)
Lemma applyFirstPickBias_nonempty
      (isFirstPick : bool) (wcs : list WeightedCandidate.t) :
  wcs <> [] -> Picker.applyFirstPickBias isFirstPick wcs <> [].
Proof.
  intros Hne.
  destruct isFirstPick;
    [ | rewrite applyFirstPickBias_noop by (left; reflexivity); exact Hne ].
  destruct (Nat.le_gt_cases (List.length wcs) 10) as [ Hle | Hgt ];
    [ rewrite applyFirstPickBias_noop by (right; exact Hle); exact Hne | ].
  rewrite applyFirstPickBias_firstn by exact Hgt.
  rewrite topCount_eq.
  pose proof (sort_length Picker.heavier_first wcs) as Hlen.
  destruct (JS.sort Picker.heavier_first wcs) as [ | x rest ];
    [ simpl in Hlen; lia | ].
  assert (Hk : exists k, Z.to_nat ((3 * Z.of_nat (List.length wcs) + 9) / 10)
                         = S k).
  { pose proof (Z.div_mod (3 * Z.of_nat (List.length wcs) + 9) 10) as H1.
    pose proof (Z.mod_pos_bound (3 * Z.of_nat (List.length wcs) + 9) 10) as H2.
    exists (Nat.pred (Z.to_nat ((3 * Z.of_nat (List.length wcs) + 9) / 10))).
    lia. }
  destruct Hk as (k & ->). simpl. discriminate.
Qed.

(** X4: the stage never empties a pool: its result is the whole input when the
    pick is not a first pick or the pool has at most 10 candidates, and
    otherwise a part of the input that is not empty and not longer. *)
Theorem applyFirstPickBias_keeps_some
        (isFirstPick : bool) (wcs : list WeightedCandidate.t) :
  (isFirstPick = false \/ (List.length wcs <= 10)%nat ->
   Picker.applyFirstPickBias isFirstPick wcs = wcs)
  /\ (wcs <> [] -> Picker.applyFirstPickBias isFirstPick wcs <> [])
  /\ incl (Picker.applyFirstPickBias isFirstPick wcs) wcs
  /\ (List.length (Picker.applyFirstPickBias isFirstPick wcs)
      <= List.length wcs)%nat.
Proof.
  split; [ apply applyFirstPickBias_noop | ].
  split; [ apply applyFirstPickBias_nonempty | ].
  split.
  - intros c Hc. eapply applyFirstPickBias_In. exact Hc.
  - destruct isFirstPick;
      [ | rewrite applyFirstPickBias_noop by (left; reflexivity); lia ].
    destruct (Nat.le_gt_cases (List.length wcs) 10) as [ Hle | Hgt ];
      [ rewrite applyFirstPickBias_noop by (right; exact Hle); lia | ].
    rewrite applyFirstPickBias_firstn by exact Hgt.
    rewrite length_firstn, sort_length. lia.
Qed.

Lemma applyFirstPickBias_keeps_some_witness :
  Picker.applyFirstPickBias true (repeat Sample.light 10)
  = repeat Sample.light 10
  /\ Picker.applyFirstPickBias true (repeat Sample.light 11) <> [].
Proof.
  destruct (applyFirstPickBias_keeps_some true (repeat Sample.light 10))
    as (Hsame & _).
  destruct (applyFirstPickBias_keeps_some true (repeat Sample.light 11))
    as (_ & Hsome & _).
  split.
  - apply Hsame. right. rewrite repeat_length. lia.
  - apply Hsome. discriminate.
Defined.

(* ================================================================== *)
(** * What the candidate fetch returns *)
(* ================================================================== *)

(** The condition list of a candidate query, group by group. *)
Lemma candidateQuery_conditions (filters : PickFilters.t)
      (excludeIds : list Z) :
  Queries.conditions (Queries.candidateQuery filters excludeIds)
  = floor_conditions ++ era_conditions filters ++ min_conditions filters
    ++ max_conditions filters ++ origin_conditions filters
    ++ exclusion_conditions excludeIds ++ genre_conditions filters.
Proof.
  unfold Queries.candidateQuery, floor_conditions, era_conditions,
    min_conditions, max_conditions, origin_conditions, exclusion_conditions,
    genre_conditions, Queries.push_if.
  cbn [Queries.conditions].
  destruct (PickFilters.era filters) as [ [ ] | ];
    destruct (PickFilters.minDuration filters) as [ lo | ];
    try destruct (JS.truthy_number lo);
    destruct (PickFilters.maxDuration filters) as [ hi | ];
    try destruct (JS.truthy_number hi);
    destruct (Queries.nonempty (PickFilters.origin filters));
    destruct (Queries.nonempty (PickFilters.genreIds filters));
    destruct excludeIds as [ | x rest ];
    reflexivity.
Qed.

Lemma genreJoin_nonempty (filters : PickFilters.t) (excludeIds : list Z) :
  Queries.genreJoin (Queries.candidateQuery filters excludeIds)
  = Queries.nonempty (PickFilters.genreIds filters).
Proof.
  reflexivity.
Qed.

Lemma existsb_String_eqb_In (x : string) (l : list string) :
  existsb (String.eqb x) l = true <-> In x l.
Proof.
  rewrite existsb_exists. split.
  - intros (y & Hy & E). apply String.eqb_eq in E. subst. exact Hy.
  - intros H. exists x. split; [ exact H | apply String.eqb_refl ].
Qed.

Lemma truthy_number_true (n : Z) : JS.truthy_number n = true <-> n <> 0.
Proof.
  unfold JS.truthy_number. rewrite negb_true_iff, Z.eqb_neq. tauto.
Qed.

Lemma nonempty_true {A : Type} (o : option (list A)) :
  Queries.nonempty o = true <-> exists l, o = Some l /\ l <> [].
Proof.
  destruct o as [ [ | x l ] | ]; simpl; split;
    try discriminate; try (intros (l0 & E & Hl); congruence).
  intros _. exists (x :: l). split; [ reflexivity | discriminate ].
Qed.

Section ConditionGroups.
Variables (filters : PickFilters.t) (excludeIds : list Z).
Variables (m : MovieRow.t) (mg : option MovieGenre.t).

Lemma floor_conditions_hold :
  forallb (fun c => Queries.holds c (m, mg)) floor_conditions = true
  <-> quality_floor m.
Proof.
  unfold floor_conditions, quality_floor. simpl.
  rewrite !andb_true_iff, negb_true_iff, !Z.leb_le, Qle_bool_iff.
  unfold Queries.nullable.
  destruct (MovieRow.runtime m) as [ minutes | ].
  - rewrite Z.leb_le. split.
    + intros (H1 & _ & H3 & H4 & H5 & _).
      repeat split; try assumption. exists minutes. split; [ reflexivity | exact H3 ].
    + intros (H1 & (r & E & Hr) & H4 & H5). inversion E; subst.
      repeat split; assumption.
  - split.
    + intros (_ & H & _). discriminate.
    + intros (_ & (r & E & _) & _). discriminate.
Qed.

Lemma era_conditions_hold :
  forallb (fun c => Queries.holds c (m, mg)) (era_conditions filters) = true
  <-> (forall era, PickFilters.era filters = Some era ->
                   in_era era (MovieRow.year m)).
Proof.
  unfold era_conditions.
  destruct (PickFilters.era filters) as [ [ ] | ]; simpl;
    rewrite ?andb_true_r, ?andb_true_iff, ?Z.leb_le;
    (split;
     [ intros H e E; inversion E; subst; unfold in_era; simpl; intuition lia
     | intros H;
       try (pose proof (H _ eq_refl) as H'; unfold in_era in H'; simpl in H';
            intuition lia);
       try reflexivity ]).
Qed.

Lemma min_conditions_hold :
  forallb (fun c => Queries.holds c (m, mg)) (min_conditions filters) = true
  <-> (forall n, PickFilters.minDuration filters = Some n -> n <> 0 ->
                 exists minutes,
                   MovieRow.runtime m = Some minutes /\ n <= minutes).
Proof.
  unfold min_conditions.
  destruct (PickFilters.minDuration filters) as [ n | ];
    [ | simpl; split; [ intros _ n E; discriminate | reflexivity ] ].
  destruct (JS.truthy_number n) eqn:T.
  - apply truthy_number_true in T. simpl. rewrite andb_true_r.
    unfold Queries.nullable. split.
    + intros H n0 E _. inversion E; subst.
      destruct (MovieRow.runtime m) as [ minutes | ]; [ | discriminate ].
      exists minutes. split; [ reflexivity | apply Z.leb_le; exact H ].
    + intros H. destruct (H n eq_refl T) as (minutes & -> & Hle).
      apply Z.leb_le. exact Hle.
  - simpl. split; [ | reflexivity ].
    intros _ n0 E Hn. inversion E; subst.
    apply truthy_number_true in Hn. congruence.
Qed.

Lemma max_conditions_hold :
  forallb (fun c => Queries.holds c (m, mg)) (max_conditions filters) = true
  <-> (forall n, PickFilters.maxDuration filters = Some n -> n <> 0 ->
                 exists minutes,
                   MovieRow.runtime m = Some minutes /\ minutes <= n).
Proof.
  unfold max_conditions.
  destruct (PickFilters.maxDuration filters) as [ n | ];
    [ | simpl; split; [ intros _ n E; discriminate | reflexivity ] ].
  destruct (JS.truthy_number n) eqn:T.
  - apply truthy_number_true in T. simpl. rewrite andb_true_r.
    unfold Queries.nullable. split.
    + intros H n0 E _. inversion E; subst.
      destruct (MovieRow.runtime m) as [ minutes | ]; [ | discriminate ].
      exists minutes. split; [ reflexivity | apply Z.leb_le; exact H ].
    + intros H. destruct (H n eq_refl T) as (minutes & -> & Hle).
      apply Z.leb_le. exact Hle.
  - simpl. split; [ | reflexivity ].
    intros _ n0 E Hn. inversion E; subst.
    apply truthy_number_true in Hn. congruence.
Qed.

Lemma origin_conditions_hold :
  forallb (fun c => Queries.holds c (m, mg)) (origin_conditions filters) = true
  <-> (forall codes, PickFilters.origin filters = Some codes -> codes <> [] ->
                     In (MovieRow.original_language m)
                        (map JS.toLowerCase codes)).
Proof.
  unfold origin_conditions.
  destruct (Queries.nonempty (PickFilters.origin filters)) eqn:N.
  - apply nonempty_true in N. destruct N as (codes & E & Hne).
    rewrite E. simpl. rewrite andb_true_r, existsb_String_eqb_In. split.
    + intros H codes0 E0 _. inversion E0; subst. exact H.
    + intros H. apply (H codes eq_refl Hne).
  - simpl. split; [ | reflexivity ].
    intros _ codes E Hne.
    assert (Queries.nonempty (PickFilters.origin filters) = true)
      by (apply nonempty_true; exists codes; split; assumption).
    congruence.
Qed.

Lemma exclusion_conditions_hold :
  forallb (fun c => Queries.holds c (m, mg)) (exclusion_conditions excludeIds)
  = true
  <-> ~ In (MovieRow.id m) excludeIds.
Proof.
  unfold exclusion_conditions. destruct excludeIds as [ | x rest ].
  - simpl. tauto.
  - cbn [forallb Queries.holds fst]. rewrite andb_true_r, negb_true_iff.
    rewrite <- existsb_Zeqb_In.
    destruct (existsb (Z.eqb (MovieRow.id m)) (x :: rest)); split;
      congruence.
Qed.

End ConditionGroups.

(** The rows of the [FROM] clause that carry a movie, and the genre
    condition on them. *)
Lemma genre_conditions_hold (filters : PickFilters.t) (d : DB.t)
      (m : MovieRow.t) :
  (exists mg,
      In (m, mg)
         (Queries.from_rows (Queries.nonempty (PickFilters.genreIds filters)) d)
      /\ forallb (fun c => Queries.holds c (m, mg)) (genre_conditions filters)
         = true)
  <-> In m (DB.movies d)
      /\ (forall ids, PickFilters.genreIds filters = Some ids -> ids <> [] ->
                      exists g,
                        In g (DB.movie_genres d)
                        /\ MovieGenre.movie_id g = MovieRow.id m
                        /\ In (MovieGenre.genre_id g) ids).
Proof.
  unfold genre_conditions, Queries.from_rows.
  destruct (Queries.nonempty (PickFilters.genreIds filters)) eqn:N.
  - apply nonempty_true in N. destruct N as (ids & E & Hne). rewrite E.
    simpl Queries.get_list. split.
    + intros (mg & Hin & Hc). apply in_flat_map in Hin.
      destruct Hin as (m0 & Hm0 & Hin). apply in_map_iff in Hin.
      destruct Hin as (g & Eg & Hg). inversion Eg; subst m0 mg.
      apply filter_In in Hg. destruct Hg as [ Hg Hid ].
      apply Z.eqb_eq in Hid.
      split; [ exact Hm0 | ].
      intros ids0 E0 _. inversion E0; subst ids0.
      exists g. split; [ exact Hg | ]. split; [ congruence | ].
      simpl in Hc. rewrite andb_true_r in Hc.
      apply existsb_Zeqb_In. exact Hc.
    + intros (Hm & H). destruct (H ids eq_refl Hne) as (g & Hg & Hid & Hgen).
      exists (Some g). split.
      * apply in_flat_map. exists m. split; [ exact Hm | ].
        apply in_map_iff. exists g. split; [ reflexivity | ].
        apply filter_In. split; [ exact Hg | ].
        apply Z.eqb_eq. congruence.
      * simpl. rewrite andb_true_r. apply existsb_Zeqb_In. exact Hgen.
  - simpl. split.
    + intros (mg & Hin & _). apply in_map_iff in Hin.
      destruct Hin as (m0 & Em & Hm0). inversion Em; subst.
      split; [ exact Hm0 | ].
      intros ids E Hne.
      assert (Queries.nonempty (PickFilters.genreIds filters) = true)
        by (apply nonempty_true; exists ids; split; assumption).
      congruence.
    + intros (Hm & _). exists None. split; [ | reflexivity ].
      apply in_map_iff. exists m. split; [ reflexivity | exact Hm ].
Qed.

(** A movie satisfies the predicate of the candidate query exactly when it
    is in the store and meets what the filters and the exclusions ask. *)
Lemma satisfies_matches (filters : PickFilters.t) (excludeIds : list Z)
      (d : DB.t) (m : MovieRow.t) :
  satisfies (Queries.candidateQuery filters excludeIds) d m
  <-> In m (DB.movies d) /\ matches filters excludeIds d m.
Proof.
  unfold satisfies, matches.
  rewrite genreJoin_nonempty, candidateQuery_conditions.
  pose proof (genre_conditions_hold filters d m) as Hg.
  split.
  - intros (mg & Hin & Hc).
    rewrite !forallb_app, !andb_true_iff in Hc.
    destruct Hc as (H1 & H2 & H3 & H4 & H5 & H6 & H7).
    assert (Hgen : exists mg0,
               In (m, mg0)
                  (Queries.from_rows
                     (Queries.nonempty (PickFilters.genreIds filters)) d)
               /\ forallb (fun c => Queries.holds c (m, mg0))
                          (genre_conditions filters) = true)
      by (exists mg; split; assumption).
    apply Hg in Hgen. destruct Hgen as [ Hm Hgen ].
    split; [ exact Hm | ].
    split; [ apply (floor_conditions_hold m mg); exact H1 | ].
    split; [ apply (era_conditions_hold filters m mg); exact H2 | ].
    split; [ apply (min_conditions_hold filters m mg); exact H3 | ].
    split; [ apply (max_conditions_hold filters m mg); exact H4 | ].
    split; [ apply (origin_conditions_hold filters m mg); exact H5 | ].
    split; [ apply (exclusion_conditions_hold excludeIds m mg); exact H6 | ].
    exact Hgen.
  - intros (Hm & H1 & H2 & H3 & H4 & H5 & H6 & H7).
    destruct (proj2 Hg (conj Hm H7)) as (mg & Hin & Hc).
    exists mg. split; [ exact Hin | ].
    rewrite !forallb_app, !andb_true_iff.
    split; [ apply floor_conditions_hold; exact H1 | ].
    split; [ apply era_conditions_hold; exact H2 | ].
    split; [ apply min_conditions_hold; exact H3 | ].
    split; [ apply max_conditions_hold; exact H4 | ].
    split; [ apply origin_conditions_hold; exact H5 | ].
    split; [ apply exclusion_conditions_hold; exact H6 | exact Hc ].
Qed.

(** X5: every movie the candidate fetch returns is a movie of the store that
    meets all that was asked: the quality floors, the year range of the era,
    the duration bounds (a bound of 0 asks nothing), one of the origin codes
    once lower-cased, at least one of the genres, and an id outside the
    exclusion list. *)
Theorem getCandidateMovies_meets_filters
        (filters : PickFilters.t) (excludeIds : list Z)
        (w w' : World.t) (rows : list MovieRow.t) :
  Queries.getCandidateMovies filters excludeIds w = (Normal rows, w') ->
  Forall (fun m => In m (DB.movies (World.db w))
                   /\ matches filters excludeIds (World.db w) m) rows.
Proof.
  intros E. unfold Queries.getCandidateMovies in E.
  apply pool_query_select in E. destruct E as [ -> _ ].
  apply Forall_forall. intros m Hm.
  apply satisfies_matches. apply run_candidateQuery_satisfies. exact Hm.
Qed.

Lemma getCandidateMovies_meets_filters_witness :
  Forall (fun m => In m (DB.movies Sample.store)
                   /\ matches Sample.comedies2010s [1] Sample.store m)
         [Sample.comedy2016].
Proof.
  apply (getCandidateMovies_meets_filters Sample.comedies2010s [1]
           (Sample.world Sample.store) (Sample.world Sample.store)).
  reflexivity.
Defined.

(** X6: the candidate fetch returns at most 1000 rows, no row twice, and on a
    store whose movie ids are unique no id twice; it leaves the store as it
    is. *)
Theorem getCandidateMovies_bounded_distinct
        (filters : PickFilters.t) (excludeIds : list Z)
        (w w' : World.t) (rows : list MovieRow.t) :
  Queries.getCandidateMovies filters excludeIds w = (Normal rows, w') ->
  (List.length rows <= 1000)%nat
  /\ NoDup rows
  /\ (DB.movies_pk (World.db w) -> NoDup (map MovieRow.id rows))
  /\ World.db w' = World.db w.
Proof.
  intros E. unfold Queries.getCandidateMovies in E.
  apply pool_query_select in E. destruct E as [ -> D ].
  split; [ apply run_candidateQuery_limit | ].
  split; [ apply run_candidateQuery_NoDup | ].
  split; [ | exact D ].
  intros Hpk.
  apply (NoDup_map_sub MovieRow.id (DB.movies (World.db w))).
  - exact Hpk.
  - apply run_candidateQuery_NoDup.
  - intros m Hm. apply run_candidateQuery_satisfies in Hm.
    destruct Hm as (mg & Hin & _). eapply from_rows_movies. exact Hin.
Qed.

Lemma getCandidateMovies_bounded_distinct_witness :
  (List.length [Sample.comedy2015; Sample.comedy2016] <= 1000)%nat
  /\ NoDup [Sample.comedy2015; Sample.comedy2016]
  /\ NoDup (map MovieRow.id [Sample.comedy2015; Sample.comedy2016]).
Proof.
  destruct (getCandidateMovies_bounded_distinct PickFilters.empty []
              (Sample.world Sample.store) (Sample.world Sample.store)
              [Sample.comedy2015; Sample.comedy2016] eq_refl)
    as (H1 & H2 & H3 & _).
  split; [ exact H1 | ]. split; [ exact H2 | ].
  apply H3. apply sample_store_pk.
Defined.

(** X7: on a store of at most 1000 movies the cap of the query cuts nothing:
    the candidate fetch returns every movie of the store that meets what the
    filters and the exclusions ask. *)
Theorem getCandidateMovies_complete
        (filters : PickFilters.t) (excludeIds : list Z)
        (w w' : World.t) (rows : list MovieRow.t) (m : MovieRow.t) :
  (List.length (DB.movies (World.db w)) <= 1000)%nat ->
  Queries.getCandidateMovies filters excludeIds w = (Normal rows, w') ->
  In m (DB.movies (World.db w)) ->
  matches filters excludeIds (World.db w) m ->
  In m rows.
Proof.
  intros Hsize E Hm Hmatch. unfold Queries.getCandidateMovies in E.
  apply pool_query_select in E. destruct E as [ -> _ ].
  assert (Hs : satisfies (Queries.candidateQuery filters excludeIds)
                         (World.db w) m)
    by (apply satisfies_matches; split; assumption).
  destruct Hs as (mg & Hin & Hc).
  unfold Queries.run_candidateQuery.
  set (matching := filter _ _).
  assert (Hall : In m (nodup MovieRow.eq_dec (map fst matching))).
  { apply nodup_In. apply in_map_iff. exists (m, mg).
    split; [ reflexivity | ]. apply filter_In. split; assumption. }
  rewrite firstn_all2; [ exact Hall | ].
  change (Queries.limit (Queries.candidateQuery filters excludeIds))
    with 1000%nat.
  apply Nat.le_trans with (List.length (DB.movies (World.db w)));
    [ | exact Hsize ].
  apply NoDup_incl_length; [ apply NoDup_nodup | ].
  intros x Hx. apply nodup_In in Hx. apply in_map_iff in Hx.
  destruct Hx as ([ x0 g ] & Ex & Hx). simpl in Ex. subst x0.
  apply filter_In in Hx. destruct Hx as [ Hx _ ].
  eapply from_rows_movies. exact Hx.
Qed.

Lemma sample_comedy2016_matches :
  matches Sample.comedies2010s [1] Sample.store Sample.comedy2016.
Proof.
  unfold matches, quality_floor, in_era. simpl.
  split.
  { split; [ reflexivity | ]. split; [ exists 95; split; [ reflexivity | lia ] | ].
    split; [ lia | unfold Qle; simpl; lia ]. }
  split; [ intros era E; inversion E; subst; simpl; lia | ].
  split; [ intros n E; discriminate | ].
  split; [ intros n E; discriminate | ].
  split; [ intros codes E; discriminate | ].
  split; [ intros [ H | [] ]; discriminate | ].
  intros ids E _. inversion E; subst.
  exists (MovieGenre.mk 2 35). simpl. intuition.
Qed.

Lemma getCandidateMovies_complete_witness :
  In Sample.comedy2016 [Sample.comedy2016].
Proof.
  apply (getCandidateMovies_complete Sample.comedies2010s [1]
           (Sample.world Sample.store) (Sample.world Sample.store)).
  - simpl. lia.
  - reflexivity.
  - simpl. tauto.
  - apply sample_comedy2016_matches.
Defined.

(** X8: the five eras cut the years from 1980 on into ranges that do not
    overlap: such a year lies in exactly one era, and a year before 1980 in
    none. *)
Theorem eraToYearRange_partition (year : Z) :
  (1980 <= year ->
   exists era, in_era era year
               /\ forall other, in_era other year -> other = era)
  /\ (year < 1980 -> forall era, ~ in_era era year).
Proof.
  unfold in_era. split.
  - intros Hy.
    destruct (Z_lt_le_dec year 1990);
      [ exists Era_1980_1989
      | destruct (Z_lt_le_dec year 2000);
        [ exists Era_1990_1999
        | destruct (Z_lt_le_dec year 2010);
          [ exists Era_2000_2009
          | destruct (Z_lt_le_dec year 2020);
            [ exists Era_2010_2019 | exists Era_2020_now ] ] ] ];
      (split; [ simpl; intuition lia | ]);
      intros [ ]; simpl; intros [ H1 H2 ]; try reflexivity; lia.
  - intros Hy [ ]; simpl; intros [ H1 H2 ]; lia.
Qed.

Lemma eraToYearRange_partition_witness :
  exists era, in_era era 2015
              /\ forall other, in_era other 2015 -> other = era.
Proof.
  apply (eraToYearRange_partition 2015). lia.
Defined.

(** X9: every candidate has a weight that is strictly positive: the floors of
    the candidate fetch keep out the rows without votes or with a zero
    average, so the sampler of [pickMovie] never sees a zero total. *)
Theorem candidate_weight_positive
        (filters : PickFilters.t) (excludeIds : list Z)
        (w w' : World.t) (rows : list MovieRow.t) :
  Queries.getCandidateMovies filters excludeIds w = (Normal rows, w') ->
  Forall (fun m => (0 < Picker.calculateWeight m)%R) rows.
Proof.
  intros E. unfold Queries.getCandidateMovies in E.
  apply pool_query_select in E. destruct E as [ -> _ ].
  apply Forall_forall. intros m Hm.
  apply run_candidateQuery_quality_floor in Hm.
  destruct Hm as (_ & _ & Hc & Ha).
  apply calculateWeight_pos; [ lia | ].
  eapply Qlt_le_trans; [ | exact Ha ]. reflexivity.
Qed.

Lemma candidate_weight_positive_witness :
  Forall (fun m => (0 < Picker.calculateWeight m)%R)
         [Sample.comedy2015; Sample.comedy2016].
Proof.
  apply (candidate_weight_positive PickFilters.empty []
           (Sample.world Sample.store) (Sample.world Sample.store)).
  reflexivity.
Defined.

(* ================================================================== *)
(** * The history of a session *)
(* ================================================================== *)

(** The order of [ORDER BY created_at DESC]. *)
Lemma newest_first_total (a b : UserPick.t) :
  (UserPick.created_at b <=? UserPick.created_at a)%Z = true
  \/ (UserPick.created_at a <=? UserPick.created_at b)%Z = true.
Proof.
  rewrite !Z.leb_le. lia.
Qed.

Lemma newest_first_trans (a b c : UserPick.t) :
  (UserPick.created_at b <=? UserPick.created_at a)%Z = true ->
  (UserPick.created_at c <=? UserPick.created_at b)%Z = true ->
  (UserPick.created_at c <=? UserPick.created_at a)%Z = true.
Proof.
  rewrite !Z.leb_le. lia.
Qed.

Lemma run_recentPicksQuery_picks_of (sessionId : string) (n : nat) (d : DB.t) :
  Queries.run_recentPicksQuery sessionId n d
  = map UserPick.movie_id
        (firstn n
           (JS.sort (fun a b =>
                       (UserPick.created_at b <=? UserPick.created_at a)%Z)
                    (picks_of sessionId d))).
Proof.
  reflexivity.
Qed.

(** X10: the recent picks of a session are at most 20 picks of that session, the
    newest ones: the picks of the session split into those returned and the
    others, and no other pick is newer than a returned one.  When the session
    has at most 20 picks, all are returned. *)
Theorem getRecentPickMovieIds_newest
        (sessionId : string) (w w' : World.t) (ids : list Z) :
  Queries.getRecentPickMovieIds sessionId w = (Normal ids, w') ->
  (List.length ids <= 20)%nat
  /\ (exists kept others,
         ids = map UserPick.movie_id kept
         /\ Permutation (kept ++ others) (picks_of sessionId (World.db w))
         /\ (forall k o, In k kept -> In o others ->
                         UserPick.created_at o <= UserPick.created_at k)
         /\ ((List.length (picks_of sessionId (World.db w)) <= 20)%nat ->
             others = []))
  /\ World.db w' = World.db w.
Proof.
  intros E. unfold Queries.getRecentPickMovieIds in E.
  apply pool_query_select in E. destruct E as [ -> D ].
  rewrite run_recentPicksQuery_picks_of.
  change (Config.recentPicksLimit Config.selection) with 20%nat.
  set (newest := fun a b : UserPick.t =>
                   (UserPick.created_at b <=? UserPick.created_at a)%Z).
  set (sorted := JS.sort newest (picks_of sessionId (World.db w))).
  split; [ rewrite length_map; apply firstn_le_length | ].
  split; [ | exact D ].
  exists (firstn 20 sorted), (skipn 20 sorted).
  split; [ reflexivity | ].
  split; [ rewrite firstn_skipn; apply sort_Permutation | ].
  split.
  - intros k o Hk Ho. apply Z.leb_le.
    apply (in_order_app newest (firstn 20 sorted) (skipn 20 sorted));
      try assumption.
    rewrite firstn_skipn. apply sort_in_order.
    + intros a b. apply newest_first_total.
    + intros a b c. apply newest_first_trans.
  - intros Hlen. apply skipn_all2.
    unfold sorted. rewrite sort_length. exact Hlen.
Qed.

Lemma getRecentPickMovieIds_newest_witness :
  (List.length [1] <= 20)%nat
  /\ (exists kept others,
         [1] = map UserPick.movie_id kept
         /\ Permutation (kept ++ others) (picks_of "s1" Sample.store)
         /\ (forall k o, In k kept -> In o others ->
                         UserPick.created_at o <= UserPick.created_at k)
         /\ ((List.length (picks_of "s1" Sample.store) <= 20)%nat ->
             others = []))
  /\ World.db (Sample.world Sample.store) = Sample.store.
Proof.
  apply (getRecentPickMovieIds_newest "s1" (Sample.world Sample.store)
           (Sample.world Sample.store) [1]).
  reflexivity.
Defined.

(** The picks of a session after one more row was appended for it. *)
Lemma picks_of_append_same (sessionId : string) (d : DB.t) (row : UserPick.t) :
  UserPick.session_id row = sessionId ->
  picks_of sessionId
    (DB.mk (DB.movies d) (DB.genres d) (DB.movie_genres d)
           (DB.user_picks d ++ [row]))
  = picks_of sessionId d ++ [row].
Proof.
  intros E. unfold picks_of. simpl. rewrite filter_app. simpl.
  rewrite E, String.eqb_refl. reflexivity.
Qed.

Lemma picks_of_append_other (sessionId : string) (d : DB.t) (row : UserPick.t) :
  UserPick.session_id row <> sessionId ->
  picks_of sessionId
    (DB.mk (DB.movies d) (DB.genres d) (DB.movie_genres d)
           (DB.user_picks d ++ [row]))
  = picks_of sessionId d.
Proof.
  intros E. unfold picks_of. simpl. rewrite filter_app. simpl.
  apply String.eqb_neq in E. rewrite E. apply app_nil_r.
Qed.

(** A row strictly newer than all the others sorts to the front. *)
Lemma sort_newest_last (l : list UserPick.t) (row : UserPick.t) :
  (forall p, In p l -> UserPick.created_at p < UserPick.created_at row) ->
  JS.sort (fun a b => (UserPick.created_at b <=? UserPick.created_at a)%Z)
          (l ++ [row])
  = row :: JS.sort (fun a b =>
                      (UserPick.created_at b <=? UserPick.created_at a)%Z) l.
Proof.
  induction l as [ | a l IH ]; intros Hold.
  - reflexivity.
  - simpl. rewrite IH by (intros p Hp; apply Hold; right; exact Hp).
    simpl.
    destruct (UserPick.created_at row <=? UserPick.created_at a)%Z eqn:E;
      [ | reflexivity ].
    apply Z.leb_le in E. specialize (Hold a (or_introl eq_refl)). lia.
Qed.

(** The movie of a row just appended for a session is among its recent
    picks, when the session had fewer than 20 picks or the row is strictly
    newer than all of them. *)
Lemma recent_includes_appended (sessionId : string) (d : DB.t)
      (row : UserPick.t) :
  UserPick.session_id row = sessionId ->
  (List.length (picks_of sessionId d) < 20)%nat
  \/ (forall p, In p (picks_of sessionId d) ->
                UserPick.created_at p < UserPick.created_at row) ->
  In (UserPick.movie_id row)
     (Queries.run_recentPicksQuery sessionId 20
        (DB.mk (DB.movies d) (DB.genres d) (DB.movie_genres d)
               (DB.user_picks d ++ [row]))).
Proof.
  intros Es H. rewrite run_recentPicksQuery_picks_of.
  rewrite (picks_of_append_same sessionId d row Es).
  apply in_map. destruct H as [ Hfew | Hold ].
  - rewrite firstn_all2
      by (rewrite sort_length, length_app; simpl; lia).
    apply (Permutation_in _ (Permutation_sym (sort_Permutation _ _))).
    apply in_or_app. right. left. reflexivity.
  - rewrite (sort_newest_last _ row Hold). left. reflexivity.
Qed.

(** X11: no immediate repeat: after a call of [pickMovie] returned a movie to a
    session that had fewer than 20 picks, or whose picks are all older than
    the clock, the next call for that session on the resulting store does
    not return the same movie, whatever its filters. *)
Theorem pickMovie_no_immediate_repeat
        (sessionId : string) (filters : PickFilters.t)
        (w w' : World.t) (mv : Movie.t)
        (filters2 : PickFilters.t) (w2 w2' : World.t) (mv2 : Movie.t) :
  Picker.pickMovie sessionId filters w = (Normal (Some mv), w') ->
  (List.length (picks_of sessionId (World.db w)) < 20)%nat
  \/ (forall p, In p (picks_of sessionId (World.db w)) ->
                UserPick.created_at p < World.clock w) ->
  World.db w2 = World.db w' ->
  Picker.pickMovie sessionId filters2 w2 = (Normal (Some mv2), w2') ->
  Movie.id mv2 <> Movie.id mv.
Proof.
  intros E1 Hhist Hdb E2.
  pose proof (pickMovie_run sessionId filters w) as H1. rewrite E1 in H1.
  destruct H1 as (_ & _ & _ & _ & _ & _ & selected
                  & _ & _ & _ & _ & _ & -> & D1).
  pose proof (pickMovie_run sessionId filters2 w2) as H2. rewrite E2 in H2.
  destruct H2 as (ids2 & v1 & candidates2 & v2 & _ & _ & selected2
                  & R1 & R2 & _ & _ & Hin2 & -> & _).
  rewrite !toMovie_id.
  unfold Queries.getRecentPickMovieIds in R1.
  pose proof (pool_query_select _ _ _ _ R1) as [ Hids Hv1 ].
  unfold Queries.getCandidateMovies in R2.
  apply pool_query_select in R2. destruct R2 as [ Hc _ ].
  rewrite Hc in Hin2. apply run_candidateQuery_excludes in Hin2.
  intros Heq. apply Hin2. rewrite Heq, Hids, Hdb, D1.
  change (Config.recentPicksLimit Config.selection) with 20%nat.
  match goal with
  | |- In _ (Queries.run_recentPicksQuery _ _ (DB.mk _ _ _ (_ ++ [?row]))) =>
      apply (recent_includes_appended sessionId (World.db w) row)
  end.
  - reflexivity.
  - exact Hhist.
Qed.

(** Two calls in a row for the fresh session ["s2"] on the sample store:
    French films first, then anything. *)
Lemma sample_two_picks :
  exists mv w' mv2 w2',
    Picker.pickMovie "s2" Sample.french (Sample.world Sample.store)
    = (Normal (Some mv), w')
    /\ Picker.pickMovie "s2" PickFilters.empty w' = (Normal (Some mv2), w2')
    /\ Movie.id mv = 2 /\ Movie.id mv2 = 1.
Proof.
  eexists _, _, _, _.
  split; [ | split ].
  - cbv -[Rle_dec Rmult Rplus Rminus IZR Q2R JS.log10 Picker.calculateWeight
          Rdiv].
    destruct (Rle_dec _ _); reflexivity.
  - cbv -[Rle_dec Rmult Rplus Rminus IZR Q2R JS.log10 Picker.calculateWeight
          Rdiv].
    destruct (Rle_dec _ _); reflexivity.
  - split; reflexivity.
Qed.

Lemma pickMovie_no_immediate_repeat_witness :
  exists mv w' mv2 w2',
    Picker.pickMovie "s2" Sample.french (Sample.world Sample.store)
    = (Normal (Some mv), w')
    /\ Picker.pickMovie "s2" PickFilters.empty w' = (Normal (Some mv2), w2')
    /\ Movie.id mv2 <> Movie.id mv.
Proof.
  destruct sample_two_picks as (mv & w' & mv2 & w2' & E1 & E2 & _).
  exists mv, w', mv2, w2'. split; [ exact E1 | ]. split; [ exact E2 | ].
  apply (pickMovie_no_immediate_repeat "s2" Sample.french
           (Sample.world Sample.store) w' mv PickFilters.empty w' w2' mv2).
  - exact E1.
  - left. simpl. lia.
  - reflexivity.
  - exact E2.
Defined.

(** X12: sessions do not touch each other: whatever a call of [pickMovie] for one
    session does, the picks of every other session are as before, and so are
    its recent picks and its first-pick status. *)
Theorem pickMovie_other_sessions
        (sessionId : string) (filters : PickFilters.t)
        (w w' : World.t) (r : Completion (option Movie.t)) (other : string) :
  Picker.pickMovie sessionId filters w = (r, w') ->
  other <> sessionId ->
  picks_of other (World.db w') = picks_of other (World.db w)
  /\ (forall n, Queries.run_recentPicksQuery other n (World.db w')
                = Queries.run_recentPicksQuery other n (World.db w))
  /\ Queries.run_pickCountQuery other (World.db w')
     = Queries.run_pickCountQuery other (World.db w).
Proof.
  intros E Hother.
  assert (Hp : picks_of other (World.db w') = picks_of other (World.db w)).
  { pose proof (pickMovie_run sessionId filters w) as H. rewrite E in H.
    destruct r as [ [ mv | ] | e ]; try (rewrite H; reflexivity).
    destruct H as (_ & _ & _ & _ & _ & _ & selected
                   & _ & _ & _ & _ & _ & _ & D).
    rewrite D. apply picks_of_append_other. simpl. congruence. }
  split; [ exact Hp | ]. split.
  - intros n. rewrite !run_recentPicksQuery_picks_of, Hp. reflexivity.
  - unfold Queries.run_pickCountQuery. fold (picks_of other (World.db w')).
    fold (picks_of other (World.db w)). rewrite Hp. reflexivity.
Qed.

Lemma pickMovie_other_sessions_witness :
  picks_of "s2" (World.db Sample.afterPick)
  = picks_of "s2" (World.db (Sample.world Sample.store)).
Proof.
  apply (pickMovie_other_sessions "s1" Sample.comedies2010s
           (Sample.world Sample.store) Sample.afterPick
           (Normal (Some Sample.picked)) "s2").
  - apply sample_pick.
  - discriminate.
Defined.

(* ================================================================== *)
(** * The genres of the movies *)
(* ================================================================== *)

Lemma Map_get_set_same (m : Queries.GenreMap) (k : Z) (v : list string) :
  Queries.Map_get (Queries.Map_set m k v) k = Some v.
Proof.
  induction m as [ | [ k' v' ] m IH ]; simpl.
  - rewrite Z.eqb_refl. reflexivity.
  - destruct (k' =? k)%Z eqn:E; simpl; rewrite E; [ reflexivity | exact IH ].
Qed.

Lemma Map_get_set_other (m : Queries.GenreMap) (k k' : Z) (v : list string) :
  k' <> k ->
  Queries.Map_get (Queries.Map_set m k' v) k = Queries.Map_get m k.
Proof.
  intros Hne. induction m as [ | [ k0 v0 ] m IH ]; simpl.
  - apply Z.eqb_neq in Hne. rewrite Hne. reflexivity.
  - destruct (k0 =? k')%Z eqn:E; simpl.
    + apply Z.eqb_eq in E. subst k0.
      apply Z.eqb_neq in Hne. rewrite Hne. reflexivity.
    + destruct (k0 =? k)%Z; [ reflexivity | exact IH ].
Qed.

(** The loop of [getMoviesGenres]: the names of a movie are appended to its
    entry in the order of the rows. *)
Lemma genreMap_fold (rows : list (Z * string)) :
  forall (acc : Queries.GenreMap) (k : Z),
    Queries.Map_get_or_empty
      (fold_left
         (fun genreMap row =>
            let genres := Queries.Map_get_or_empty genreMap (fst row) in
            Queries.Map_set genreMap (fst row) (genres ++ [snd row]))
         rows acc) k
    = Queries.Map_get_or_empty acc k
      ++ map snd (filter (fun row => (fst row =? k)%Z) rows).
Proof.
  induction rows as [ | [ id name ] rows IH ]; intros acc k; simpl.
  - rewrite app_nil_r. reflexivity.
  - rewrite IH. unfold Queries.Map_get_or_empty at 1.
    destruct (id =? k)%Z eqn:E.
    + apply Z.eqb_eq in E. subst id. rewrite Map_get_set_same.
      simpl. rewrite <- app_assoc. reflexivity.
    + apply Z.eqb_neq in E. rewrite Map_get_set_other by exact E.
      reflexivity.
Qed.

(** The rows of the bulk query that belong to one movie, against the rows
    of the query for that movie alone. *)
Lemma moviesGenres_rows_of (movieIds : list Z) (d : DB.t) (k : Z) :
  map snd (filter (fun row => (fst row =? k)%Z)
                  (Queries.run_moviesGenresQuery movieIds d))
  = if existsb (Z.eqb k) movieIds then Queries.run_movieGenresQuery k d
    else [].
Proof.
  unfold Queries.run_moviesGenresQuery, Queries.run_movieGenresQuery.
  induction (DB.genres d) as [ | g gs IH ]; simpl.
  - destruct (existsb (Z.eqb k) movieIds); reflexivity.
  - rewrite filter_app, map_app, IH. clear IH.
    assert (Hg :
      map snd
          (filter (fun row => (fst row =? k)%Z)
             (map (fun mg => (MovieGenre.movie_id mg, Genre.name g))
                (filter
                   (fun mg =>
                      (Genre.id g =? MovieGenre.genre_id mg)%Z
                      && existsb (Z.eqb (MovieGenre.movie_id mg)) movieIds)
                   (DB.movie_genres d))))
      = if existsb (Z.eqb k) movieIds then
          map (fun _ => Genre.name g)
              (filter
                 (fun mg =>
                    (Genre.id g =? MovieGenre.genre_id mg)%Z
                    && (MovieGenre.movie_id mg =? k)%Z)
                 (DB.movie_genres d))
        else []).
    { induction (DB.movie_genres d) as [ | mg mgs IHm ]; simpl.
      - destruct (existsb (Z.eqb k) movieIds); reflexivity.
      - destruct (Genre.id g =? MovieGenre.genre_id mg)%Z; simpl;
          [ | exact IHm ].
        destruct (MovieGenre.movie_id mg =? k)%Z eqn:Ek.
        + assert (Hk : MovieGenre.movie_id mg = k) by (apply Z.eqb_eq; exact Ek).
          destruct (existsb (Z.eqb (MovieGenre.movie_id mg)) movieIds) eqn:Ex;
            simpl; rewrite ?Ek; simpl;
            (assert (Ex' : existsb (Z.eqb k) movieIds = _)
              by (rewrite <- Hk; exact Ex));
            rewrite Ex' in *; rewrite IHm; reflexivity.
        + destruct (existsb (Z.eqb (MovieGenre.movie_id mg)) movieIds);
            simpl; rewrite ?Ek; exact IHm. }
    rewrite Hg. destruct (existsb (Z.eqb k) movieIds); reflexivity.
Qed.

(** X13: the bulk fetch agrees with the fetch for one movie: in the map of
    [getMoviesGenres], a movie that was asked for has the genre names
    [getMovieGenres] returns for it on the same store, each as often, in some
    order, and a movie that was not asked for has none.  For no movie at all,
    the map is empty and no query is sent. *)
Theorem getMoviesGenres_agrees
        (movieIds : list Z) (w w' : World.t) (genresMap : Queries.GenreMap) :
  Queries.getMoviesGenres movieIds w = (Normal genresMap, w') ->
  (forall id, ~ In id movieIds ->
              Queries.Map_get_or_empty genresMap id = [])
  /\ (forall id v v' names,
         In id movieIds ->
         World.db v = World.db w ->
         Queries.getMovieGenres id v = (Normal names, v') ->
         Permutation (Queries.Map_get_or_empty genresMap id) names)
  /\ (movieIds = [] -> genresMap = [] /\ w' = w).
Proof.
  intros E. unfold Queries.getMoviesGenres in E.
  destruct movieIds as [ | x rest ].
  - simpl in E. inversion E; subst.
    split; [ reflexivity | ].
    split; [ intros id v v' names [] | split; reflexivity ].
  - change (Nat.eqb (List.length (x :: rest)) 0) with false in E.
    cbv iota in E. unfold bind in E.
    destruct (pool_query (select (Queries.run_moviesGenresQuery (x :: rest))) w)
      as [ [ rows | e ] w1 ] eqn:Eq; [ | discriminate ].
    apply pool_query_select in Eq. destruct Eq as [ -> _ ].
    unfold ret in E. inversion E; subst. clear E.
    split; [ | split; [ | discriminate ] ].
    + intros id Hid. rewrite genreMap_fold, moviesGenres_rows_of.
      destruct (existsb (Z.eqb id) (x :: rest)) eqn:Ein; [ | reflexivity ].
      apply existsb_Zeqb_In in Ein. contradiction.
    + intros id v v' names Hid Hdb Eg.
      unfold Queries.getMovieGenres in Eg.
      apply pool_query_select in Eg. destruct Eg as [ -> _ ].
      rewrite genreMap_fold, moviesGenres_rows_of.
      apply existsb_Zeqb_In in Hid. rewrite Hid, Hdb. apply Permutation_refl.
Qed.

Lemma getMoviesGenres_agrees_witness :
  Permutation (Queries.Map_get_or_empty [(1, ["Comedy"]); (2, ["Comedy"])] 2)
              ["Comedy"]
  /\ Queries.Map_get_or_empty [(1, ["Comedy"]); (2, ["Comedy"])] 3 = [].
Proof.
  destruct (getMoviesGenres_agrees [1; 2] (Sample.world Sample.store)
              (Sample.world Sample.store) [(1, ["Comedy"]); (2, ["Comedy"])]
              eq_refl) as (Hout & Hin & _).
  split.
  - apply (Hin 2 (Sample.world Sample.store) (Sample.world Sample.store)).
    + simpl. tauto.
    + reflexivity.
    + reflexivity.
  - apply Hout. simpl. intros [ H | [ H | [] ] ]; discriminate.
Defined.

(* ================================================================== *)
(** * Rejections come from the store only *)
(* ================================================================== *)

Lemma rejects_ret {A : Type} (a : A) : rejects_by_fault_only (ret a).
Proof.
  intros w r w' E. unfold ret in E. inversion E; subst.
  split; [ tauto | intros e He; discriminate ].
Qed.

Lemma rejects_bind {A B : Type} (m : M A) (k : A -> M B) :
  rejects_by_fault_only m -> (forall a, rejects_by_fault_only (k a)) ->
  rejects_by_fault_only (bind m k).
Proof.
  intros Hm Hk w r w' E. unfold bind in E.
  destruct (m w) as [ [ a | e0 ] w1 ] eqn:Em.
  - destruct (Hm _ _ _ Em) as [ H1 _ ]. destruct (Hk a _ _ _ E) as [ H2 H3 ].
    split; [ tauto | intros e He; apply H1; eapply H3; exact He ].
  - inversion E; subst. destruct (Hm _ _ _ Em) as [ H1 H2 ].
    split; [ exact H1 | intros e _; eapply H2; reflexivity ].
Qed.

Lemma rejects_pool_query {A : Type} (run : Z -> DB.t -> A * DB.t) :
  rejects_by_fault_only (pool_query run).
Proof.
  intros w r w' E. unfold pool_query in E. unfold fault_pending.
  destruct (World.faults w) as [ | [ | ] rest ] eqn:F;
    destruct (run (World.clock w) (World.db w)) as [ a d ];
    inversion E; subst; simpl; rewrite ?F;
    (split; [ simpl; tauto | intros e He; try discriminate ]).
  left. reflexivity.
Qed.

Lemma rejects_random : rejects_by_fault_only Math_random.
Proof.
  intros w r w' E. unfold Math_random in E. inversion E; subst.
  split; [ tauto | intros e He; discriminate ].
Qed.

Lemma rejects_weightedRandomSelect (cs : list WeightedCandidate.t) :
  rejects_by_fault_only (Picker.weightedRandomSelect cs).
Proof.
  intros w r w' E.
  destruct (weightedRandomSelect_spec cs w) as [ [ _ E' ] | (c & _ & E') ];
    rewrite E' in E; inversion E; subst;
    (split; [ tauto | intros e He; discriminate ]).
Qed.

Lemma rejects_getMoviesGenres (movieIds : list Z) :
  rejects_by_fault_only (Queries.getMoviesGenres movieIds).
Proof.
  unfold Queries.getMoviesGenres.
  destruct (Nat.eqb (List.length movieIds) 0); [ apply rejects_ret | ].
  apply rejects_bind; [ apply rejects_pool_query | ].
  intros rows. apply rejects_ret.
Qed.

Lemma rejects_isFirstPickForSession (sessionId : string) :
  rejects_by_fault_only (Queries.isFirstPickForSession sessionId).
Proof.
  apply rejects_bind; [ apply rejects_pool_query | ].
  intros n. apply rejects_ret.
Qed.

Lemma rejects_pickMovie (sessionId : string) (filters : PickFilters.t) :
  rejects_by_fault_only (Picker.pickMovie sessionId filters).
Proof.
  unfold Picker.pickMovie.
  apply rejects_bind; [ apply rejects_pool_query | intros ids ].
  apply rejects_bind; [ apply rejects_pool_query | intros candidates ].
  destruct (Nat.eqb (List.length candidates) 0); [ apply rejects_ret | ].
  apply rejects_bind; [ apply rejects_getMoviesGenres | intros genresMap ].
  apply rejects_bind; [ apply rejects_isFirstPickForSession | intros b ].
  apply rejects_bind; [ apply rejects_weightedRandomSelect | intros sel ].
  destruct sel as [ selected | ]; [ | apply rejects_ret ].
  apply rejects_bind; [ apply rejects_pool_query | intros u ].
  apply rejects_ret.
Qed.

Lemma isFirstPickForSession_run (sessionId : string) (w w' : World.t)
      (b : bool) :
  Queries.isFirstPickForSession sessionId w = (Normal b, w') ->
  b = Nat.eqb (Queries.run_pickCountQuery sessionId (World.db w)) 0.
Proof.
  unfold Queries.isFirstPickForSession, bind. intros E.
  destruct (pool_query (select (Queries.run_pickCountQuery sessionId)) w)
    as [ [ n | e ] w1 ] eqn:Eq; [ | discriminate ].
  apply pool_query_select in Eq. destruct Eq as [ -> _ ].
  unfold ret in E. inversion E. reflexivity.
Qed.

(** The outcomes of [pickMovie] against the store at the start of the call:
    a movie is made from a candidate the bias stage kept, the candidates
    being those the query returns on that store for the recent picks of the
    session, and the pick being a first pick when the session has no row;
    [null] comes from an empty candidate list only. *)
Lemma pickMovie_outcome (sessionId : string) (filters : PickFilters.t)
      (w : World.t) :
  match Picker.pickMovie sessionId filters w with
  | (Normal (Some mv), _) =>
      exists genresMap selected,
        In selected
           (Picker.applyFirstPickBias
              (Nat.eqb (Queries.run_pickCountQuery sessionId (World.db w)) 0)
              (map (weigh genresMap)
                 (Queries.run_candidateQuery
                    (Queries.candidateQuery filters
                       (Queries.run_recentPicksQuery sessionId
                          (Config.recentPicksLimit Config.selection)
                          (World.db w)))
                    (World.db w))))
        /\ mv = Picker.toMovie (WeightedCandidate.movie selected)
                               (WeightedCandidate.genres selected)
  | (Normal None, _) =>
      Queries.run_candidateQuery
        (Queries.candidateQuery filters
           (Queries.run_recentPicksQuery sessionId
              (Config.recentPicksLimit Config.selection) (World.db w)))
        (World.db w)
      = []
  | (Throw _, _) => True
  end.
Proof.
  unfold Picker.pickMovie, bind.
  destruct (Queries.getRecentPickMovieIds sessionId w)
    as [ [ ids | e ] w1 ] eqn:E1; [ | exact I ].
  unfold Queries.getRecentPickMovieIds in E1.
  apply pool_query_select in E1. destruct E1 as [ Hids D1 ].
  destruct (Queries.getCandidateMovies filters ids w1)
    as [ [ candidates | e ] w2 ] eqn:E2; [ | exact I ].
  unfold Queries.getCandidateMovies in E2.
  apply pool_query_select in E2. destruct E2 as [ Hc D2 ].
  rewrite D1, Hids in Hc. rewrite <- Hc.
  destruct candidates as [ | c cs ]; [ reflexivity | ].
  change (Nat.eqb (List.length (c :: cs)) 0) with false. cbv iota beta.
  destruct (Queries.getMoviesGenres (map MovieRow.id (c :: cs)) w2)
    as [ [ genresMap | e ] w3 ] eqn:E3; [ | exact I ].
  destruct (leaves_store_run _ _ _ _ (leaves_store_getMoviesGenres _) E3)
    as [ D3 _ ].
  destruct (Queries.isFirstPickForSession sessionId w3)
    as [ [ isFirstPick | e ] w4 ] eqn:E4; [ | exact I ].
  apply isFirstPickForSession_run in E4.
  replace (World.db w3) with (World.db w) in E4 by congruence.
  fold (weigh genresMap).
  destruct (weightedRandomSelect_spec
              (Picker.applyFirstPickBias isFirstPick
                 (map (weigh genresMap) (c :: cs))) w4)
    as [ [ Hnil _ ] | (selected & Hin & E5) ].
  - exfalso. revert Hnil. apply applyFirstPickBias_nonempty. discriminate.
  - rewrite E5.
    destruct (Queries.recordPick sessionId
                (MovieRow.id (WeightedCandidate.movie selected)) filters
                (after_random w4)) as [ [ [] | e ] w6 ]; [ | exact I ].
    simpl. exists genresMap, selected. rewrite <- E4.
    split; [ exact Hin | reflexivity ].
Qed.

(** X14: [pickMovie] returns [null] only when no movie of the store is a
    candidate: the candidate query, run on the store of the call with the
    recent picks of the session, has no row. *)
Theorem pickMovie_null_without_candidates
        (sessionId : string) (filters : PickFilters.t) (w w' : World.t) :
  Picker.pickMovie sessionId filters w = (Normal None, w') ->
  Queries.run_candidateQuery
    (Queries.candidateQuery filters
       (Queries.run_recentPicksQuery sessionId
          (Config.recentPicksLimit Config.selection) (World.db w)))
    (World.db w)
  = []
  /\ World.db w' = World.db w.
Proof.
  intros E. split.
  - pose proof (pickMovie_outcome sessionId filters w) as H.
    rewrite E in H. exact H.
  - pose proof (pickMovie_run sessionId filters w) as H.
    rewrite E in H. exact H.
Qed.

Lemma sample_no_match :
  Picker.pickMovie "s1" Sample.eighties (Sample.world Sample.store)
  = (Normal None, Sample.world Sample.store).
Proof.
  reflexivity.
Qed.

Lemma pickMovie_null_without_candidates_witness :
  Queries.run_candidateQuery
    (Queries.candidateQuery Sample.eighties
       (Queries.run_recentPicksQuery "s1"
          (Config.recentPicksLimit Config.selection) Sample.store))
    Sample.store
  = [].
Proof.
  apply (pickMovie_null_without_candidates "s1" Sample.eighties
           (Sample.world Sample.store) (Sample.world Sample.store)).
  apply sample_no_match.
Defined.

(** A call of [pickMovie] on a store that rejects no query. *)
Lemma pickMovie_completes
      (sessionId : string) (filters : PickFilters.t) (w : World.t) :
  ~ fault_pending w ->
  exists result w',
    Picker.pickMovie sessionId filters w = (Normal result, w')
    /\ match result with
       | None =>
           Queries.run_candidateQuery
             (Queries.candidateQuery filters
                (Queries.run_recentPicksQuery sessionId
                   (Config.recentPicksLimit Config.selection) (World.db w)))
             (World.db w)
           = []
       | Some mv =>
           exists row genres,
             In row
                (Queries.run_candidateQuery
                   (Queries.candidateQuery filters
                      (Queries.run_recentPicksQuery sessionId
                         (Config.recentPicksLimit Config.selection)
                         (World.db w)))
                   (World.db w))
             /\ mv = Picker.toMovie row genres
       end.
Proof.
  intros Hok.
  pose proof (pickMovie_outcome sessionId filters w) as H.
  destruct (Picker.pickMovie sessionId filters w) as [ [ result | e ] w' ] eqn:E.
  - exists result, w'. split; [ reflexivity | ].
    destruct result as [ mv | ]; [ | exact H ].
    destruct H as (genresMap & selected & Hin & ->).
    exists (WeightedCandidate.movie selected),
           (WeightedCandidate.genres selected).
    split; [ | reflexivity ].
    eapply weighted_movie_In. exact Hin.
  - exfalso. apply Hok.
    destruct (rejects_pickMovie sessionId filters _ _ _ E) as [ _ Hr ].
    eapply Hr. reflexivity.
Qed.

(** X15: on a store that rejects no query [pickMovie] completes: with [null] when
    the session has no candidate, and otherwise with a movie made from one of
    the candidates. *)
Theorem pickMovie_on_healthy_store
        (sessionId : string) (filters : PickFilters.t) (w : World.t) :
  ~ fault_pending w ->
  exists result w',
    Picker.pickMovie sessionId filters w = (Normal result, w')
    /\ match result with
       | None =>
           Queries.run_candidateQuery
             (Queries.candidateQuery filters
                (Queries.run_recentPicksQuery sessionId
                   (Config.recentPicksLimit Config.selection) (World.db w)))
             (World.db w)
           = []
       | Some mv =>
           exists row genres,
             In row
                (Queries.run_candidateQuery
                   (Queries.candidateQuery filters
                      (Queries.run_recentPicksQuery sessionId
                         (Config.recentPicksLimit Config.selection)
                         (World.db w)))
                   (World.db w))
             /\ mv = Picker.toMovie row genres
       end.
Proof.
  apply pickMovie_completes.
Qed.

Lemma sample_world_healthy (d : DB.t) : ~ fault_pending (Sample.world d).
Proof.
  unfold fault_pending. simpl. tauto.
Qed.

Lemma pickMovie_on_healthy_store_witness :
  exists result w',
    Picker.pickMovie "s1" Sample.comedies2010s (Sample.world Sample.store)
    = (Normal result, w').
Proof.
  destruct (pickMovie_on_healthy_store "s1" Sample.comedies2010s
              (Sample.world Sample.store) (sample_world_healthy Sample.store))
    as (result & w' & E & _).
  exists result, w'. exact E.
Defined.

(** The weight of a candidate of step 4 is the weight of its row. *)
Lemma weigh_sorted_weight (genresMap : Queries.GenreMap)
      (candidates : list MovieRow.t) (x : WeightedCandidate.t) :
  In x (JS.sort Picker.heavier_first (map (weigh genresMap) candidates)) ->
  WeightedCandidate.weight x
  = Picker.calculateWeight (WeightedCandidate.movie x).
Proof.
  intros H. apply (Permutation_in _ (sort_Permutation _ _)) in H.
  apply in_map_iff in H. destruct H as (m & <- & _). reflexivity.
Qed.

(** X16: the first recommendation of a session comes from the top of the pool:
    when the session has no pick yet and more than 10 candidates, the
    candidates split into [ceil (n * 0.3)] kept ones and the others, no other
    candidate weighs more than a kept one, and the returned movie is made
    from a kept one. *)
Theorem pickMovie_first_pick_from_top
        (sessionId : string) (filters : PickFilters.t)
        (w w' : World.t) (mv : Movie.t) :
  Picker.pickMovie sessionId filters w = (Normal (Some mv), w') ->
  picks_of sessionId (World.db w) = [] ->
  (10 < List.length
          (Queries.run_candidateQuery
             (Queries.candidateQuery filters []) (World.db w)))%nat ->
  exists kept others row genres,
    Permutation (kept ++ others)
      (Queries.run_candidateQuery
         (Queries.candidateQuery filters []) (World.db w))
    /\ Z.of_nat (List.length kept)
       = JS.ceil
           (inject_Z
              (Z.of_nat
                 (List.length
                    (Queries.run_candidateQuery
                       (Queries.candidateQuery filters []) (World.db w))))
            * Config.firstPickTopPercentile Config.selection)
    /\ (forall k o, In k kept -> In o others ->
                    (Picker.calculateWeight o <= Picker.calculateWeight k)%R)
    /\ In row kept
    /\ mv = Picker.toMovie row genres.
Proof.
  intros E Hfresh Hn.
  pose proof (pickMovie_outcome sessionId filters w) as H. rewrite E in H.
  destruct H as (genresMap & selected & Hin & ->).
  rewrite run_recentPicksQuery_picks_of, Hfresh in Hin.
  change (map UserPick.movie_id (firstn _ (JS.sort _ []))) with (@nil Z) in Hin.
  replace (Queries.run_pickCountQuery sessionId (World.db w)) with 0%nat in Hin
    by (unfold Queries.run_pickCountQuery;
        fold (picks_of sessionId (World.db w)); rewrite Hfresh; reflexivity).
  change (Nat.eqb 0 0) with true in Hin.
  set (candidates := Queries.run_candidateQuery
                       (Queries.candidateQuery filters []) (World.db w)) in *.
  rewrite applyFirstPickBias_firstn in Hin by (rewrite length_map; exact Hn).
  rewrite length_map in Hin.
  set (k := Z.to_nat (JS.ceil (inject_Z (Z.of_nat (List.length candidates))
                               * Config.firstPickTopPercentile Config.selection)))
    in *.
  set (sorted := JS.sort Picker.heavier_first (map (weigh genresMap) candidates))
    in *.
  pose proof (topCount_bounds (List.length candidates)) as Hb. cbv zeta in Hb.
  exists (map WeightedCandidate.movie (firstn k sorted)),
         (map WeightedCandidate.movie (skipn k sorted)),
         (WeightedCandidate.movie selected),
         (WeightedCandidate.genres selected).
  split; [ | split; [ | split; [ | split; [ | reflexivity ] ] ] ].
  - rewrite <- map_app, firstn_skipn.
    apply perm_trans
      with (map WeightedCandidate.movie (map (weigh genresMap) candidates)).
    + apply Permutation_map. apply sort_Permutation.
    + rewrite map_map. simpl. rewrite map_id. apply Permutation_refl.
  - rewrite length_map, length_firstn. unfold sorted.
    rewrite sort_length, length_map. subst k. lia.
  - intros kr o Hk Ho.
    apply in_map_iff in Hk. destruct Hk as (x & <- & Hx).
    apply in_map_iff in Ho. destruct Ho as (y & <- & Hy).
    rewrite <- (weigh_sorted_weight genresMap candidates x)
      by (eapply firstn_In; exact Hx).
    rewrite <- (weigh_sorted_weight genresMap candidates y)
      by (fold sorted; rewrite <- (firstn_skipn k sorted);
          apply in_or_app; right; exact Hy).
    apply heavier_first_true.
    apply (in_order_app Picker.heavier_first (firstn k sorted) (skipn k sorted));
      try assumption.
    rewrite firstn_skipn. apply sort_in_order;
      [ apply heavier_first_total | apply heavier_first_trans ].
  - apply in_map. exact Hin.
Qed.

Lemma pickMovie_first_pick_from_top_witness :
  exists mv w',
    Picker.pickMovie "s9" PickFilters.empty (Sample.world Sample.elevenFilms)
    = (Normal (Some mv), w')
    /\ exists kept others row genres,
         Permutation (kept ++ others) (DB.movies Sample.elevenFilms)
         /\ Z.of_nat (List.length kept) = 4
         /\ In row kept
         /\ mv = Picker.toMovie row genres.
Proof.
  destruct (pickMovie_completes "s9" PickFilters.empty
              (Sample.world Sample.elevenFilms)
              (sample_world_healthy Sample.elevenFilms))
    as ([ mv | ] & w' & E & H).
  - exists mv, w'. split; [ exact E | ].
    destruct (pickMovie_first_pick_from_top "s9" PickFilters.empty
                (Sample.world Sample.elevenFilms) w' mv E)
      as (kept & others & row & genres & H1 & H2 & _ & H4 & H5).
    + reflexivity.
    + apply Nat.ltb_lt. reflexivity.
    + exists kept, others, row, genres.
      split; [ exact H1 | ]. split; [ exact H2 | ]. split; assumption.
  - exfalso. discriminate H.
Defined.

(* ================================================================== *)
(** * The replies of the routes *)
(* ================================================================== *)



(** [[...new Set(xs)]] keeps every element once. *)
Lemma uniq_acc_In (xs : list Z) :
  forall seen x, In x (JS.uniq_acc seen xs) <-> In x xs /\ ~ In x seen.
Proof.
  induction xs as [ | y xs IH ]; intros seen x; simpl.
  - tauto.
  - destruct (existsb (Z.eqb y) seen) eqn:E.
    + apply existsb_Zeqb_In in E. rewrite IH. split.
      * intros [ H1 H2 ]. tauto.
      * intros [ [ <- | H1 ] H2 ]; [ contradiction | tauto ].
    + assert (Hy : ~ In y seen).
      { intros H. apply existsb_Zeqb_In in H. congruence. }
      simpl. rewrite IH. simpl. split.
      * intros [ <- | [ H1 H2 ] ]; [ tauto | tauto ].
      * intros [ [ <- | H1 ] H2 ]; [ left; reflexivity | ].
        destruct (Z.eq_dec y x) as [ <- | Hne ]; [ left; reflexivity | ].
        right. split; [ exact H1 | ]. intros [ H | H ]; tauto.
Qed.

Lemma uniq_acc_NoDup (xs : list Z) :
  forall seen, NoDup (JS.uniq_acc seen xs).
Proof.
  induction xs as [ | y xs IH ]; intros seen; simpl.
  - constructor.
  - destruct (existsb (Z.eqb y) seen); [ apply IH | ].
    constructor; [ | apply IH ].
    rewrite uniq_acc_In. simpl. tauto.
Qed.

(** The recent picks the handler of [POST /candidates] fetches: those of the
    session, when the request names one. *)
Lemma exclusions_run (body : CandidatesRoute.CandidatesRequest)
      (w w1 : World.t) (excludeIds : list Z) :
  CandidatesRoute.exclusions body w = (Normal excludeIds, w1) ->
  NoDup excludeIds
  /\ (forall ids, CandidatesRoute.excludeMovieIds body = Some ids ->
                  incl ids excludeIds)
  /\ (forall s, CandidatesRoute.sessionId body = Some s -> s <> "" ->
                incl (Queries.run_recentPicksQuery s
                        (Config.recentPicksLimit Config.selection)
                        (World.db w))
                     excludeIds).
Proof.
  unfold CandidatesRoute.exclusions, bind. intros E.
  destruct (CandidatesRoute.sessionId body) as [ s | ] eqn:Es.
  - destruct (JS.truthy_string s) eqn:T.
    + destruct (Queries.getRecentPickMovieIds s w) as [ [ recent | e ] w0 ] eqn:R;
        [ | discriminate ].
      unfold Queries.getRecentPickMovieIds in R.
      apply pool_query_select in R. destruct R as [ -> _ ].
      unfold ret in E. inversion E; subst. unfold JS.uniq.
      split; [ apply uniq_acc_NoDup | ]. split.
      * intros ids Hids x Hx. rewrite Hids. apply uniq_acc_In.
        split; [ apply in_or_app; right; exact Hx | simpl; tauto ].
      * intros s0 E0 _ x Hx. inversion E0; subst s0. apply uniq_acc_In.
        split; [ apply in_or_app; left; exact Hx | simpl; tauto ].
    + unfold ret in E. inversion E; subst. unfold JS.uniq.
      split; [ apply uniq_acc_NoDup | ]. split.
      * intros ids Hids x Hx. rewrite Hids. apply uniq_acc_In.
        split; [ exact Hx | simpl; tauto ].
      * intros s0 E0 Hne. inversion E0; subst s0.
        destruct s; [ congruence | discriminate ].
  - unfold ret in E. inversion E; subst. unfold JS.uniq.
    split; [ apply uniq_acc_NoDup | ]. split.
    + intros ids Hids x Hx. rewrite Hids. apply uniq_acc_In.
      split; [ exact Hx | simpl; tauto ].
    + intros s0 E0. discriminate.
Qed.

(** X18: the batch browse returns no excluded movie: no movie of the answer has
    an id the client asked to exclude, nor, when the request names a session,
    an id among the recent picks of that session. *)
Theorem candidates_handler_excludes
        (body : CandidatesRoute.CandidatesRequest) (w w' : World.t)
        (movies : list Movie.t) (mv : Movie.t) :
  CandidatesRoute.handler body w = (Normal (CandidatesRoute.Ok200 movies), w') ->
  In mv movies ->
  (forall ids, CandidatesRoute.excludeMovieIds body = Some ids ->
               ~ In (Movie.id mv) ids)
  /\ (forall s, CandidatesRoute.sessionId body = Some s -> s <> "" ->
                ~ In (Movie.id mv)
                     (Queries.run_recentPicksQuery s
                        (Config.recentPicksLimit Config.selection)
                        (World.db w))).
Proof.
  intros E Hmv. pose proof (candidates_handler_run body w) as H.
  rewrite E in H.
  destruct H as (excludeIds & w1 & candidates & w2 & shuffled & genresMap
                 & E1 & E2 & P & -> & _).
  apply in_map_iff in Hmv. destruct Hmv as (row & <- & Hrow).
  assert (Hc : In row candidates).
  { eapply Permutation_in; [ exact P | ].
    unfold JS.slice in Hrow. apply firstn_In in Hrow.
    rewrite <- (firstn_skipn (Z.to_nat (JS.clamp_index
                   (Z.of_nat (List.length shuffled)) 0)) shuffled).
    apply in_or_app. right. exact Hrow. }
  unfold Queries.getCandidateMovies in E2.
  apply pool_query_select in E2. destruct E2 as [ -> _ ].
  apply run_candidateQuery_excludes in Hc.
  destruct (exclusions_run body w w1 excludeIds E1) as (_ & Hclient & Hrecent).
  simpl Movie.id. split.
  - intros ids Hids Hin. apply Hc. eapply Hclient; eassumption.
  - intros s Hs Hne Hin. apply Hc. eapply Hrecent; eassumption.
Qed.

Lemma sample_browse_excluding :
  exists movies w',
    CandidatesRoute.handler
      (CandidatesRoute.mkRequest PickFilters.empty None (Some "s1") (Some [7]))
      (Sample.world Sample.store)
    = (Normal (CandidatesRoute.Ok200 movies), w')
    /\ exists mv, In mv movies.
Proof.
  cbv -[Rle_dec Rmult Rplus Rminus IZR Q2R Rdiv Rinv In].
  eexists _, _. split; [ reflexivity | ]. eexists. left. reflexivity.
Qed.

Lemma candidates_handler_excludes_witness :
  exists movies w' mv,
    CandidatesRoute.handler
      (CandidatesRoute.mkRequest PickFilters.empty None (Some "s1") (Some [7]))
      (Sample.world Sample.store)
    = (Normal (CandidatesRoute.Ok200 movies), w')
    /\ In mv movies
    /\ ~ In (Movie.id mv) [7]
    /\ ~ In (Movie.id mv)
            (Queries.run_recentPicksQuery "s1"
               (Config.recentPicksLimit Config.selection) Sample.store).
Proof.
  destruct sample_browse_excluding as (movies & w' & E & mv & Hmv).
  exists movies, w', mv. split; [ exact E | ]. split; [ exact Hmv | ].
  destruct (candidates_handler_excludes _ _ _ _ mv E Hmv) as [ H1 H2 ].
  split.
  - apply (H1 [7]). reflexivity.
  - apply (H2 "s1"); [ reflexivity | discriminate ].
Defined.

Section SortMRejects.
Context {A : Type} (compareFn : A -> A -> M R).
Hypothesis compareFn_rejects :
  forall a b, rejects_by_fault_only (compareFn a b).

Lemma rejects_insertM (x : A) (l : list A) :
  rejects_by_fault_only (insertM compareFn x l).
Proof.
  induction l as [ | y l IH ]; simpl.
  - apply rejects_ret.
  - apply rejects_bind; [ apply compareFn_rejects | intros v ].
    destruct (Rle_dec v 0); [ apply rejects_ret | ].
    apply rejects_bind; [ exact IH | intros rest ]. apply rejects_ret.
Qed.

Lemma rejects_sortM (l : list A) : rejects_by_fault_only (sortM compareFn l).
Proof.
  induction l as [ | x l IH ]; simpl.
  - apply rejects_ret.
  - apply rejects_bind; [ exact IH | intros sorted ]. apply rejects_insertM.
Qed.
End SortMRejects.

Lemma rejects_exclusions (body : CandidatesRoute.CandidatesRequest) :
  rejects_by_fault_only (CandidatesRoute.exclusions body).
Proof.
  unfold CandidatesRoute.exclusions.
  apply rejects_bind; [ | intros ids; apply rejects_ret ].
  destruct (CandidatesRoute.sessionId body) as [ s | ];
    [ destruct (JS.truthy_string s) | ];
    try apply rejects_ret.
  apply rejects_pool_query.
Qed.

(** X19: every reply of [POST /candidates]: the handler always answers, the
    store is as it was whatever the answer, and the answer is an error only
    with status 500 and only when a fault of the store was pending. *)
Theorem candidates_handler_replies
        (body : CandidatesRoute.CandidatesRequest) (w : World.t) :
  exists reply w',
    CandidatesRoute.handler body w = (Normal reply, w')
    /\ World.db w' = World.db w
    /\ (forall code message,
           reply = CandidatesRoute.Error code message ->
           code = 500 /\ fault_pending w).
Proof.
  pose proof (candidates_handler_run body w) as Hrun.
  unfold CandidatesRoute.handler, try_catch in *.
  match goal with
  | |- context [ match ?m w with _ => _ end ] =>
      assert (Hrej : rejects_by_fault_only m);
      [ | destruct (m w) as [ [ reply | e ] w' ] eqn:E ]
  end.
  - apply rejects_bind; [ apply rejects_exclusions | intros excludeIds ].
    apply rejects_bind; [ apply rejects_pool_query | intros candidates ].
    destruct (Nat.eqb (List.length candidates) 0); [ apply rejects_ret | ].
    apply rejects_bind.
    + unfold CandidatesRoute.shuffle. apply rejects_sortM. intros a b.
      apply rejects_bind; [ apply rejects_random | intros r ].
      apply rejects_ret.
    + intros shuffled.
      apply rejects_bind; [ apply rejects_getMoviesGenres | intros gm ].
      apply rejects_ret.
  - exists reply, w'. split; [ reflexivity | ].
    destruct (Hrej _ _ _ E) as [ _ Hr ].
    destruct reply as [ movies | code message ].
    + split; [ | intros code message H; discriminate ].
      destruct Hrun as (_ & _ & _ & _ & _ & _ & _ & _ & _ & _ & D). exact D.
    + exfalso. clear Hrun Hr. revert E. unfold bind.
      destruct (CandidatesRoute.exclusions body w) as [ [ ex | e ] w1 ];
        [ | discriminate ].
      destruct (Queries.getCandidateMovies (CandidatesRoute.filters body) ex w1)
        as [ [ cands | e ] w2 ]; [ | discriminate ].
      destruct (Nat.eqb (List.length cands) 0); [ discriminate | ].
      destruct (CandidatesRoute.shuffle cands w2) as [ [ sh | e ] w3 ];
        [ | discriminate ].
      destruct (Queries.getMoviesGenres _ w3) as [ [ gm | e ] w4 ];
        discriminate.
  - eexists _, _. split; [ reflexivity | ]. simpl in Hrun.
    split; [ exact Hrun | ].
    intros code message H. inversion H; subst.
    split; [ reflexivity | ].
    destruct (Hrej _ _ _ E) as [ _ Hr ]. eapply Hr. reflexivity.
Qed.

(* ================================================================== *)
(** * The health check *)
(* ================================================================== *)

(** X20: [healthCheck] never rejects: it is [true] when the store answers the
    probe and [false] when the store rejects it; the probe is one query and
    the store is left as it is.  The route answers 200 with status ["ok"] in
    the first case, 503 with status ["error"] in the second, with the time of
    the clock. *)
Theorem health_handler_replies (toISOString : Z -> string) (w : World.t) :
  exists healthy w',
    Health.healthCheck w = (Normal healthy, w')
    /\ (healthy = false <-> exists rest, World.faults w = true :: rest)
    /\ World.db w' = World.db w
    /\ World.faults w' = tl (World.faults w)
    /\ Health.handler toISOString w
       = (Normal
            (if healthy then
               Health.Send 200
                 (Health.mkResponse "ok" (toISOString (World.clock w)))
             else
               Health.Send 503
                 (Health.mkResponse "error" (toISOString (World.clock w)))),
          w').
Proof.
  unfold Health.handler, Health.healthCheck, try_catch, bind, pool_query,
    select, ret.
  destruct (World.faults w) as [ | [ | ] rest ]; simpl;
    eexists _, _; (split; [ reflexivity | ]); simpl.
  - split; [ | repeat split ].
    split; [ discriminate | intros (r & H); discriminate ].
  - split; [ | repeat split ].
    split; [ intros _; exists rest; reflexivity | reflexivity ].
  - split; [ | repeat split ].
    split; [ discriminate | intros (r & H); discriminate ].
Qed.

(* ================================================================== *)
(** * The genre listing *)
(* ================================================================== *)

Section SortedByTotal.
Context {A : Type} (before_eq : A -> A -> bool).
Hypothesis before_eq_total :
  forall a b, before_eq a b = true \/ before_eq b a = true.

Lemma insert_Sorted (x : A) (l : list A) :
  Sorted (fun a b => before_eq a b = true) l ->
  Sorted (fun a b => before_eq a b = true) (JS.insert before_eq x l).
Proof.
  intros H. induction H as [ | y l Hl IH Hy ]; simpl.
  - constructor; constructor.
  - destruct (before_eq x y) eqn:E.
    + constructor; [ constructor; assumption | constructor; exact E ].
    + assert (Hyx : before_eq y x = true)
        by (destruct (before_eq_total x y); congruence).
      constructor; [ exact IH | ].
      destruct l as [ | z l ]; simpl.
      * constructor. exact Hyx.
      * destruct (before_eq x z); constructor;
          [ exact Hyx | inversion Hy; assumption ].
Qed.

Lemma sort_Sorted (l : list A) :
  Sorted (fun a b => before_eq a b = true) (JS.sort before_eq l).
Proof.
  induction l as [ | x l IH ]; simpl.
  - constructor.
  - apply insert_Sorted. exact IH.
Qed.
End SortedByTotal.

(** X21: the genre cache.  A first call that completes returns the genres of the
    store, rearranged so that adjacent names are in the order of the
    collation, and fills the cache with that list; with a full cache a call
    returns the cached list and sends no query, whatever the store then
    holds or would answer.  A call that rejects leaves the cache empty, and a
    cleared cache is an empty one. *)
Theorem getGenres_cache (name_le : string -> string -> bool) :
  (forall a b, name_le a b = true \/ name_le b a = true) ->
  (forall w listed cache' w',
      GenreListing.getGenres name_le None w = ((Normal listed, cache'), w') ->
      cache' = Some listed
      /\ Permutation listed (DB.genres (World.db w))
      /\ Sorted (fun a b => name_le (Genre.name a) (Genre.name b) = true) listed
      /\ World.db w' = World.db w)
  /\ (forall cached w,
         GenreListing.getGenres name_le (Some cached) w
         = ((Normal cached, Some cached), w))
  /\ (forall w e cache' w',
         GenreListing.getGenres name_le None w = ((Throw e, cache'), w') ->
         cache' = None)
  /\ (forall cache, GenreListing.clearGenresCache cache = None).
Proof.
  intros Htotal. split; [ | split; [ | split ] ].
  - intros w listed cache' w' E. unfold GenreListing.getGenres in E.
    destruct (GenreListing.getAllGenres name_le w) as [ [ g | e ] w1 ] eqn:Eg;
      inversion E; subst.
    unfold GenreListing.getAllGenres in Eg.
    apply pool_query_select in Eg. destruct Eg as [ -> D ].
    split; [ reflexivity | ].
    unfold GenreListing.run_allGenresQuery.
    split; [ apply sort_Permutation | ].
    split; [ | exact D ].
    apply (sort_Sorted (fun a b => name_le (Genre.name a) (Genre.name b))).
    intros a b. apply Htotal.
  - reflexivity.
  - intros w e cache' w' E. unfold GenreListing.getGenres in E.
    destruct (GenreListing.getAllGenres name_le w) as [ [ g | e0 ] w1 ];
      inversion E; reflexivity.
  - reflexivity.
Qed.

Lemma getGenres_cache_witness :
  Permutation [Sample.comedy] (DB.genres Sample.store)
  /\ GenreListing.getGenres String.leb (Some [Sample.comedy])
       (World.mk Sample.store [true] 20 (fun _ => 0%R) 0)
     = ((Normal [Sample.comedy], Some [Sample.comedy]),
        World.mk Sample.store [true] 20 (fun _ => 0%R) 0).
Proof.
  destruct (getGenres_cache String.leb String.leb_total)
    as (Hfirst & Hcached & _).
  split.
  - apply (Hfirst (Sample.world Sample.store) [Sample.comedy]
             (Some [Sample.comedy]) (Sample.world Sample.store)).
    reflexivity.
  - apply Hcached.
Defined.

(* ================================================================== *)
(** * First picks *)
(* ================================================================== *)

(** X22: [isFirstPickForSession] answers [true] exactly for a session without a
    row in [user_picks]; once [pickMovie] has returned a movie to a session,
    it answers [false] for that session on the resulting store, so the
    first-pick bias applies to the first recommendation only. *)
Theorem isFirstPickForSession_once
        (sessionId : string) (v v' : World.t) (b : bool) :
  Queries.isFirstPickForSession sessionId v = (Normal b, v') ->
  (b = true <-> picks_of sessionId (World.db v) = [])
  /\ (forall filters w w' mv,
         Picker.pickMovie sessionId filters w = (Normal (Some mv), w') ->
         World.db v = World.db w' ->
         b = false).
Proof.
  intros E. apply isFirstPickForSession_run in E.
  unfold Queries.run_pickCountQuery in E. fold (picks_of sessionId (World.db v)) in E.
  assert (Hiff : b = true <-> picks_of sessionId (World.db v) = []).
  { rewrite E. destruct (picks_of sessionId (World.db v)); simpl; split;
      congruence. }
  split; [ exact Hiff | ].
  intros filters w w' mv Ep Hdb.
  pose proof (pickMovie_run sessionId filters w) as H. rewrite Ep in H.
  destruct H as (_ & _ & _ & _ & _ & _ & selected
                 & _ & _ & _ & _ & _ & _ & D).
  destruct b; [ | reflexivity ].
  destruct Hiff as [ Hnil _ ]. specialize (Hnil eq_refl).
  rewrite Hdb, D in Hnil.
  rewrite picks_of_append_same in Hnil by reflexivity.
  destruct (picks_of sessionId (World.db w)); discriminate.
Qed.

Lemma isFirstPickForSession_once_witness :
  (false = true <-> picks_of "s1" (World.db Sample.afterPick) = [])
  /\ (forall filters w w' mv,
         Picker.pickMovie "s1" filters w = (Normal (Some mv), w') ->
         World.db Sample.afterPick = World.db w' ->
         false = false).
Proof.
  apply (isFirstPickForSession_once "s1" Sample.afterPick Sample.afterPick).
  reflexivity.
Defined.

Lemma candidates_handler_replies_witness :
  exists reply w',
    CandidatesRoute.handler Sample.browseOne
      (World.mk Sample.store [true] 20 (fun _ => 0%R) 0)
    = (Normal reply, w')
    /\ World.db w' = Sample.store
    /\ reply = CandidatesRoute.Error 500 "Failed to fetch candidates.".
Proof.
  destruct (candidates_handler_replies Sample.browseOne
              (World.mk Sample.store [true] 20 (fun _ => 0%R) 0))
    as (reply & w' & E & D & _).
  exists reply, w'. split; [ exact E | ]. split; [ exact D | ].
  vm_compute in E. inversion E. reflexivity.
Defined.

Lemma health_handler_replies_witness :
  exists w',
    Health.handler (fun _ => "2026-01-01T00:00:00.000Z")
      (World.mk Sample.store [true] 20 (fun _ => 0%R) 0)
    = (Normal (Health.Send 503
                 (Health.mkResponse "error" "2026-01-01T00:00:00.000Z")),
       w').
Proof.
  destruct (health_handler_replies (fun _ => "2026-01-01T00:00:00.000Z")
              (World.mk Sample.store [true] 20 (fun _ => 0%R) 0))
    as (healthy & w' & Hc & Hiff & _ & _ & Hh).
  exists w'. rewrite Hh.
  assert (Hf : healthy = false) by (apply Hiff; eexists; reflexivity).
  rewrite Hf. reflexivity.
Defined.

(* ================================================================== *)
(** * The genres of a resolved movie *)
(* ================================================================== *)

Lemma getMoviesGenres_lookup (movieIds : list Z) (w w' : World.t)
      (genresMap : Queries.GenreMap) (id : Z) :
  Queries.getMoviesGenres movieIds w = (Normal genresMap, w') ->
  In id movieIds ->
  Queries.Map_get_or_empty genresMap id
  = Queries.run_movieGenresQuery id (World.db w).
Proof.
  intros E Hid. unfold Queries.getMoviesGenres in E.
  destruct movieIds as [ | x rest ]; [ contradiction | ].
  change (Nat.eqb (List.length (x :: rest)) 0) with false in E.
  cbv iota in E. unfold bind in E.
  destruct (pool_query (select (Queries.run_moviesGenresQuery (x :: rest))) w)
    as [ [ rows | e ] w1 ] eqn:Eq; [ | discriminate ].
  apply pool_query_select in Eq. destruct Eq as [ -> _ ].
  unfold ret in E. inversion E; subst.
  rewrite genreMap_fold, moviesGenres_rows_of.
  apply existsb_Zeqb_In in Hid. rewrite Hid. reflexivity.
Qed.

(** X23: a resolved movie carries the genre names the store holds for it: the
    movie of a single pick, and every movie of a batch browse, is its row
    converted together with a list of names that is, up to the order, the
    list the genre query for that one movie gives on the store of the
    call. *)
Theorem resolved_movie_genres :
  (forall sessionId filters w w' mv,
      Picker.pickMovie sessionId filters w = (Normal (Some mv), w') ->
      exists row genres,
        In row (DB.movies (World.db w))
        /\ Permutation genres
             (Queries.run_movieGenresQuery (MovieRow.id row) (World.db w))
        /\ mv = Picker.toMovie row genres)
  /\ (forall body w w' movies mv,
         CandidatesRoute.handler body w
         = (Normal (CandidatesRoute.Ok200 movies), w') ->
         In mv movies ->
         exists row genres,
           In row (DB.movies (World.db w))
           /\ Permutation genres
                (Queries.run_movieGenresQuery (MovieRow.id row) (World.db w))
           /\ mv = CandidatesRoute.toMovie row genres).
Proof.
  split.
  - intros sessionId filters w w' mv E.
    unfold Picker.pickMovie, bind in E.
    destruct (Queries.getRecentPickMovieIds sessionId w)
      as [ [ ids | e ] w1 ] eqn:E1; [ | discriminate ].
    destruct (leaves_store_run _ _ _ _
                (leaves_store_getRecentPickMovieIds _) E1) as [ D1 _ ].
    destruct (Queries.getCandidateMovies filters ids w1)
      as [ [ candidates | e ] w2 ] eqn:E2; [ | discriminate ].
    unfold Queries.getCandidateMovies in E2.
    apply pool_query_select in E2. destruct E2 as [ Hc D2 ].
    destruct (Nat.eqb (List.length candidates) 0); [ discriminate | ].
    destruct (Queries.getMoviesGenres (map MovieRow.id candidates) w2)
      as [ [ genresMap | e ] w3 ] eqn:E3; [ | discriminate ].
    destruct (Queries.isFirstPickForSession sessionId w3)
      as [ [ isFirstPick | e ] w4 ]; [ | discriminate ].
    match type of E with
    | context [ Picker.weightedRandomSelect ?cs w4 ] =>
        destruct (weightedRandomSelect_spec cs w4)
          as [ [ _ E5 ] | (selected & Hin & E5) ]; rewrite E5 in E
    end; [ discriminate | ].
    destruct (Queries.recordPick sessionId
                (MovieRow.id (WeightedCandidate.movie selected)) filters
                (after_random w4)) as [ [ [] | e ] w6 ]; [ | discriminate ].
    unfold ret in E. inversion E; subst mv.
    apply applyFirstPickBias_In in Hin. apply in_map_iff in Hin.
    destruct Hin as (row & <- & Hrow). simpl.
    exists row, (Queries.Map_get_or_empty genresMap (MovieRow.id row)).
    split; [ | split; [ | reflexivity ] ].
    + rewrite Hc in Hrow. apply run_candidateQuery_satisfies in Hrow.
      destruct Hrow as (mg & Hfrom & _). rewrite D1 in Hfrom.
      eapply from_rows_movies. exact Hfrom.
    + rewrite (getMoviesGenres_lookup _ _ _ _ (MovieRow.id row) E3)
        by (apply in_map; exact Hrow).
      replace (World.db w2) with (World.db w) by congruence.
      apply Permutation_refl.
  - intros body w w' movies mv E Hmv.
    unfold CandidatesRoute.handler, try_catch, bind in E.
    destruct (CandidatesRoute.exclusions body w)
      as [ [ excludeIds | e ] w1 ] eqn:E1; [ | discriminate ].
    destruct (leaves_store_run _ _ _ _ (leaves_store_exclusions body) E1)
      as [ D1 _ ].
    destruct (Queries.getCandidateMovies (CandidatesRoute.filters body)
                excludeIds w1) as [ [ candidates | e ] w2 ] eqn:E2;
      [ | discriminate ].
    unfold Queries.getCandidateMovies in E2.
    apply pool_query_select in E2. destruct E2 as [ Hc D2 ].
    destruct (Nat.eqb (List.length candidates) 0);
      [ inversion E; subst; contradiction | ].
    destruct (shuffle_run candidates w2) as (shuffled & w3 & E3 & P & D3 & _).
    rewrite E3 in E.
    match type of E with
    | context [ Queries.getMoviesGenres ?ids w3 ] =>
        destruct (Queries.getMoviesGenres ids w3)
          as [ [ genresMap | e ] w4 ] eqn:E4; [ | discriminate ]
    end.
    unfold ret in E. inversion E; subst movies. clear E.
    apply in_map_iff in Hmv. destruct Hmv as (row & <- & Hrow).
    exists row, (Queries.Map_get_or_empty genresMap (MovieRow.id row)).
    split; [ | split; [ | reflexivity ] ].
    + assert (Hcand : In row candidates).
      { eapply Permutation_in; [ exact P | ].
        unfold JS.slice in Hrow. apply firstn_In in Hrow.
        rewrite <- (firstn_skipn (Z.to_nat (JS.clamp_index
                       (Z.of_nat (List.length shuffled)) 0)) shuffled).
        apply in_or_app. right. exact Hrow. }
      rewrite Hc in Hcand. apply run_candidateQuery_satisfies in Hcand.
      destruct Hcand as (mg & Hfrom & _). rewrite D1 in Hfrom.
      eapply from_rows_movies. exact Hfrom.
    + rewrite (getMoviesGenres_lookup _ _ _ _ (MovieRow.id row) E4)
        by (apply in_map; exact Hrow).
      replace (World.db w3) with (World.db w) by congruence.
      apply Permutation_refl.
Qed.

Lemma resolved_movie_genres_witness :
  exists row genres,
    In row (DB.movies Sample.store)
    /\ Permutation genres
         (Queries.run_movieGenresQuery (MovieRow.id row) Sample.store)
    /\ Sample.picked = Picker.toMovie row genres.
Proof.
  destruct resolved_movie_genres as [ Hpick _ ].
  apply (Hpick "s1" Sample.comedies2010s (Sample.world Sample.store)
           Sample.afterPick Sample.picked).
  apply sample_pick.
Defined.
